(** * serapis: search aggregation and the task pipeline

    A shallow embedding of [serapis/search.py] and [serapis/tasks.py].

    Python values are a small JSON-like universe; dictionaries are
    association lists read by first match and written by replace-or-append.
    Code that can raise returns an [outcome]; logging, printing, spawning a
    worker, sleeping and writing to the store are events of a writer monad.
    What the two files import from elsewhere (the HTTP client, the page
    extractor, the language detector, the truth value of a job handle, the
    scheduler, the annotators) is a field of the record [world] for
    [search.py] and of the record [pipeline] for [tasks.py]. *)

From Stdlib Require Import List String Ascii Bool Arith ZArith QArith Qround Lia.
Import ListNotations.
Open Scope string_scope.
Open Scope list_scope.

Set Implicit Arguments.
Set Warnings "-register-all".

(** ** Python values *)

Inductive pyval : Type :=
| PNone
| PBool (b : bool)
| PInt (z : Z)
| PStr (s : string)
| PList (l : list pyval)
| PDict (d : list (string * pyval)).

Definition pydict := list (string * pyval).

(** [bool(v)]: [None], [False], [0], the empty string and empty containers are
    falsy. *)
Definition truthy (v : pyval) : bool :=
  match v with
  | PNone => false
  | PBool b => b
  | PInt z => negb (Z.eqb z 0)
  | PStr s => negb (String.eqb s "")
  | PList l => match l with [] => false | _ => true end
  | PDict d => match d with [] => false | _ => true end
  end.

Fixpoint dict_lookup (k : string) (d : pydict) : option pyval :=
  match d with
  | [] => None
  | (k', v) :: r => if String.eqb k k' then Some v else dict_lookup k r
  end.

Fixpoint dict_set (k : string) (v : pyval) (d : pydict) : pydict :=
  match d with
  | [] => [(k, v)]
  | (k', v') :: r =>
      if String.eqb k k' then (k, v) :: r else (k', v') :: dict_set k v r
  end.

(** ** Exceptions and outcomes *)

(** The exceptions of the model: four built-in classes that the code
    raises itself, and [Exc cls] for an instance of any other class, named
    by its class. *)
Inductive exn : Type :=
| KeyError (k : pyval)
| TypeError
| AttributeError
| UnboundLocalError (name : string)
| Exc (cls : string).

(** The classes of Python's hierarchy that derive from [BaseException] but
    not from [Exception].  Every other name stands for a class below
    [Exception], where library and user classes belong. *)
Definition outside_Exception : list string :=
  ["BaseException"; "SystemExit"; "KeyboardInterrupt"; "GeneratorExit"].

(** [isinstance(e, Exception)]: what [except Exception] catches.  A bare
    [except] catches every [exn]. *)
Definition is_exception (e : exn) : bool :=
  match e with
  | Exc cls => negb (existsb (String.eqb cls) outside_Exception)
  | _ => true
  end.

Inductive outcome (A : Type) : Type :=
| Ok (a : A)
| Raised (e : exn).
Arguments Ok {A} a.
Arguments Raised {A} e.

(** [v[k]] for a string key. *)
Definition py_getitem (v : pyval) (k : string) : outcome pyval :=
  match v with
  | PDict d => match dict_lookup k d with
               | Some x => Ok x
               | None => Raised (KeyError (PStr k))
               end
  | _ => Raised TypeError
  end.

(** [v.get(k, default)]: only dictionaries have the method. *)
Definition py_get (v : pyval) (k : string) (default : pyval) : outcome pyval :=
  match v with
  | PDict d => match dict_lookup k d with
               | Some x => Ok x
               | None => Ok default
               end
  | _ => Raised AttributeError
  end.

(** [v[k] = x] for a string key. *)
Definition py_setitem (v : pyval) (k : string) (x : pyval) : outcome pyval :=
  match v with
  | PDict d => Ok (PDict (dict_set k x d))
  | _ => Raised TypeError
  end.

Fixpoint chars (s : string) : list pyval :=
  match s with
  | EmptyString => []
  | String c r => PStr (String c EmptyString) :: chars r
  end.

(** What a [for] loop iterates over: the items of a list, the characters of
    a string, the keys of a dictionary. *)
Definition py_iter (v : pyval) : outcome (list pyval) :=
  match v with
  | PList l => Ok l
  | PStr s => Ok (chars s)
  | PDict d => Ok (map (fun kv => PStr (fst kv)) d)
  | _ => Raised TypeError
  end.

(** ** Strings *)

(** [sub in s] *)
Fixpoint contains (sub s : string) : bool :=
  String.prefix sub s ||
  match s with
  | EmptyString => false
  | String _ r => contains sub r
  end.

(** [s.endswith(suf)] *)
Fixpoint endswith (s suf : string) : bool :=
  String.eqb s suf ||
  match s with
  | EmptyString => false
  | String _ r => endswith r suf
  end.

(** ** Events and the writer monad *)

Inductive level := INFO | ERROR.

Inductive fmt_arg :=
| AStr (s : string)
| ANum (z : Z)
| AVal (v : pyval)
| ATrace (e : exn).

Inductive event :=
| Log (lv : level) (template : string) (args : list fmt_arg)
| Print (template : string) (args : list fmt_arg)
| Spawn (fn : string) (args : list pyval)
| Sleep
| Http (meth url : string) (params : list (string * string))
| S3Put (bucket key : string) (body : pyval)
| FileWrite (dir key : string) (body : pyval).

Definition M (A : Type) : Type := (outcome A * list event)%type.

Definition ret {A} (a : A) : M A := (Ok a, []).
Definition raise {A} (e : exn) : M A := (Raised e, []).
Definition emit (ev : event) : M unit := (Ok tt, [ev]).
Definition lift {A} (o : outcome A) : M A := (o, []).

Definition bind {A B} (m : M A) (f : A -> M B) : M B :=
  match m with
  | (Ok a, t) => let (r, t') := f a in (r, t ++ t')
  | (Raised e, t) => (Raised e, t)
  end.

(** [try m except: h] with a handler that sees the raised exception. *)
Definition try_except {A} (m : M A) (h : exn -> M A) : M A :=
  match m with
  | (Ok a, t) => (Ok a, t)
  | (Raised e, t) => let (r, t') := h e in (r, t ++ t')
  end.

(** [try m except Exception: h]: an exception outside [Exception] is not
    caught and goes on to the caller. *)
Definition try_except_Exception {A} (m : M A) (h : exn -> M A) : M A :=
  match m with
  | (Ok a, t) => (Ok a, t)
  | (Raised e, t) =>
      if is_exception e then let (r, t') := h e in (r, t ++ t')
      else (Raised e, t)
  end.

Declare Scope py_scope.
Delimit Scope py_scope with py.
Notation "x <- m ;; k" := (bind m (fun x => k))
  (at level 61, m at next level, right associativity) : py_scope.
Notation "m ;;; k" := (bind m (fun _ => k))
  (at level 61, right associativity) : py_scope.
Open Scope py_scope.

Definition log_info (template : string) (args : list fmt_arg) : M unit :=
  emit (Log INFO template args).
Definition log_error (template : string) (args : list fmt_arg) : M unit :=
  emit (Log ERROR template args).

Fixpoint mapM {A B} (f : A -> M B) (l : list A) : M (list B) :=
  match l with
  | [] => ret []
  | x :: r => y <- f x ;; ys <- mapM f r ;; ret (y :: ys)
  end.

(** A [try] block whose first statement binds a local [r] that the handler
    reads: [try: r = first; x = rest(r)  except: handler].  When [first]
    raises, the handler runs with [r] unbound ([None] here); when [rest]
    raises, with [r] bound. *)
Definition try_bound {R A} (first : M R) (rest : R -> M A)
    (handler : option R -> M A) : M A :=
  match first with
  | (Raised _, t) => let (x, t') := handler None in (x, t ++ t')
  | (Ok r, t) =>
      let (x, t') := try_except (rest r) (fun _ => handler (Some r)) in
      (x, t ++ t')
  end.

(** [for x in items: if ...: result.append(...)]: the body gives the entry to
    append, if any. *)
Fixpoint for_append (body : pyval -> M (option pyval)) (items result : list pyval)
    : M (list pyval) :=
  match items with
  | [] => ret result
  | x :: r =>
      o <- body x ;;
      for_append body r (match o with Some y => result ++ [y] | None => result end)
  end.

(** A provider field that the adapters hand to [qualify_search_result],
    which the model types on strings as its docstring does: a link or a
    preview of another JSON type raises [TypeError] here, where Python would
    go on with whatever tests that type supports. *)
Definition as_str (v : pyval) : outcome string :=
  match v with
  | PStr s => Ok s
  | _ => Raised TypeError
  end.

Definition dquote : string := String (ascii_of_nat 34) EmptyString.

(** ** Configuration and the outside world of [search.py] *)

Record Config := {
  search_engine : string;
  max_search_duration : Q;
  exclude_domains : list string;
  duckduckgo_sources : list string;
  credentials_diffbot : string;
  credentials_google : string;
  credentials_bing : string;
  google_cse : string
}.

Record response := {
  status_code : Z;
  reason : string;
  json : outcome pyval
}.

(** A job handle as its joiner sees it: the completion flag read after [t]
    sleeps of the joiner, and the value the worker leaves. *)
Record AsynchronousRequest := {
  done : nat -> bool;
  value : pyval
}.

Record world := {
  config : Config;
  (** serapis.language.is_english *)
  is_english : string -> bool;
  (** urlparse.urlparse(url).path, or the exception that urlparse raises
      (ValueError for a netloc with an unmatched bracket) *)
  urlparse_path : string -> outcome string;
  (** requests.utils.quote *)
  quote : string -> string;
  (** requests.get / requests.post: the response, or the exception raised *)
  requests_call : string -> string -> list (string * string) -> outcome response;
  (** PageRequest(url, term).structured *)
  PageRequest_structured : pyval -> string -> outcome pyval;
  (** PageRequest(url, term, run=False).extract_sentences(text), then
      (pr.sentences, list(pr.variants)) *)
  PageRequest_sentences : pyval -> string -> pyval -> outcome (pyval * pyval);
  (** serapis.util.merge_dict *)
  merge_dict : pyval -> pyval -> outcome pyval;
  (** dateutil's parse(...).isoformat() *)
  parse_date : pyval -> outcome pyval;
  (** bool(job) for a handle, read after [t] sleeps: the handle class lives
      in serapis.util and decides its own truth value *)
  request_bool : AsynchronousRequest -> nat -> bool;
  (** the scheduler: completion flag of the i-th enrichment job, of the
      DuckDuckGo job and of the primary-engine job, after [t] sleeps *)
  enrich_done : nat -> nat -> bool;
  ddg_done : nat -> bool;
  search_done : nat -> bool
}.

(** Modelled from the spec: the job handle of serapis.util
    (AsynchronousRequest, imported as [async]) is not among the sources.
    Scheduling starts the function on a worker and returns at once; the
    completion flag becomes true once the worker is finished, after which
    the handle's value is the function's result, or is absent ([None]) if
    the function failed.  The worker's own log lines are not part of the
    joiner's trace. *)
Definition async {A} (sched : nat -> bool) (inj : A -> pyval) (work : M A)
    : AsynchronousRequest :=
  {| done := sched;
     value := match fst work with Ok a => inj a | Raised _ => PNone end |}.

Definition Qltb (x y : Q) : bool := negb (Qle_bool y x).

(** ** search.py *)

Module Search.
Section WithWorld.

Variable W : world.

Definition requests_get (url : string) (params : list (string * string))
    : M response :=
  emit (Http "GET" url params) ;;; lift (requests_call W "GET" url params).

(** The basic authentication and the headers of the Bing request are not
    part of the trace. *)
Definition requests_post (url : string) (params : list (string * string))
    : M response :=
  emit (Http "POST" url params) ;;; lift (requests_call W "POST" url params).

(** [qualify_search_result(url, text, date=None)].  [date] is not read.
    The url is parsed only after the domain and language tests, and there
    is no handler around [urlparse.urlparse]. *)
Definition qualify_search_result (url text : string) (date : option string)
    : M bool :=
  if existsb (fun domain => contains domain url) (exclude_domains (config W))
  then ret false
  else if negb (String.eqb text "") && negb (is_english W text)
  then log_info "Excluded non-english result '{}'" [AStr text] ;;; ret false
  else
    path <- lift (urlparse_path W url) ;;
    if endswith path ".pdf"
    then ret false
    else ret true.

(** The handler of the [try] in [search_google] and [search_bing]: it formats
    [r.status_code] and [r.reason], and [r] is bound only if the request
    itself returned. *)
Definition search_failed (template term : string) (r : option response)
    : M (pyval + list pyval) :=
  match r with
  | None => raise (UnboundLocalError "r")
  | Some r =>
      log_error template [AStr term; ANum (status_code r); AStr (reason r)] ;;;
      ret (inr [])
  end.

Definition search_google (term : string) : M (list pyval) :=
  tried <- try_bound
    (requests_get "https://www.googleapis.com/customsearch/v1"
       [("key", credentials_google (config W)); ("cx", google_cse (config W));
        ("q", term); ("lr", "lang_en")])
    (fun r =>
       j <- lift (json r) ;;
       data <- lift (py_get j "items" (PList [])) ;;
       ret (inl data))
    (search_failed "GOOGLE search failed for '{}' (Status: {} / {})" term) ;;
  match tried with
  | inr result => ret result
  | inl data =>
      items <- lift (py_iter data) ;;
      result <- for_append (fun search_result =>
          link <- lift (py_getitem search_result "link") ;;
          snippet <- lift (py_getitem search_result "snippet") ;;
          url <- lift (as_str link) ;;
          text <- lift (as_str snippet) ;;
          q <- qualify_search_result url text None ;;
          if q then
            title <- lift (py_getitem search_result "title") ;;
            ret (Some (PDict [("url", link); ("search_provider", PStr "google");
                              ("date", PNone); ("summary", snippet);
                              ("title", title)]))
          else ret None) items [] ;;
      log_info "Searching Google for '{}' returned {} results"
        [AStr term; ANum (Z.of_nat (List.length result))] ;;;
      ret result
  end.

Definition search_bing (term : string) : M (list pyval) :=
  tried <- try_bound
    (requests_post "https://api.datamarket.azure.com/Bing/Search/Web"
       [("Query", ("'" ++ term ++ "'")%string); ("$format", "JSON");
        ("Market", "'en-US'"); ("Options", "'DisableLocationDetection'");
        ("Adult", "'Moderate'")])
    (fun r =>
       j <- lift (json r) ;;
       d <- lift (py_get j "d" (PDict [])) ;;
       data <- lift (py_get d "results" (PList [])) ;;
       ret (inl data))
    (search_failed "BING search failed for '{}' (Status: {} / {})" term) ;;
  match tried with
  | inr result => ret result
  | inl data =>
      items <- lift (py_iter data) ;;
      result <- for_append (fun search_result =>
          link <- lift (py_getitem search_result "Url") ;;
          snippet <- lift (py_getitem search_result "Description") ;;
          url <- lift (as_str link) ;;
          text <- lift (as_str snippet) ;;
          q <- qualify_search_result url text None ;;
          if q then
            title <- lift (py_getitem search_result "Title") ;;
            ret (Some (PDict [("url", link); ("search_provider", PStr "bing");
                              ("date", PNone); ("summary", snippet);
                              ("title", title)]))
          else ret None) items [] ;;
      log_info "Searching Bing for '{}' returned {} results (out of {})"
        [AStr term; ANum (Z.of_nat (List.length result)); ANum (Z.of_nat (List.length items))] ;;;
      ret result
  end.

Definition search_diffbot_cache (term : string) : M (list pyval) :=
  r <- requests_get "http://api.diffbot.com/v3/search"
         [("token", credentials_diffbot (config W));
          ("query", quote W (dquote ++ term ++ dquote)%string);
          ("col", "GLOBAL-INDEX")] ;;
  response <- lift (json r) ;;
  objects <- lift (py_get response "objects" PNone) ;;
  (if truthy objects then ret tt
   else
     error <- lift (py_get response "error" PNone) ;;
     if truthy error then
       e <- lift (py_getitem response "error") ;;
       c <- lift (py_getitem response "errorCode") ;;
       emit (Print "Response Error '{}' (code: {})" [AVal e; AVal c])
     else emit (Print "NO RESULTS" [])) ;;;
  objects <- lift (py_get response "objects" (PList [])) ;;
  items <- lift (py_iter objects) ;;
  for_append (fun object =>
      text <- lift (py_get object "text" PNone) ;;
      if truthy text then
        page_url <- lift (py_get object "pageUrl" PNone) ;;
        pr <- lift (PageRequest_sentences W page_url term text) ;;
        title <- lift (py_get object "title" PNone) ;;
        author <- lift (py_get object "author" PNone) ;;
        date <- lift (py_get object "date" (PStr "")) ;;
        date <- lift (parse_date W date) ;;
        ret (Some (PDict [("title", title); ("url", page_url);
                          ("search_provider", PStr "diffbot");
                          ("author", author); ("date", date); ("doc", text);
                          ("sentences", fst pr); ("variants", snd pr)]))
      else ret None) items [].

(** [x not in config.duckduckgo_sources] *)
Definition in_sources (x : pyval) : bool :=
  match x with
  | PStr s => existsb (String.eqb s) (duckduckgo_sources (config W))
  | _ => false
  end.

Definition search_duckduckgo (term : string) : M (list pyval) :=
  let result := [] in
  tried <- try_except
    (r <- requests_get
            ("http://api.duckduckgo.com/?q=" ++ term ++ "&format=json")%string [] ;;
     req <- lift (json r) ;;
     ret (inl req))
    (fun _ => ret (inr result)) ;;
  match tried with
  | inr result => ret result
  | inl req =>
      source <- lift (py_getitem req "AbstractSource") ;;
      if negb (in_sources source) then ret result
      else
        abstract <- lift (py_get req "Abstract" PNone) ;;
        result <-
          (if truthy abstract then
             url <- lift (py_getitem req "AbstractURL") ;;
             doc <- lift (py_getitem req "Abstract") ;;
             pr <- lift (PageRequest_sentences W url term doc) ;;
             title <- lift (py_getitem req "Heading") ;;
             ret (result ++
                  [PDict [("title", title); ("url", url);
                          ("search_provider", PStr "duckduckgo");
                          ("author", PNone); ("date", PNone);
                          ("source", source); ("doc", doc);
                          ("sentences", fst pr); ("variants", snd pr)]])
           else ret result) ;;
        definition <- lift (py_get req "Definition" PNone) ;;
        result <-
          (if truthy definition then
             url <- lift (py_getitem req "DefinitionURL") ;;
             doc <- lift (py_getitem req "Definition") ;;
             pr <- lift (PageRequest_sentences W url term doc) ;;
             title <- lift (py_getitem req "Heading") ;;
             dsource <- lift (py_getitem req "DefinitionSource") ;;
             ret (result ++
                  [PDict [("title", title); ("url", url); ("source", dsource);
                          ("search_provider", PStr "duckduckgo");
                          ("author", PNone); ("date", PNone); ("doc", doc);
                          ("sentences", fst pr); ("variants", snd pr)]])
           else ret result) ;;
        log_info "Searching DuckDuckGo for '{}' returned {} results"
          [AStr term; ANum (Z.of_nat (List.length result))] ;;;
        ret result
  end.

(** [extract_wrapper(url_object, term)].  The handler is an
    [except Exception]; it formats [url_object['url']] again before it
    returns the url object. *)
Definition extract_wrapper (url_object : pyval) (term : string) : M pyval :=
  tried <- try_except_Exception
    (u <- lift (py_getitem url_object "url") ;;
     result <- lift (PageRequest_structured W u term) ;;
     ret (inl result))
    (fun e =>
       u <- lift (py_getitem url_object "url") ;;
       log_error "Failed to get page {} -- {}" [AVal u; ATrace e] ;;;
       ret (inr url_object)) ;;
  match tried with
  | inr unenriched => ret unenriched
  | inl result => lift (merge_dict W url_object result)
  end.

Definition emit_all (evs : list event) : M unit := (Ok tt, evs).

(** [[async(extract_wrapper, url_object, term) for url_object in search_result]]:
    the job of the i-th url object completes when the scheduler says so and
    leaves what [extract_wrapper] returns. *)
Fixpoint spawn_from (i : nat) (term : string) (search_result : list pyval)
    : list AsynchronousRequest :=
  match search_result with
  | [] => []
  | url_object :: r =>
      async (enrich_done W i) (fun v => v) (extract_wrapper url_object term)
      :: spawn_from (S i) term r
  end.

Definition all_jobs (jobs : list AsynchronousRequest) (t : nat) : bool :=
  forallb (fun job => request_bool W job t) jobs.

(** [while not all(jobs) and time_waited < config.max_search_duration:
        time.sleep(.5); time_waited += .5]
    [t] counts the sleeps made so far; the loop leaves [(t, time_waited)].
    Multiples of one half are exact in binary floating point, hence the
    rationals. *)
Fixpoint poll (fuel : nat) (jobs : list AsynchronousRequest) (t : nat)
    (time_waited : Q) : option (nat * Q) :=
  if negb (all_jobs jobs t)
     && Qltb time_waited (max_search_duration (config W))
  then match fuel with
       | O => None
       | S fuel' => poll fuel' jobs (S t) (time_waited + (1 # 2))
       end
  else Some (t, time_waited).

(** [[job.value for job in jobs if job.done]], read after [t] sleeps. *)
Definition done_values (jobs : list AsynchronousRequest) (t : nat) : list pyval :=
  map value (filter (fun job => done job t) jobs).

(** [search_and_parse(search_func, term)]; [None] only when the fuel of the
    polling loop runs out. *)
Definition search_and_parse (fuel : nat) (search_func : string -> M (list pyval))
    (term : string) : option (M (list pyval)) :=
  let called := search_func term in
  match fst called with
  | Raised e => Some (Raised e, snd called)
  | Ok search_result =>
      let jobs := spawn_from 0 term search_result in
      match poll fuel jobs 0 0 with
      | None => None
      | Some (t, _) =>
          Some (called ;;;
                emit_all (map (fun url_object =>
                            Spawn "extract_wrapper" [url_object; PStr term])
                          search_result) ;;;
                emit_all (repeat Sleep t) ;;;
                let result := done_values jobs t in
                log_info "Parsing URLs for '{}' yielded {} results, {} urls lost"
                  [AStr term; ANum (Z.of_nat (List.length result));
                   ANum (Z.of_nat (List.length search_result)
                         - Z.of_nat (List.length result))] ;;;
                ret result)
      end
  end.

(** [{'bing': search_bing, 'google': search_google}.get(config.search_engine)] *)
Definition engines : list (string * (string -> M (list pyval))) :=
  [("bing", search_bing); ("google", search_google)].

Fixpoint engine_get (name : string)
    (table : list (string * (string -> M (list pyval))))
    : option (string -> M (list pyval)) :=
  match table with
  | [] => None
  | (k, f) :: r => if String.eqb name k then Some f else engine_get name r
  end.

(** [while not (ddg.done and search.done): time.sleep(.5)] *)
Fixpoint wait_both (fuel : nat) (ddg search : AsynchronousRequest) (t : nat)
    : option nat :=
  if negb (done ddg t && done search t)
  then match fuel with
       | O => None
       | S fuel' => wait_both fuel' ddg search (S t)
       end
  else Some t.

(** [(job.value or [])], for a handle whose function returns a list. *)
Definition value_or_empty (job : AsynchronousRequest) : list pyval :=
  match value job with
  | PList l => l
  | _ => []
  end.

(** [search_all(term)]; [None] only when the fuel of a polling loop runs
    out. *)
Definition search_all (fuel : nat) (term : string) : option (M (list pyval)) :=
  match engine_get (search_engine (config W)) engines with
  | None =>
      Some (log_info "Sarching for '{}'" [AStr term] ;;;
            log_error "Invalid search engine '{}' defined in config"
              [AStr (search_engine (config W))] ;;;
            ret [])
  | Some engine =>
      match search_and_parse fuel engine term with
      | None => None
      | Some parsed =>
          let ddg := async (ddg_done W) PList (search_duckduckgo term) in
          let search := async (search_done W) PList parsed in
          match wait_both fuel ddg search 0 with
          | None => None
          | Some t =>
              Some (log_info "Sarching for '{}'" [AStr term] ;;;
                    emit (Spawn "search_duckduckgo" [PStr term]) ;;;
                    emit (Spawn "search_and_parse"
                            [PStr (search_engine (config W)); PStr term]) ;;;
                    emit_all (repeat Sleep t) ;;;
                    let combined := value_or_empty ddg ++ value_or_empty search in
                    let result := filter truthy combined in
                    log_info "Searching URLs for '{}' yielded {} results"
                      [AStr term; ANum (Z.of_nat (List.length result))] ;;;
                    ret result)
          end
      end
  end.

End WithWorld.
End Search.

(** ** tasks.py *)

(** What [tasks.py] takes from the configuration and from other modules.
    The annotators work on the object they are handed, so each is given as
    the state it leaves that object in, or the exception it raises. *)
Record pipeline := {
  save_messages : bool;
  bucket : string;
  local_s3 : string;
  (** serapis.search.search_all, as a value: what the aggregator returns for
      the word once its join has ended *)
  search_all : pyval -> outcome (list pyval);
  (** serapis.util.now() *)
  now : pyval;
  (** serapis.annotate.batch_tag_sentences, readability_score *)
  batch_tag_sentences : pyval -> outcome pyval;
  readability_score : pyval -> outcome pyval;
  (** serapis.features.match_wordnik_rules *)
  match_wordnik_rules : pyval -> outcome pyval;
  (** serapis.save.save_all *)
  save_all : pyval -> outcome unit;
  (** how [format] renders a value that is not a string *)
  format_other : pyval -> string
}.

Module Tasks.
Section WithPipeline.

Variable P : pipeline.

Definition py_format (v : pyval) : string :=
  match v with
  | PStr s => s
  | _ => format_other P v
  end.

(** A callee that works on the object it is handed: a dictionary stays a
    dictionary and a list a list, with the contents the callee leaves;
    anything else cannot change. *)
Definition in_place (f : pyval -> outcome pyval) (v : pyval) : M pyval :=
  v' <- lift (f v) ;;
  ret match v, v' with
      | PDict _, PDict _ => v'
      | PList _, PList _ => v'
      | _, _ => v
      end.

Fixpoint mapM_idx {A B} (f : nat -> A -> M B) (i : nat) (l : list A)
    : M (list B) :=
  match l with
  | [] => ret []
  | x :: r => y <- f i x ;; ys <- mapM_idx f (S i) r ;; ret (y :: ys)
  end.

(** [for idx, x in enumerate(iterable): body], where the body works on [x]
    in place: the items of a list are left in the state the body gives
    them; the characters of a string and the keys of a dictionary are
    strings and stay as they are. *)
Definition for_each (iterable : pyval) (body : nat -> pyval -> M pyval)
    : M pyval :=
  match iterable with
  | PList l => l' <- mapM_idx body 0 l ;; ret (PList l')
  | _ =>
      items <- lift (py_iter iterable) ;;
      mapM_idx body 0 items ;;;
      ret iterable
  end.

Fixpoint nth_char (s : string) (i : nat) : option pyval :=
  match s, i with
  | EmptyString, _ => None
  | String c _, O => Some (PStr (String c EmptyString))
  | String _ r, S j => nth_char r j
  end.

(** [v[idx]] for an integer index of [enumerate]. *)
Definition py_index (v : pyval) (idx : nat) : outcome pyval :=
  match v with
  | PList l => match nth_error l idx with
               | Some x => Ok x
               | None => Raised (Exc "IndexError")
               end
  | PStr s => match nth_char s idx with
              | Some x => Ok x
              | None => Raised (Exc "IndexError")
              end
  | PDict _ => Raised (KeyError (PInt (Z.of_nat idx)))
  | _ => Raised TypeError
  end.

(** [write_message(task, message)]: both branches store the serialised
    message under the key ["<task>:<hashslug>"]. *)
Definition write_message (task : string) (message : pyval) : M pyval :=
  hashslug <- lift (py_getitem message "hashslug") ;;
  let key := (task ++ ":" ++ py_format hashslug)%string in
  (if save_messages P
   then emit (S3Put (bucket P) key message)
   else emit (FileWrite (local_s3 P) key message)) ;;;
  ret message.

Definition search (message : pyval) : M pyval :=
  word <- lift (py_getitem message "word") ;;
  urls <- lift (search_all P word) ;;
  message <- lift (py_setitem message "urls" (PList urls)) ;;
  message <- lift (py_setitem message "crawl_date" (now P)) ;;
  write_message "detect" message.

Definition detect (message : pyval) : M pyval :=
  message <- in_place (batch_tag_sentences P) message ;;
  urls <- lift (py_getitem message "urls") ;;
  urls <- for_each urls (fun _ url_object =>
      url_object <- in_place (readability_score P) url_object ;;
      sentences <- lift (py_getitem url_object "sentences") ;;
      sentences <- for_each sentences (fun idx _ =>
          sentence <- lift (py_index sentences idx) ;;
          sentence_clean <- lift (py_getitem sentence "s_clean") ;;
          patterns <- lift (match_wordnik_rules P sentence_clean) ;;
          lift (py_setitem sentence "patterns" patterns)) ;;
      lift (py_setitem url_object "sentences" sentences)) ;;
  message <- lift (py_setitem message "urls" urls) ;;
  write_message "rate" message.

Definition rate (message : pyval) : M pyval :=
  urls <- lift (py_getitem message "urls") ;;
  urls <- for_each urls (fun _ url =>
      sentences <- lift (py_getitem url "sentences") ;;
      sentences <- for_each sentences (fun _ sentence =>
          lift (py_setitem sentence "rating" (PInt 0))) ;;
      lift (py_setitem url "sentences" sentences)) ;;
  message <- lift (py_setitem message "urls" urls) ;;
  write_message "save" message.

Definition save (message : pyval) : M pyval :=
  lift (save_all P message) ;;;
  ret message.

End WithPipeline.
End Tasks.

(** The keys and bodies put to the store, oldest first. *)
Fixpoint written (trace : list event) : list (string * pyval) :=
  match trace with
  | [] => []
  | S3Put _ key body :: r => (key, body) :: written r
  | FileWrite _ key body :: r => (key, body) :: written r
  | _ :: r => written r
  end.

(** ** A world to run the code in

    Google is the configured engine and answers ten hits; enrichment takes
    one polling interval for the first seven and never ends for the other
    three; the page of hit 3 cannot be fetched.  A handle is truthy once it
    is complete. *)

Module Example.

Definition hit (n : string) : pyval :=
  PDict [("link", PStr ("http://example.org/" ++ n));
         ("snippet", PStr "to put off doing something");
         ("title", PStr ("page " ++ n))].

Definition url_object_of (n : string) : pyval :=
  PDict [("url", PStr ("http://example.org/" ++ n));
         ("search_provider", PStr "google"); ("date", PNone);
         ("summary", PStr "to put off doing something");
         ("title", PStr ("page " ++ n))].

Definition numbers : list string :=
  ["0"; "1"; "2"; "3"; "4"; "5"; "6"; "7"; "8"; "9"].

Definition instant_answer : pyval :=
  PDict [("AbstractSource", PStr "Wikipedia");
         ("Abstract", PStr "Procrastination is the act of delaying.");
         ("AbstractURL", PStr "http://example.org/0");
         ("Heading", PStr "Procrastination");
         ("Definition", PStr "")].

Definition answer (body : pyval) : outcome response :=
  Ok {| status_code := 200; reason := "OK"; json := Ok body |}.

Definition network (meth url : string) (params : list (string * string))
    : outcome response :=
  if String.eqb url "https://www.googleapis.com/customsearch/v1"
  then answer (PDict [("items", PList (map hit numbers))])
  else if String.prefix "http://api.duckduckgo.com/" url
  then answer instant_answer
  else Raised (Exc "ConnectionError").

Definition dict_merge (a b : pyval) : pyval :=
  match a, b with
  | PDict x, PDict y =>
      PDict (fold_left (fun d kv => dict_set (fst kv) (snd kv) d) y x)
  | _, _ => a
  end.

Definition page (u : pyval) (term : string) : outcome pyval :=
  match u with
  | PStr "http://example.org/3" => Raised (Exc "Timeout")
  | _ => Ok (PDict [("doc", PStr "Never put off till tomorrow.");
                    ("sentences",
                     PList [PDict [("s", PStr "Never put off till tomorrow.");
                                   ("s_clean", PStr "never put off till tomorrow")]])])
  end.

Definition config_with (engine : string) : Config :=
  {| search_engine := engine;
     max_search_duration := 2;
     exclude_domains := ["pinterest.com"];
     duckduckgo_sources := ["Wikipedia"];
     credentials_diffbot := "d";
     credentials_google := "g";
     credentials_bing := "b";
     google_cse := "cse" |}.

(** A stand-in for [urlparse]: the path is taken to be the url itself, and
    the one url of the examples whose netloc opens a bracket that it never
    closes is refused, as [urlparse] refuses it, with ValueError. *)
Definition path_of (url : string) : outcome string :=
  if String.eqb url "http://[oops/x" then Raised (Exc "ValueError")
  else Ok url.

Definition world_with (engine : string)
    (net : string -> string -> list (string * string) -> outcome response)
    : world :=
  {| config := config_with engine;
     is_english := fun _ => true;
     urlparse_path := path_of;
     quote := fun s => s;
     requests_call := net;
     PageRequest_structured := page;
     PageRequest_sentences := fun _ _ text =>
       Ok (PList [PDict [("s", text); ("s_clean", text)]], PList []);
     merge_dict := fun a b => Ok (dict_merge a b);
     parse_date := fun d => Ok d;
     request_bool := fun job t => done job t;
     enrich_done := fun i t => (i <? 7)%nat && (1 <=? t)%nat;
     ddg_done := fun t => (1 <=? t)%nat;
     search_done := fun t => (5 <=? t)%nat |}.

Definition the_world : world := world_with "google" network.

(** The same world with an engine that is not in the table. *)
Definition misconfigured : world := world_with "yahoo" network.

(** The same world with no network: every request raises. *)
Definition offline : world :=
  world_with "google" (fun _ _ _ => Raised (Exc "ConnectionError")).

(** The same world with providers that answer, but not in JSON. *)
Definition garbled : world :=
  world_with "google" (fun _ _ _ =>
    Ok {| status_code := 502; reason := "Bad Gateway";
          json := Raised (Exc "ValueError") |}).

(** The example world with job handles that are truthy from the start, as
    an object is whose class defines no truth value. *)
Definition eager : world :=
  {| config := config the_world;
     is_english := is_english the_world;
     urlparse_path := urlparse_path the_world;
     quote := quote the_world;
     requests_call := requests_call the_world;
     PageRequest_structured := PageRequest_structured the_world;
     PageRequest_sentences := PageRequest_sentences the_world;
     merge_dict := merge_dict the_world;
     parse_date := parse_date the_world;
     request_bool := fun _ _ => true;
     enrich_done := enrich_done the_world;
     ddg_done := ddg_done the_world;
     search_done := search_done the_world |}.

(** An instant answer from a source outside the allow-list, with a
    definition. *)
Definition unlisted_answer : pyval :=
  PDict [("AbstractSource", PStr "Urban Dictionary");
         ("Abstract", PStr "Putting it off.");
         ("AbstractURL", PStr "http://example.org/ud");
         ("Heading", PStr "Procrastinate");
         ("Definition", PStr "to defer action");
         ("DefinitionURL", PStr "http://example.org/mw");
         ("DefinitionSource", PStr "Merriam-Webster")].

Definition unlisted : world :=
  world_with "google" (fun _ _ _ => answer unlisted_answer).

(** Whether a result carries the given url. *)
Definition url_is (u : string) (x : pyval) : bool :=
  match py_getitem x "url" with
  | Ok (PStr s) => String.eqb s u
  | _ => false
  end.

(** A pipeline to run the stages in: the aggregator finds two pages, the
    batch tagger leaves the message as it is, the readability score is a
    new field of the url object, and no rule matches any sentence. *)
Definition sentence (text clean : string) : pyval :=
  PDict [("s", PStr text); ("s_clean", PStr clean)].

Definition found : list pyval :=
  [PDict [("url", PStr "http://example.org/0");
          ("doc", PStr "Never put off till tomorrow. Do it today.");
          ("sentences", PList [sentence "Never put off till tomorrow."
                                        "never put off till tomorrow";
                               sentence "Do it today." "do it today"])];
   PDict [("url", PStr "http://example.org/1"); ("doc", PStr "");
          ("sentences", PList [])]].

Definition score (u : pyval) : outcome pyval :=
  match u with
  | PDict d => Ok (PDict (dict_set "readability" (PInt 7) d))
  | _ => Raised TypeError
  end.

Definition pipeline_finding (urls : list pyval) : pipeline :=
  {| save_messages := false;
     bucket := "serapis";
     local_s3 := "/tmp/s3";
     search_all := fun _ => Ok urls;
     now := PStr "2015-11-20T12:00:00";
     batch_tag_sentences := fun m => Ok m;
     readability_score := score;
     match_wordnik_rules := fun _ => Ok (PList []);
     save_all := fun _ => Ok tt;
     format_other := fun _ => "?" |}.

Definition the_pipeline : pipeline := pipeline_finding found.

(** The same pipeline when the aggregator finds nothing, as it does with an
    engine that is not in the table. *)
Definition quiet : pipeline := pipeline_finding [].

Definition seed : pyval :=
  PDict [("word", PStr "procrastinate");
         ("hashslug", PStr "procrastinate:6ad283")].

(** The message of [seed] after a search that found nothing. *)
Definition nothing_found : pyval :=
  PDict [("word", PStr "procrastinate");
         ("hashslug", PStr "procrastinate:6ad283");
         ("urls", PList []);
         ("crawl_date", PStr "2015-11-20T12:00:00")].

(** A message whose one url object was never enriched: it has the fields
    Google gave it and no sentences. *)
Definition unenriched : pyval :=
  PDict [("word", PStr "procrastinate");
         ("hashslug", PStr "procrastinate:6ad283");
         ("urls", PList [url_object_of "3"]);
         ("crawl_date", PStr "2015-11-20T12:00:00")].

End Example.

(** * The vocabulary of the properties *)

Section Terms.

Variable W : world.

(** The three reasons for which a search result is not worth parsing. *)
Definition excluded_domain (url : string) : Prop :=
  exists domain, In domain (exclude_domains (config W)) /\
    exists pre post, url = (pre ++ domain ++ post)%string.

Definition not_english (text : string) : Prop :=
  text <> "" /\ is_english W text = false.

Definition pdf_path (url : string) : Prop :=
  exists pre, urlparse_path W url = Ok (pre ++ ".pdf")%string.

Definition disqualified (url text : string) : Prop :=
  excluded_domain url \/ not_english text \/ pdf_path url.

(** The time tracked after [t] sleeps of half a second. *)
Definition half (t : nat) : Q := inject_Z (Z.of_nat t) * (1 # 2).

(** Sleeps after which the tracked time has reached the maximum. *)
Definition sleeps_needed : nat :=
  Z.to_nat (Qceiling (max_search_duration (config W) * 2)).

(** The url objects whose enrichment job is complete, and those whose job
    is still running, after [t] sleeps; jobs are numbered from [i]. *)
Fixpoint completed_from (i : nat) (search_result : list pyval) (t : nat)
    : list pyval :=
  match search_result with
  | [] => []
  | url_object :: r =>
      if enrich_done W i t then url_object :: completed_from (S i) r t
      else completed_from (S i) r t
  end.

Fixpoint pending_from (i : nat) (search_result : list pyval) (t : nat)
    : list pyval :=
  match search_result with
  | [] => []
  | url_object :: r =>
      if enrich_done W i t then pending_from (S i) r t
      else url_object :: pending_from (S i) r t
  end.

(** What the job of a url object leaves as its value. *)
Definition enriched (term : string) (url_object : pyval) : pyval :=
  match fst (Search.extract_wrapper W url_object term) with
  | Ok v => v
  | Raised _ => PNone
  end.

(** The joiner's own trace of a call of [search_and_parse] that stops
    polling after [t] sleeps. *)
Definition join_trace (term : string) (search_result : list pyval) (t : nat)
    (yielded : nat) : list event :=
  map (fun url_object => Spawn "extract_wrapper" [url_object; PStr term])
      search_result
  ++ repeat Sleep t
  ++ [Log INFO "Parsing URLs for '{}' yielded {} results, {} urls lost"
        [AStr term; ANum (Z.of_nat yielded);
         ANum (Z.of_nat (List.length search_result) - Z.of_nat yielded)]].

(** What a job whose function returns a list contributes to the merge. *)
Definition contribution (work : M (list pyval)) : list pyval :=
  match fst work with
  | Ok l => l
  | Raised _ => []
  end.

Definition ddg_url (term : string) : string :=
  ("http://api.duckduckgo.com/?q=" ++ term ++ "&format=json")%string.

End Terms.

(** ** Payloads of the task pipeline *)

Definition has_key (k : string) (d : pydict) : bool :=
  match dict_lookup k d with
  | Some _ => true
  | None => false
  end.

(** Every key of the old dictionary is a key of the new one. *)
Definition keys_kept (old new : pyval) : bool :=
  match old with
  | PDict d =>
      match new with
      | PDict d' => forallb (fun kv => has_key (fst kv) d') d
      | _ => false
      end
  | _ => true
  end.

Fixpoint forall2b {A} (p : A -> A -> bool) (l l' : list A) : bool :=
  match l, l' with
  | [], [] => true
  | x :: r, y :: r' => p x y && forall2b p r r'
  | _, _ => false
  end.

(** A list keeps its length and each item is kept. *)
Definition items_kept (kept : pyval -> pyval -> bool) (old new : pyval) : bool :=
  match old with
  | PList l =>
      match new with
      | PList l' => forall2b kept l l'
      | _ => false
      end
  | _ => true
  end.

(** The items of the list under key [k], when the old dictionary has it. *)
Definition field_items_kept (k : string) (kept : pyval -> pyval -> bool)
    (old new : pyval) : bool :=
  match old with
  | PDict d =>
      match dict_lookup k d with
      | Some v =>
          match new with
          | PDict d' =>
              match dict_lookup k d' with
              | Some v' => items_kept kept v v'
              | None => false
              end
          | _ => false
          end
      | None => true
      end
  | _ => true
  end.

(** No field of a payload is removed: the message keeps its keys, its url
    objects keep theirs, and so do their sentences. *)
Definition sentence_kept (s s' : pyval) : bool := keys_kept s s'.

Definition url_kept (u u' : pyval) : bool :=
  keys_kept u u' && field_items_kept "sentences" sentence_kept u u'.

Definition payload_kept (m m' : pyval) : bool :=
  keys_kept m m' && field_items_kept "urls" url_kept m m'.

(** A strict superset: nothing removed, something added. *)
Definition payload_grows (m m' : pyval) : bool :=
  payload_kept m m' && negb (payload_kept m' m).

Section PipelineTerms.

Variable P : pipeline.

(** What [detect] needs of the annotators to keep the fields: each leaves
    every field of the object it is handed, and the batch tagger leaves the
    hashslug as it is. *)
Definition annotators_keep_fields : Prop :=
  (forall m m', batch_tag_sentences P m = Ok m' ->
     payload_kept m m' = true /\
     py_getitem m' "hashslug" = py_getitem m "hashslug") /\
  (forall u u', readability_score P u = Ok u' -> url_kept u u' = true).

(** A url object that [rate] can work on: it has a list of sentences, each
    a dictionary. *)
Definition rateable (u : pyval) : Prop :=
  exists sentences,
    py_getitem u "sentences" = Ok (PList sentences) /\
    Forall (fun s => exists d, s = PDict d) sentences.

(** A url object that [detect] can work on: the readability score returns,
    and leaves a list of sentences, each with a clean text on which the rule
    matcher returns. *)
Definition detectable (u : pyval) : Prop :=
  exists u1 sentences,
    Tasks.in_place (readability_score P) u = (Ok u1, []) /\
    py_getitem u1 "sentences" = Ok (PList sentences) /\
    Forall (fun s => exists clean patterns,
              py_getitem s "s_clean" = Ok clean /\
              match_wordnik_rules P clean = Ok patterns) sentences.

End PipelineTerms.

(** The claim with every payload a strict superset of the one before. *)
Definition strict_pipeline (P : pipeline) (seed : pyval) : Prop :=
  forall word h,
    py_getitem seed "word" = Ok word ->
    py_getitem seed "hashslug" = Ok (PStr h) ->
    exists m1 t1 m2 t2 m3 t3,
      Tasks.search P seed = (Ok m1, t1) /\
      Tasks.detect P m1 = (Ok m2, t2) /\
      Tasks.rate P m2 = (Ok m3, t3) /\
      written (t1 ++ t2 ++ t3)
      = [(("detect:" ++ h)%string, m1);
         (("rate:" ++ h)%string, m2);
         (("save:" ++ h)%string, m3)] /\
      payload_grows seed m1 = true /\
      payload_grows m1 m2 = true /\
      payload_grows m2 m3 = true.

(** The claim that a stage persists a message whatever it is given. *)
Definition always_persists (stage : pyval -> M pyval) : Prop :=
  forall message,
    exists m' key,
      fst (stage message) = Ok m' /\
      written (snd (stage message)) = [(key, m')].

(** ** What the adapters make of an answer *)

Section AdapterTerms.

Variable W : world.

(** An item of a provider's answer as the Google and Bing adapters read it:
    a dictionary with a link and a preview that are strings, and a title;
    the link is one that [urlparse] splits. *)
Definition readable_item (link_key snippet_key title_key : string)
    (item : pyval) : Prop :=
  exists url text title,
    py_getitem item link_key = Ok (PStr url) /\
    py_getitem item snippet_key = Ok (PStr text) /\
    py_getitem item title_key = Ok title /\
    exists path, urlparse_path W url = Ok path.

Definition field_or_none (item : pyval) (k : string) : pyval :=
  match py_getitem item k with
  | Ok v => v
  | Raised _ => PNone
  end.

(** Whether the qualifier accepts the link and the preview of an item. *)
Definition item_qualifies (link_key snippet_key : string) (item : pyval) : bool :=
  match field_or_none item link_key, field_or_none item snippet_key with
  | PStr url, PStr text =>
      match fst (Search.qualify_search_result W url text None) with
      | Ok b => b
      | Raised _ => false
      end
  | _, _ => false
  end.

(** The url object that the Google and Bing adapters build from an item. *)
Definition url_object_from (provider link_key snippet_key title_key : string)
    (item : pyval) : pyval :=
  PDict [("url", field_or_none item link_key);
         ("search_provider", PStr provider);
         ("date", PNone);
         ("summary", field_or_none item snippet_key);
         ("title", field_or_none item title_key)].

Definition google_request (term : string) : list (string * string) :=
  [("key", credentials_google (config W)); ("cx", google_cse (config W));
   ("q", term); ("lr", "lang_en")].

Definition bing_request (term : string) : list (string * string) :=
  [("Query", ("'" ++ term ++ "'")%string); ("$format", "JSON");
   ("Market", "'en-US'"); ("Options", "'DisableLocationDetection'");
   ("Adult", "'Moderate'")].

End AdapterTerms.

(** The entries that a loop appends, given what its body yields per item. *)
Definition appended (g : pyval -> option pyval) (items : list pyval) : list pyval :=
  flat_map (fun x => match g x with Some y => [y] | None => [] end) items.

(** ** More worlds to run the code in *)

Module Cases.

(** Three hits, as Google and as Bing word them: a pin, a scanned paper
    and a page. *)
Definition google_item (link title : string) : pyval :=
  PDict [("link", PStr link); ("snippet", PStr "to put off doing something");
         ("title", PStr title)].

Definition bing_item (link title : string) : pyval :=
  PDict [("Url", PStr link); ("Description", PStr "to put off doing something");
         ("Title", PStr title)].

Definition links : list (string * string) :=
  [("http://www.pinterest.com/pin/1", "a pin");
   ("http://example.org/paper.pdf", "a paper");
   ("http://example.org/page", "a page")].

Definition google_items : list pyval :=
  map (fun lt => google_item (fst lt) (snd lt)) links.

Definition bing_items : list pyval :=
  map (fun lt => bing_item (fst lt) (snd lt)) links.

Definition google_answer : response :=
  {| status_code := 200; reason := "OK";
     json := Ok (PDict [("items", PList google_items)]) |}.

Definition bing_answer : response :=
  {| status_code := 200; reason := "OK";
     json := Ok (PDict [("d", PDict [("results", PList bing_items)])]) |}.

Definition network (meth url : string) (params : list (string * string))
    : outcome response :=
  if String.eqb meth "POST" then Ok bing_answer else Ok google_answer.

Definition pins : world := Example.world_with "google" network.

End Cases.

Module Broken.

(** Google's answer with a second item that has no link. *)
Definition google_items : list pyval :=
  [Cases.google_item "http://example.org/page" "a page";
   PDict [("snippet", PStr "to put off doing something"); ("title", PStr "?")];
   Cases.google_item "http://example.org/other" "another page"].

Definition google_answer : response :=
  {| status_code := 200; reason := "OK";
     json := Ok (PDict [("items", PList google_items)]) |}.

Definition world_of : world :=
  Example.world_with "google" (fun _ _ _ => Ok google_answer).

End Broken.

Module Quick.

(** An instant answer that names no source. *)
Definition sourceless_answer : pyval :=
  PDict [("Abstract", PStr "Procrastination is the act of delaying.");
         ("AbstractURL", PStr "http://example.org/0");
         ("Heading", PStr "Procrastination")].

Definition sourceless : world :=
  Example.world_with "google" (fun _ _ _ => Example.answer sourceless_answer).

(** The example world with a sentence extractor that fails. *)
Definition no_extractor : world :=
  {| config := config Example.the_world;
     is_english := is_english Example.the_world;
     urlparse_path := urlparse_path Example.the_world;
     quote := quote Example.the_world;
     requests_call := requests_call Example.the_world;
     PageRequest_structured := PageRequest_structured Example.the_world;
     PageRequest_sentences := fun _ _ _ => Raised (Exc "LookupError");
     merge_dict := merge_dict Example.the_world;
     parse_date := parse_date Example.the_world;
     request_bool := request_bool Example.the_world;
     enrich_done := enrich_done Example.the_world;
     ddg_done := ddg_done Example.the_world;
     search_done := search_done Example.the_world |}.

(** The example world with a DuckDuckGo job that never completes. *)
Definition stuck : world :=
  {| config := config Example.the_world;
     is_english := is_english Example.the_world;
     urlparse_path := urlparse_path Example.the_world;
     quote := quote Example.the_world;
     requests_call := requests_call Example.the_world;
     PageRequest_structured := PageRequest_structured Example.the_world;
     PageRequest_sentences := PageRequest_sentences Example.the_world;
     merge_dict := merge_dict Example.the_world;
     parse_date := parse_date Example.the_world;
     request_bool := request_bool Example.the_world;
     enrich_done := enrich_done Example.the_world;
     ddg_done := fun _ => false;
     search_done := search_done Example.the_world |}.

(** A url object with no url. *)
Definition nameless : pyval :=
  PDict [("title", PStr "page ?"); ("search_provider", PStr "google")].

End Quick.

(** ** What a stage writes *)

(** A computation that leaves no event, whether it returns or raises. *)
Definition quiet {A} (m : M A) : Prop := snd m = [].

(** A run of a stage that writes under [task]: when it returns a message,
    that one message was written, once, under "<task>:<hashslug>"; when it
    raises, nothing was written. *)
Definition stage_writes (P : pipeline) (task : string) (run : M pyval) : Prop :=
  match fst run with
  | Ok m' =>
      exists hashslug,
        py_getitem m' "hashslug" = Ok hashslug /\
        written (snd run)
        = [((task ++ ":" ++ Tasks.py_format P hashslug)%string, m')]
  | Raised _ => written (snd run) = []
  end.

(** What [rate] makes of a sentence, of a url object and of a message. *)
Definition rated_sentence (s : pyval) : pyval :=
  match s with
  | PDict d => PDict (dict_set "rating" (PInt 0) d)
  | _ => s
  end.

Definition rated_url (u : pyval) : pyval :=
  match u with
  | PDict d =>
      match dict_lookup "sentences" d with
      | Some (PList sentences) =>
          PDict (dict_set "sentences" (PList (map rated_sentence sentences)) d)
      | _ => u
      end
  | _ => u
  end.

Definition rated (m : pyval) : pyval :=
  match m with
  | PDict d =>
      match dict_lookup "urls" d with
      | Some (PList urls) => PDict (dict_set "urls" (PList (map rated_url urls)) d)
      | _ => m
      end
  | _ => m
  end.

(** A sentence as [detect] leaves it: its patterns are what the rule
    matcher returns on its clean text. *)
Definition tagged (P : pipeline) (s : pyval) : Prop :=
  exists clean patterns,
    py_getitem s "s_clean" = Ok clean /\
    match_wordnik_rules P clean = Ok patterns /\
    py_getitem s "patterns" = Ok patterns.

Module Found.

(** The message of the seed after a search that found the two pages. *)
Definition searched : pyval :=
  PDict [("word", PStr "procrastinate");
         ("hashslug", PStr "procrastinate:6ad283");
         ("urls", PList Example.found);
         ("crawl_date", PStr "2015-11-20T12:00:00")].

End Found.

(** ** What the Diffbot adapter makes of an answer *)

Section CacheTerms.

Variable W : world.

Definition diffbot_request (term : string) : list (string * string) :=
  [("token", credentials_diffbot (config W));
   ("query", quote W (dquote ++ term ++ dquote)%string);
   ("col", "GLOBAL-INDEX")].

(** [object.get(k, default)] of an object of the answer. *)
Definition got (object : pyval) (k : string) (default : pyval) : pyval :=
  match py_get object k default with
  | Ok v => v
  | Raised _ => default
  end.

(** The result that [search_diffbot_cache] appends for an object with a
    text, when the sentence extractor and the date parser return. *)
Definition diffbot_entry (term : string) (object : pyval) : option pyval :=
  if truthy (got object "text" PNone) then
    match PageRequest_sentences W (got object "pageUrl" PNone) term
            (got object "text" PNone),
          parse_date W (got object "date" (PStr "")) with
    | Ok pr, Ok date =>
        Some (PDict [("title", got object "title" PNone);
                     ("url", got object "pageUrl" PNone);
                     ("search_provider", PStr "diffbot");
                     ("author", got object "author" PNone);
                     ("date", date);
                     ("doc", got object "text" PNone);
                     ("sentences", fst pr); ("variants", snd pr)])
    | _, _ => None
    end
  else None.

(** An object that the adapter can work on: a dictionary, on whose text, if
    it has one, the sentence extractor and the date parser return. *)
Definition diffbot_readable (term : string) (object : pyval) : Prop :=
  (exists d, object = PDict d) /\
  (truthy (got object "text" PNone) = true ->
   (exists pr, PageRequest_sentences W (got object "pageUrl" PNone) term
                 (got object "text" PNone) = Ok pr) /\
   (exists date, parse_date W (got object "date" (PStr "")) = Ok date)).

End CacheTerms.

Module Cache.

Definition objects : list pyval :=
  [PDict [("title", PStr "On delay"); ("pageUrl", PStr "http://example.org/a");
          ("text", PStr "Never put off till tomorrow.");
          ("date", PStr "2015-11-20")];
   PDict [("title", PStr "An image"); ("pageUrl", PStr "http://example.org/b")];
   PDict [("title", PStr "On haste"); ("pageUrl", PStr "http://example.org/c");
          ("text", PStr "Do it today."); ("author", PStr "A. Nonymous");
          ("date", PStr "2015-11-21")]].

Definition found : world :=
  Example.world_with "google"
    (fun _ _ _ => Example.answer (PDict [("objects", PList objects)])).

Definition refused_answer : pyval :=
  PDict [("error", PStr "Not authorized API token."); ("errorCode", PInt 401)].

Definition refused : world :=
  Example.world_with "google" (fun _ _ _ => Example.answer refused_answer).

Definition uncoded_answer : pyval :=
  PDict [("error", PStr "Not authorized API token.")].

Definition uncoded : world :=
  Example.world_with "google" (fun _ _ _ => Example.answer uncoded_answer).

Definition empty : world :=
  Example.world_with "google" (fun _ _ _ => Example.answer (PDict [])).

End Cache.

Module Stale.

(** A seed that still carries the urls and the date of an earlier run. *)
Definition seed : pyval :=
  PDict [("word", PStr "procrastinate");
         ("urls", PList [PDict [("url", PStr "http://example.org/old")]]);
         ("hashslug", PStr "procrastinate:6ad283");
         ("crawl_date", PStr "2015-01-01T00:00:00")].

End Stale.

(** ** Worlds at the edges of the claims *)

Module Exiting.

(** The example world with a page extractor that exits its thread:
    [SystemExit] derives from [BaseException] and not from [Exception]. *)
Definition extractor_exits : world :=
  {| config := config Example.the_world;
     is_english := is_english Example.the_world;
     urlparse_path := urlparse_path Example.the_world;
     quote := quote Example.the_world;
     requests_call := requests_call Example.the_world;
     PageRequest_structured := fun _ _ => Raised (Exc "SystemExit");
     PageRequest_sentences := PageRequest_sentences Example.the_world;
     merge_dict := merge_dict Example.the_world;
     parse_date := parse_date Example.the_world;
     request_bool := request_bool Example.the_world;
     enrich_done := enrich_done Example.the_world;
     ddg_done := ddg_done Example.the_world;
     search_done := search_done Example.the_world |}.

End Exiting.

Module Unsplit.

(** Google's answer with a second item whose link opens a bracket that it
    never closes. *)
Definition google_items : list pyval :=
  [Cases.google_item "http://example.org/page" "a page";
   Cases.google_item "http://[oops/x" "a typo";
   Cases.google_item "http://example.org/other" "another page"].

Definition google_answer : response :=
  {| status_code := 200; reason := "OK";
     json := Ok (PDict [("items", PList google_items)]) |}.

Definition world_of : world :=
  Example.world_with "google" (fun _ _ _ => Ok google_answer).

End Unsplit.

Module Degraded.

(** What the aggregator returns for the word on the example world, where
    the page of hit 3 cannot be fetched. *)
Definition aggregated : list pyval :=
  match Search.search_all Example.the_world 5 "procrastinate" with
  | Some (Ok urls, _) => urls
  | _ => []
  end.

(** The example pipeline on top of that aggregator. *)
Definition the_pipeline : pipeline := Example.pipeline_finding aggregated.

End Degraded.


(** * Properties *)

Unset Implicit Arguments.

(** ** Strings *)

Lemma prefix_iff (a s : string) :
  String.prefix a s = true <-> exists post, s = (a ++ post)%string.
Proof.
  revert s. induction a as [|c a IH]; intros s; simpl.
  - split; [intros _; exists s; reflexivity | intros _; destruct s; reflexivity].
  - destruct s as [|c' s]; simpl.
    + split; [discriminate | intros [post H]; discriminate].
    + destruct (Ascii.ascii_dec c c') as [->|Hne].
      * rewrite IH. split; intros [post H]; exists post.
        -- now rewrite H.
        -- now inversion H.
      * split; [discriminate | intros [post H]; inversion H; congruence].
Qed.

Lemma contains_iff (sub s : string) :
  contains sub s = true <-> exists pre post, s = (pre ++ sub ++ post)%string.
Proof.
  induction s as [|c s IH]; cbn [contains].
  - rewrite orb_false_r, prefix_iff. split.
    + intros [post H]. exists "", post. exact H.
    + intros [pre [post H]]. destruct pre; [exists post; exact H | discriminate].
  - rewrite orb_true_iff, prefix_iff, IH. split.
    + intros [[post H] | [pre [post H]]].
      * exists "", post. exact H.
      * exists (String c pre), post. simpl. now rewrite H.
    + intros [pre [post H]]. destruct pre as [|c' pre]; simpl in H.
      * left. exists post. exact H.
      * right. inversion H. now exists pre, post.
Qed.

Lemma endswith_iff (s suf : string) :
  endswith s suf = true <-> exists pre, s = (pre ++ suf)%string.
Proof.
  induction s as [|c s IH]; cbn [endswith].
  - rewrite orb_false_r, String.eqb_eq. split.
    + intros <-. now exists "".
    + intros [pre H]. destruct pre; [exact H | discriminate].
  - rewrite orb_true_iff, String.eqb_eq, IH. split.
    + intros [<- | [pre H]].
      * now exists "".
      * exists (String c pre). simpl. now rewrite H.
    + intros [pre H]. destruct pre as [|c' pre]; simpl in H.
      * now left.
      * right. inversion H. now exists pre.
Qed.

(** ** The result qualifier *)

Section Qualifier.

Variable W : world.

Lemma excluded_domain_iff url :
  existsb (fun domain => contains domain url) (exclude_domains (config W)) = true
  <-> excluded_domain W url.
Proof.
  unfold excluded_domain. rewrite existsb_exists.
  split; intros [d [Hin H]]; exists d; split; auto; now apply contains_iff.
Qed.

Lemma not_english_iff text :
  negb (String.eqb text "") && negb (is_english W text) = true
  <-> not_english W text.
Proof.
  unfold not_english.
  rewrite andb_true_iff, !negb_true_iff, String.eqb_neq. reflexivity.
Qed.

Lemma pdf_path_iff url path :
  urlparse_path W url = Ok path ->
  (endswith path ".pdf" = true <-> pdf_path W url).
Proof.
  intros Hp. unfold pdf_path. rewrite Hp, endswith_iff.
  split; intros [pre H]; exists pre; congruence.
Qed.

Lemma pdf_path_returns url :
  pdf_path W url -> exists path, urlparse_path W url = Ok path.
Proof. intros [pre H]. eauto. Qed.

(** The value of the qualifier, by the test that decides it. *)
Lemma qualify_value url text date :
  fst (Search.qualify_search_result W url text date) =
  if existsb (fun domain => contains domain url) (exclude_domains (config W))
     || (negb (String.eqb text "") && negb (is_english W text))
  then Ok false
  else match urlparse_path W url with
       | Ok path => Ok (negb (endswith path ".pdf"))
       | Raised e => Raised e
       end.
Proof.
  unfold Search.qualify_search_result.
  destruct (existsb _ _); [reflexivity|].
  destruct (negb (String.eqb text "") && negb (is_english W text)); [reflexivity|].
  simpl. destruct (urlparse_path W url) as [path|e]; [|reflexivity].
  simpl. destruct (endswith path ".pdf"); reflexivity.
Qed.

Lemma early_rejection_iff url text :
  existsb (fun domain => contains domain url) (exclude_domains (config W))
  || (negb (String.eqb text "") && negb (is_english W text)) = true
  <-> excluded_domain W url \/ not_english W text.
Proof.
  now rewrite orb_true_iff, excluded_domain_iff, not_english_iff.
Qed.

(** C6, amended: [qualify_search_result] answers [False] exactly when the
    url contains an excluded domain, or the preview is non-empty and not
    English, or [urlparse] gives a path that ends in ".pdf".  It answers
    [True] for every other input on which [urlparse] returns.  It has no
    handler: when neither the domain test nor the language test rejects the
    result and [urlparse] raises, that exception leaves the function.  The
    date has no part in the answer (nor in the one log line, which reports a
    non-English preview). *)
Theorem qualify_search_result_spec (url text : string) (date : option string) :
  (fst (Search.qualify_search_result W url text date) = Ok false
     <-> disqualified W url text) /\
  (fst (Search.qualify_search_result W url text date) = Ok true
     <-> ~ disqualified W url text /\
         exists path, urlparse_path W url = Ok path) /\
  (forall e,
     fst (Search.qualify_search_result W url text date) = Raised e
     <-> ~ excluded_domain W url /\ ~ not_english W text /\
         urlparse_path W url = Raised e) /\
  (forall date',
     Search.qualify_search_result W url text date'
     = Search.qualify_search_result W url text date).
Proof.
  rewrite qualify_value. unfold disqualified.
  pose proof (early_rejection_iff url text) as Hearly.
  destruct (_ || _).
  - assert (He : excluded_domain W url \/ not_english W text)
      by (now apply Hearly).
    repeat split; intros; try discriminate; try tauto.
  - assert (He : ~ (excluded_domain W url \/ not_english W text)).
    { intros H. apply Hearly in H. discriminate. }
    destruct (urlparse_path W url) as [path|e0] eqn:Hp.
    + pose proof (pdf_path_iff url path Hp) as Hpdf.
      destruct (endswith path ".pdf"); simpl.
      * assert (pdf_path W url) by (now apply Hpdf).
        repeat split; intros; try discriminate; try tauto;
          decompose [and] H0; discriminate.
      * assert (~ pdf_path W url).
        { intros H. apply Hpdf in H. discriminate. }
        repeat split; intros; try discriminate; try tauto; eauto;
          decompose [and] H0; discriminate.
    + assert (~ pdf_path W url).
      { intros [pre H]. congruence. }
      repeat split; intros; try discriminate; try tauto; try congruence;
        decompose [and ex] H0; congruence.
Qed.

End Qualifier.

(** A url whose netloc opens a bracket and never closes it, with no
    preview: no excluded domain, nothing that is not English, no path that
    ends in ".pdf", and yet the qualifier does not answer [True]:
    [urlparse] raises ValueError, and the qualifier with it. *)
Lemma qualify_search_result_unsplit_url :
  ~ disqualified Example.the_world "http://[oops/x" "" /\
  urlparse_path Example.the_world "http://[oops/x" = Raised (Exc "ValueError") /\
  Search.qualify_search_result Example.the_world "http://[oops/x" "" None
  = (Raised (Exc "ValueError"), []).
Proof.
  split; [|split; reflexivity].
  intros [H | [[H _] | [pre H]]].
  - apply excluded_domain_iff in H. discriminate.
  - now apply H.
  - discriminate.
Qed.

(** On the example world: a pin is rejected for its domain before its url
    is parsed, a scanned paper for its path, and a page is accepted. *)
Lemma qualify_search_result_three_urls :
  fst (Search.qualify_search_result Example.the_world
         "http://www.pinterest.com/pin/1" "" None) = Ok false /\
  fst (Search.qualify_search_result Example.the_world
         "http://example.org/paper.pdf" "" None) = Ok false /\
  fst (Search.qualify_search_result Example.the_world
         "http://example.org/page" "" (Some "2015-11-20")) = Ok true.
Proof.
  split; [|split].
  - apply (proj1 (qualify_search_result_spec Example.the_world
                    "http://www.pinterest.com/pin/1" "" None)).
    left. apply excluded_domain_iff. reflexivity.
  - apply (proj1 (qualify_search_result_spec Example.the_world
                    "http://example.org/paper.pdf" "" None)).
    right. right. exists "http://example.org/paper". reflexivity.
  - apply (proj1 (proj2 (qualify_search_result_spec Example.the_world
                    "http://example.org/page" "" (Some "2015-11-20")))).
    split; [|eexists; reflexivity].
    intros [H | [[H _] | H]].
    + apply excluded_domain_iff in H. discriminate.
    + now apply H.
    + apply (pdf_path_iff Example.the_world "http://example.org/page"
               "http://example.org/page" eq_refl) in H.
      discriminate.
Defined.

(** ** The bounded enrichment join *)

Section Join.

Variable W : world.

Local Notation "'max_duration'" := (max_search_duration (config W)).

Lemma half_S t : half (S t) == half t + (1 # 2).
Proof.
  unfold half. rewrite Nat2Z.inj_succ. unfold Z.succ.
  rewrite inject_Z_plus. ring.
Qed.

Lemma half_reaches_max t : (sleeps_needed W <= t)%nat -> max_duration <= half t.
Proof.
  unfold sleeps_needed, half. intros H.
  assert (Hc : (Qceiling (max_duration * 2) <= Z.of_nat t)%Z) by lia.
  assert (Hq : max_duration * 2 <= inject_Z (Z.of_nat t)).
  { eapply Qle_trans; [apply Qle_ceiling|]. now rewrite <- Zle_Qle. }
  apply Qmult_le_r with (z := 2); [reflexivity|].
  eapply Qle_trans; [exact Hq|]. apply Qle_lteq. right. ring.
Qed.

Lemma Qltb_true x y : Qltb x y = true <-> x < y.
Proof.
  unfold Qltb. rewrite negb_true_iff. split.
  - intros H. apply Qnot_le_lt. intros Hle.
    apply Qle_bool_iff in Hle. congruence.
  - intros H. destruct (Qle_bool y x) eqn:E; [|reflexivity].
    apply Qle_bool_iff in E. exfalso. exact (Qlt_not_le _ _ H E).
Qed.

Lemma Qltb_false x y : Qltb x y = false <-> y <= x.
Proof.
  unfold Qltb. rewrite negb_false_iff. apply Qle_bool_iff.
Qed.

Lemma Qltb_compat x x' y : x == x' -> Qltb x y = Qltb x' y.
Proof. intros H. unfold Qltb. now rewrite H. Qed.

Lemma poll_more_fuel jobs fuel : forall t tw r,
  Search.poll W fuel jobs t tw = Some r ->
  Search.poll W (S fuel) jobs t tw = Some r.
Proof.
  induction fuel as [|fuel IH]; intros t tw r H.
  - simpl in *. destruct (_ && _); [discriminate | exact H].
  - cbn [Search.poll] in H. cbn [Search.poll].
    destruct (negb (Search.all_jobs W jobs t) && Qltb tw max_duration);
      [|exact H].
    apply IH in H. exact H.
Qed.

Lemma poll_fuel_le jobs fuel fuel' t tw r :
  (fuel <= fuel')%nat ->
  Search.poll W fuel jobs t tw = Some r ->
  Search.poll W fuel' jobs t tw = Some r.
Proof.
  intros Hle H. induction Hle; auto using poll_more_fuel.
Qed.

(** From [t] sleeps on, the loop runs while some handle is falsy and the
    tracked time is short of the maximum, and it stops at the first poll
    where this fails; [k] more sleeps suffice when they reach the maximum. *)
Lemma poll_runs jobs : forall k t tw fuel,
  tw == half t ->
  (sleeps_needed W <= t + k)%nat ->
  (k <= fuel)%nat ->
  exists t' tw',
    Search.poll W fuel jobs t tw = Some (t', tw') /\
    (t <= t')%nat /\
    tw' == half t' /\
    (Search.all_jobs W jobs t' = true \/ max_duration <= tw') /\
    (forall u, (t <= u < t')%nat ->
       Search.all_jobs W jobs u = false /\ half u < max_duration).
Proof.
  induction k as [|k IH]; intros t tw fuel Htw Hk Hfuel.
  - exists t, tw.
    assert (Hmax : max_duration <= tw).
    { rewrite Htw. apply half_reaches_max. lia. }
    apply Qltb_false in Hmax.
    repeat split.
    + destruct fuel; simpl; rewrite Hmax, andb_false_r; reflexivity.
    + lia.
    + exact Htw.
    + right. now apply Qltb_false.
    + lia.
    + lia.
  - destruct (negb (Search.all_jobs W jobs t) && Qltb tw max_duration) eqn:E.
    + destruct fuel as [|fuel]; [lia|].
      destruct (IH (S t) (tw + (1 # 2)) fuel) as (t' & tw' & Hp & Hle & Hh & Hstop & Hrun).
      * rewrite half_S, Htw. reflexivity.
      * lia.
      * lia.
      * exists t', tw'. repeat split; auto.
        -- cbn [Search.poll]. rewrite E. exact Hp.
        -- lia.
        -- destruct (Nat.eq_dec u t) as [->|Hne].
           ++ apply andb_true_iff in E. destruct E as [E _].
              now apply negb_true_iff in E.
           ++ apply Hrun. lia.
        -- destruct (Nat.eq_dec u t) as [->|Hne].
           ++ apply andb_true_iff in E. destruct E as [_ E].
              apply Qltb_true in E. now rewrite <- Htw.
           ++ apply Hrun. lia.
    + exists t, tw. repeat split; auto.
      * destruct fuel; simpl; rewrite E; reflexivity.
      * apply andb_false_iff in E. destruct E as [E|E].
        -- left. now apply negb_false_iff in E.
        -- right. now apply Qltb_false.
      * lia.
      * lia.
Qed.

Lemma poll_stops jobs :
  exists t tw,
    (forall fuel, (sleeps_needed W <= fuel)%nat ->
       Search.poll W fuel jobs 0 0 = Some (t, tw)) /\
    tw == half t /\
    (Search.all_jobs W jobs t = true \/ max_duration <= tw) /\
    (forall u, (u < t)%nat ->
       Search.all_jobs W jobs u = false /\ half u < max_duration).
Proof.
  destruct (@poll_runs jobs (sleeps_needed W) 0%nat 0 (sleeps_needed W))
    as (t & tw & Hp & _ & Hh & Hstop & Hrun).
  - reflexivity.
  - lia.
  - lia.
  - exists t, tw. repeat split; auto.
    + intros fuel Hf. eapply poll_fuel_le; eauto.
    + apply Hrun. lia.
    + apply Hrun. lia.
Qed.

Lemma completed_pending_length i l t :
  (List.length (completed_from W i l t) + List.length (pending_from W i l t)
   = List.length l)%nat.
Proof.
  revert i. induction l as [|u l IH]; intros i; simpl; [reflexivity|].
  specialize (IH (S i)). destruct (enrich_done W i t); simpl; lia.
Qed.

Lemma done_values_spawned term t l : forall i,
  Search.done_values (Search.spawn_from W i term l) t
  = map (enriched W term) (completed_from W i l t).
Proof.
  unfold Search.done_values.
  induction l as [|u l IH]; intros i; simpl; [reflexivity|].
  destruct (enrich_done W i t); simpl; now rewrite IH.
Qed.

Lemma completed_from_In t l : forall i off u,
  nth_error l i = Some u ->
  enrich_done W (off + i) t = true ->
  In u (completed_from W off l t).
Proof.
  induction l as [|x l IH]; intros i off u Hn Hd.
  - destruct i; discriminate.
  - destruct i as [|i]; simpl in *.
    + inversion Hn; subst. rewrite Nat.add_0_r in Hd. rewrite Hd. now left.
    + assert (In u (completed_from W (S off) l t)).
      { apply (IH i); auto.
        now replace (S off + i)%nat with (off + S i)%nat by lia. }
      destruct (enrich_done W off t); simpl; auto.
Qed.

Lemma search_and_parse_eq fuel search_func term search_result t tw :
  fst (search_func term) = Ok search_result ->
  Search.poll W fuel (Search.spawn_from W 0 term search_result) 0 0 = Some (t, tw) ->
  Search.search_and_parse W fuel search_func term
  = Some (Ok (map (enriched W term) (completed_from W 0 search_result t)),
          snd (search_func term)
          ++ join_trace term search_result t
               (List.length (completed_from W 0 search_result t))).
Proof.
  intros Hs Hp. unfold Search.search_and_parse.
  rewrite Hs, Hp. destruct (search_func term) as [o tr]. simpl in Hs. subst o.
  rewrite done_values_spawned. unfold join_trace.
  simpl. rewrite length_map. reflexivity.
Qed.

(** C1: when the provider returns [N] raw results, [search_and_parse]
    returns exactly the values of the enrichment jobs that are complete when
    polling stops, in the provider's order: with [k] jobs still incomplete
    at that moment the list has [N - k] entries, and the last log line
    reports [N - k] results and [k] urls lost. *)
Theorem search_and_parse_returns_completed
    (search_func : string -> M (list pyval)) (term : string)
    (search_result : list pyval) :
  fst (search_func term) = Ok search_result ->
  exists t tw,
    forall fuel, (sleeps_needed W <= fuel)%nat ->
      let N := List.length search_result in
      let k := List.length (pending_from W 0 search_result t) in
      let result := map (enriched W term) (completed_from W 0 search_result t) in
      Search.poll W fuel (Search.spawn_from W 0 term search_result) 0 0
        = Some (t, tw) /\
      List.length result = (N - k)%nat /\
      Search.search_and_parse W fuel search_func term
        = Some (Ok result,
                snd (search_func term)
                ++ map (fun url_object =>
                          Spawn "extract_wrapper" [url_object; PStr term])
                       search_result
                ++ repeat Sleep t
                ++ [Log INFO
                      "Parsing URLs for '{}' yielded {} results, {} urls lost"
                      [AStr term; ANum (Z.of_nat (N - k)); ANum (Z.of_nat k)]]).
Proof.
  intros Hs.
  destruct (poll_stops (Search.spawn_from W 0 term search_result))
    as (t & tw & Hp & _).
  exists t, tw. intros fuel Hf N k result.
  pose proof (completed_pending_length 0 search_result t) as Hlen.
  assert (Hres : List.length result = (N - k)%nat).
  { unfold result. rewrite length_map. subst N k. lia. }
  split; [now apply Hp|]. split; [exact Hres|].
  rewrite (search_and_parse_eq fuel search_func term search_result t tw Hs (Hp fuel Hf)).
  unfold join_trace. fold N. unfold result in Hres. rewrite length_map in Hres.
  rewrite Hres.
  replace (Z.of_nat N - Z.of_nat (N - k))%Z with (Z.of_nat k)
    by (subst N k; lia).
  reflexivity.
Qed.

Lemma all_jobs_done :
  (forall job u, request_bool W job u = done job u) ->
  forall jobs u,
    forallb (fun job => done job u) jobs = Search.all_jobs W jobs u.
Proof.
  intros Hbool jobs u. unfold Search.all_jobs.
  induction jobs as [|job l IH]; simpl; [reflexivity|].
  now rewrite IH, Hbool.
Qed.

(** The polling loop of [search_and_parse] ends (any fuel from
    [sleeps_needed] on gives the same result), after [t] sleeps with
    [t/2] seconds tracked; unless it made no sleep at all, the tracked time
    is below [max_search_duration] plus one interval of half a second.  It
    stops at the first poll at which [all(jobs)] holds or the tracked time
    has reached the maximum; when the truth value of a handle is its
    completion flag, that is the first poll at which every enrichment job
    is complete or the maximum is reached. *)
Theorem polling_stops_within_bound
    (search_func : string -> M (list pyval)) (term : string)
    (search_result : list pyval) :
  fst (search_func term) = Ok search_result ->
  let jobs := Search.spawn_from W 0 term search_result in
  exists t tw,
    (forall fuel, (sleeps_needed W <= fuel)%nat ->
       Search.poll W fuel jobs 0 0 = Some (t, tw) /\
       exists result,
         Search.search_and_parse W fuel search_func term
         = Some (Ok result,
                 snd (search_func term)
                 ++ join_trace term search_result t (List.length result))) /\
    tw == half t /\
    (t = 0%nat \/ tw < max_duration + (1 # 2)) /\
    (Search.all_jobs W jobs t = true \/ max_duration <= tw) /\
    (forall u, (u < t)%nat ->
       Search.all_jobs W jobs u = false /\ half u < max_duration) /\
    ((forall job u, request_bool W job u = done job u) ->
       (forallb (fun job => done job t) jobs = true \/ max_duration <= tw) /\
       (forall u, (u < t)%nat ->
          forallb (fun job => done job u) jobs = false)).
Proof.
  intros Hs jobs.
  destruct (poll_stops jobs) as (t & tw & Hp & Hh & Hstop & Hrun).
  exists t, tw.
  split; [|split; [exact Hh|split; [|split; [exact Hstop|split; [exact Hrun|]]]]].
  - intros fuel Hf. split; [now apply Hp|].
    exists (map (enriched W term) (completed_from W 0 search_result t)).
    rewrite length_map. apply search_and_parse_eq with (tw := tw); auto.
  - destruct t as [|t]; [now left | right].
    destruct (Hrun t) as [_ Hlt]; [lia|].
    rewrite Hh, half_S. apply Qplus_lt_l. exact Hlt.
  - intros Hbool.
    pose proof (all_jobs_done Hbool jobs) as Hall.
    split.
    + rewrite Hall. exact Hstop.
    + intros u Hu. rewrite Hall. now apply Hrun.
Qed.

Lemma extract_wrapper_raised url_object term u e :
  py_getitem url_object "url" = Ok u ->
  PageRequest_structured W u term = Raised e ->
  is_exception e = true ->
  Search.extract_wrapper W url_object term
  = (Ok url_object, [Log ERROR "Failed to get page {} -- {}" [AVal u; ATrace e]]).
Proof.
  intros Hu He Hc. unfold Search.extract_wrapper.
  rewrite Hu. simpl. rewrite He. unfold try_except_Exception.
  rewrite Hc. reflexivity.
Qed.

Lemma extract_wrapper_uncaught url_object term u e :
  py_getitem url_object "url" = Ok u ->
  PageRequest_structured W u term = Raised e ->
  is_exception e = false ->
  Search.extract_wrapper W url_object term = (Raised e, []).
Proof.
  intros Hu He Hc. unfold Search.extract_wrapper.
  rewrite Hu. simpl. rewrite He. unfold try_except_Exception.
  rewrite Hc. reflexivity.
Qed.

(** C3, amended: when [PageRequest] raises, for the url of a url object, an
    exception that derives from [Exception], [extract_wrapper] logs the
    failure and returns the url object itself, with no field added.  Its
    job then leaves the url object as its value: if the job is complete
    when polling stops, the url object is an entry of the output of
    [search_and_parse], and the output has one entry for every complete
    job, whether enrichment raised or not.  An exception outside
    [Exception] is not caught: it leaves [extract_wrapper], which logs
    nothing and returns nothing. *)
Theorem extract_wrapper_keeps_url_object
    (url_object : pyval) (term : string) (u : pyval) (e : exn) :
  py_getitem url_object "url" = Ok u ->
  PageRequest_structured W u term = Raised e ->
  (is_exception e = true ->
   Search.extract_wrapper W url_object term
   = (Ok url_object, [Log ERROR "Failed to get page {} -- {}" [AVal u; ATrace e]])
   /\
   forall search_func search_result i fuel t tw,
     fst (search_func term) = Ok search_result ->
     nth_error search_result i = Some url_object ->
     Search.poll W fuel (Search.spawn_from W 0 term search_result) 0 0
       = Some (t, tw) ->
     exists result trace,
       Search.search_and_parse W fuel search_func term = Some (Ok result, trace) /\
       List.length result = List.length (completed_from W 0 search_result t) /\
       (enrich_done W i t = true -> In url_object result)) /\
  (is_exception e = false ->
   Search.extract_wrapper W url_object term = (Raised e, [])).
Proof.
  intros Hu He. split; [|now apply extract_wrapper_uncaught with (u := u)].
  intros Hc. split; [now apply extract_wrapper_raised|].
  intros search_func search_result i fuel t tw Hs Hn Hp.
  eexists; eexists.
  split; [apply (search_and_parse_eq fuel search_func term search_result t tw Hs Hp)|].
  split; [apply length_map|].
  intros Hd. apply in_map_iff. exists url_object. split.
  - unfold enriched. now rewrite (extract_wrapper_raised url_object term u e Hu He Hc).
  - apply (completed_from_In t search_result i 0 url_object Hn). exact Hd.
Qed.

End Join.

(** ** The bounded join on the example world *)

Lemma example_google_hits :
  fst (Search.search_google Example.the_world "procrastinate")
  = Ok (map Example.url_object_of Example.numbers).
Proof. reflexivity. Qed.

(** The example of the specification: ten raw results, a maximum of two
    seconds, three jobs that never complete.  Seven entries come back and
    the log reports three urls lost. *)
Lemma search_and_parse_ten_hits :
  fst (Search.search_google Example.the_world "procrastinate")
    = Ok (map Example.url_object_of Example.numbers) /\
  exists result trace,
    Search.search_and_parse Example.the_world 4
      (Search.search_google Example.the_world) "procrastinate"
    = Some (Ok result, trace) /\
    List.length result = 7%nat /\
    last trace Sleep
    = Log INFO "Parsing URLs for '{}' yielded {} results, {} urls lost"
        [AStr "procrastinate"; ANum 7; ANum 3].
Proof.
  split; [exact example_google_hits|].
  destruct (search_and_parse_returns_completed Example.the_world
              (Search.search_google Example.the_world) "procrastinate"
              (map Example.url_object_of Example.numbers) example_google_hits)
    as (t & tw & H).
  destruct (H 4%nat (le_n 4)) as (Hp & Hlen & Hr).
  vm_compute in Hp. injection Hp as <- _.
  eexists; eexists. split; [exact Hr|]. split; [exact Hlen|].
  rewrite !app_assoc. apply last_last.
Defined.

(** On the same run the loop sleeps four times: no earlier poll finds all
    ten jobs complete, and the two seconds tracked stay below the maximum
    plus one interval. *)
Lemma polling_ten_hits :
  fst (Search.search_google Example.the_world "procrastinate")
    = Ok (map Example.url_object_of Example.numbers) /\
  (forall job u, request_bool Example.the_world job u = done job u) /\
  exists tw,
    Search.poll Example.the_world 4
      (Search.spawn_from Example.the_world 0 "procrastinate"
         (map Example.url_object_of Example.numbers)) 0 0
    = Some (4%nat, tw) /\
    tw < 2 + (1 # 2) /\
    forall u, (u < 4)%nat ->
      forallb (fun job => done job u)
        (Search.spawn_from Example.the_world 0 "procrastinate"
           (map Example.url_object_of Example.numbers)) = false.
Proof.
  split; [exact example_google_hits|]. split; [reflexivity|].
  destruct (polling_stops_within_bound Example.the_world
              (Search.search_google Example.the_world) "procrastinate"
              (map Example.url_object_of Example.numbers) example_google_hits)
    as (t & tw & Hfuel & _ & Hbound & _ & _ & Hdone).
  destruct (Hfuel 4%nat (le_n 4)) as [Hp _].
  assert (Ht : t = 4%nat) by (vm_compute in Hp; congruence).
  subst t. exists tw. split; [exact Hp|]. split.
  - destruct Hbound as [H|H]; [discriminate | exact H].
  - apply Hdone. reflexivity.
Defined.

(** The page of hit 3 cannot be fetched: its job leaves the url object as
    Google gave it, and the url object is among the results. *)
Lemma extract_wrapper_hit_3 :
  py_getitem (Example.url_object_of "3") "url" = Ok (PStr "http://example.org/3") /\
  PageRequest_structured Example.the_world (PStr "http://example.org/3")
    "procrastinate" = Raised (Exc "Timeout") /\
  is_exception (Exc "Timeout") = true /\
  fst (Search.extract_wrapper Example.the_world (Example.url_object_of "3")
         "procrastinate") = Ok (Example.url_object_of "3") /\
  exists result trace,
    Search.search_and_parse Example.the_world 4
      (Search.search_google Example.the_world) "procrastinate"
    = Some (Ok result, trace) /\
    List.length result = 7%nat /\
    In (Example.url_object_of "3") result.
Proof.
  split; [reflexivity|]. split; [reflexivity|]. split; [reflexivity|].
  destruct (extract_wrapper_keeps_url_object Example.the_world
              (Example.url_object_of "3") "procrastinate"
              (PStr "http://example.org/3") (Exc "Timeout")
              eq_refl eq_refl) as [Hcaught _].
  destruct (Hcaught eq_refl) as [Hw Hjoin].
  split; [now rewrite Hw|].
  assert (Hp : exists tw,
    Search.poll Example.the_world 4
      (Search.spawn_from Example.the_world 0 "procrastinate"
         (map Example.url_object_of Example.numbers)) 0 0 = Some (4%nat, tw))
    by (eexists; vm_compute; reflexivity).
  destruct Hp as [tw Hp].
  destruct (Hjoin (Search.search_google Example.the_world)
              (map Example.url_object_of Example.numbers) 3%nat 4%nat 4%nat tw
              example_google_hits eq_refl Hp)
    as (result & trace & Hr & Hlen & Hin).
  exists result, trace. split; [exact Hr|]. split; [exact Hlen|].
  apply Hin. reflexivity.
Defined.

(** With [SystemExit] raised by the page extractor, which derives from
    [BaseException] only, the handler of [extract_wrapper] does not run:
    the url object is not returned and nothing is logged. *)
Lemma extract_wrapper_lets_exit_through :
  py_getitem (Example.url_object_of "3") "url" = Ok (PStr "http://example.org/3") /\
  PageRequest_structured Exiting.extractor_exits (PStr "http://example.org/3")
    "procrastinate" = Raised (Exc "SystemExit") /\
  Search.extract_wrapper Exiting.extractor_exits (Example.url_object_of "3")
    "procrastinate" = (Raised (Exc "SystemExit"), []).
Proof. repeat split; reflexivity. Qed.

(** C2 does not hold of the code.  The loop of [search_and_parse] tests
    [all(jobs)], the truth value of the handles, where the line that reads
    the results and the loop of [search_all] test their [done] flag.  With
    handles that are truthy as any object is, on the ten hits and a
    maximum of two seconds: the first test ends the loop, whatever the
    fuel, with no sleep made, while no job is complete and no time is
    tracked; nothing is returned and ten urls are counted lost, where one
    sleep later seven jobs are complete. *)
Theorem polling_ignores_completion :
  fst (Search.search_google Example.eager "procrastinate")
    = Ok (map Example.url_object_of Example.numbers) /\
  (forall fuel,
     Search.poll Example.eager fuel
       (Search.spawn_from Example.eager 0 "procrastinate"
          (map Example.url_object_of Example.numbers)) 0 0
     = Some (0%nat, 0)) /\
  existsb (fun job => done job 0)
    (Search.spawn_from Example.eager 0 "procrastinate"
       (map Example.url_object_of Example.numbers)) = false /\
  Qltb 0 (max_search_duration (config Example.eager)) = true /\
  (forall fuel,
     exists trace,
       Search.search_and_parse Example.eager fuel
         (Search.search_google Example.eager) "procrastinate"
       = Some (Ok [], trace) /\
       last trace Sleep
       = Log INFO "Parsing URLs for '{}' yielded {} results, {} urls lost"
           [AStr "procrastinate"; ANum 0; ANum 10]) /\
  List.length
    (Search.done_values
       (Search.spawn_from Example.eager 0 "procrastinate"
          (map Example.url_object_of Example.numbers)) 1) = 7%nat.
Proof.
  assert (Hp : forall fuel,
    Search.poll Example.eager fuel
      (Search.spawn_from Example.eager 0 "procrastinate"
         (map Example.url_object_of Example.numbers)) 0 0
    = Some (0%nat, 0)) by (intros [|fuel]; reflexivity).
  split; [reflexivity|]. split; [exact Hp|].
  split; [reflexivity|]. split; [reflexivity|].
  split; [|reflexivity].
  intros fuel. eexists. split.
  - apply (search_and_parse_eq Example.eager fuel
             (Search.search_google Example.eager) "procrastinate"
             (map Example.url_object_of Example.numbers) 0%nat 0
             eq_refl (Hp fuel)).
  - unfold join_trace. rewrite !app_assoc. apply last_last.
Qed.

(** ** The aggregator *)

Section Aggregator.

Variable W : world.

(** C4: when the configured engine is neither bing nor google,
    [search_all] returns the empty list at once, whatever the fuel: its
    trace is the opening log line and the error line, with no job spawned,
    no request sent and no sleep. *)
Theorem search_all_invalid_engine (fuel : nat) (term : string) :
  search_engine (config W) <> "bing" ->
  search_engine (config W) <> "google" ->
  Search.search_all W fuel term
  = Some (Ok [],
          [Log INFO "Sarching for '{}'" [AStr term];
           Log ERROR "Invalid search engine '{}' defined in config"
             [AStr (search_engine (config W))]]).
Proof.
  intros Hb Hg. unfold Search.search_all, Search.engines.
  cbn [Search.engine_get].
  apply String.eqb_neq in Hb, Hg. rewrite Hb, Hg. reflexivity.
Qed.

Lemma wait_more_fuel ddg search fuel : forall t r,
  Search.wait_both fuel ddg search t = Some r ->
  Search.wait_both (S fuel) ddg search t = Some r.
Proof.
  induction fuel as [|fuel IH]; intros t r H.
  - simpl in *. destruct (negb _); [discriminate | exact H].
  - cbn [Search.wait_both] in H. cbn [Search.wait_both].
    destruct (negb (done ddg t && done search t)); [|exact H].
    apply IH in H. exact H.
Qed.

Lemma wait_fuel_le ddg search fuel fuel' t r :
  (fuel <= fuel')%nat ->
  Search.wait_both fuel ddg search t = Some r ->
  Search.wait_both fuel' ddg search t = Some r.
Proof.
  intros Hle H. induction Hle; auto using wait_more_fuel.
Qed.

(** The outer loop has no deadline: it ends only at a poll that finds both
    jobs complete, and then at the first such poll. *)
Lemma wait_both_runs ddg search : forall k t fuel,
  done ddg (t + k) && done search (t + k) = true ->
  (k <= fuel)%nat ->
  exists t',
    Search.wait_both fuel ddg search t = Some t' /\
    (t <= t' <= t + k)%nat /\
    done ddg t' && done search t' = true /\
    (forall u, (t <= u < t')%nat -> done ddg u && done search u = false).
Proof.
  induction k as [|k IH]; intros t fuel Hd Hf.
  - rewrite Nat.add_0_r in Hd. exists t. repeat split; try lia; auto.
    destruct fuel; simpl; rewrite Hd; reflexivity.
  - destruct (done ddg t && done search t) eqn:E.
    + exists t. repeat split; try lia; auto.
      destruct fuel; simpl; rewrite E; reflexivity.
    + destruct fuel as [|fuel]; [lia|].
      destruct (IH (S t) fuel) as (t' & Hw & Hle & Hd' & Hrun).
      * now replace (S t + k)%nat with (t + S k)%nat by lia.
      * lia.
      * exists t'. repeat split; try lia; auto.
        -- cbn [Search.wait_both]. rewrite E. exact Hw.
        -- intros u Hu. destruct (Nat.eq_dec u t) as [->|Hne]; [exact E|].
           apply Hrun. lia.
Qed.

Lemma value_or_empty_async sched work :
  Search.value_or_empty (async sched PList work) = contribution work.
Proof.
  unfold Search.value_or_empty, async, contribution. simpl.
  destruct (fst work); reflexivity.
Qed.

Lemma search_and_parse_settles engine term :
  exists parsed,
    forall fuel, (sleeps_needed W <= fuel)%nat ->
      Search.search_and_parse W fuel engine term = Some parsed.
Proof.
  destruct (fst (engine term)) as [search_result|e] eqn:Hs.
  - destruct (poll_stops W (Search.spawn_from W 0 term search_result))
      as (t & tw & Hp & _).
    eexists. intros fuel Hf.
    apply (search_and_parse_eq W fuel engine term search_result t tw Hs (Hp fuel Hf)).
  - exists (Raised e, snd (engine term)). intros fuel _.
    unfold Search.search_and_parse. now rewrite Hs.
Qed.

(** C5: with a valid engine configured, and once a poll finds both jobs
    complete, [search_all] returns the results of the DuckDuckGo job
    followed by those of the primary-engine job, falsy entries dropped and
    the order inside each part kept.  Nothing is deduplicated: a truthy
    entry of the first part and a truthy entry of the second both occur in
    the output, whether or not they carry the same url. *)
Theorem search_all_merges (term : string) (engine : string -> M (list pyval))
    (t0 : nat) :
  Search.engine_get (search_engine (config W)) (Search.engines W) = Some engine ->
  ddg_done W t0 && search_done W t0 = true ->
  exists parsed t,
    (forall fuel, (sleeps_needed W <= fuel)%nat ->
       Search.search_and_parse W fuel engine term = Some parsed) /\
    (t <= t0)%nat /\
    ddg_done W t && search_done W t = true /\
    (forall u, (u < t)%nat -> ddg_done W u && search_done W u = false) /\
    let ddg := contribution (Search.search_duckduckgo W term) in
    let primary := contribution parsed in
    let result := filter truthy ddg ++ filter truthy primary in
    (forall fuel, (Nat.max (sleeps_needed W) t0 <= fuel)%nat ->
       Search.search_all W fuel term
       = Some (Ok result,
               [Log INFO "Sarching for '{}'" [AStr term];
                Spawn "search_duckduckgo" [PStr term];
                Spawn "search_and_parse"
                  [PStr (search_engine (config W)); PStr term]]
               ++ repeat Sleep t
               ++ [Log INFO "Searching URLs for '{}' yielded {} results"
                     [AStr term; ANum (Z.of_nat (List.length result))]])) /\
    (forall x y, truthy x = true -> truthy y = true ->
       In x ddg -> In y primary ->
       exists l1 l2 l3, result = l1 ++ x :: l2 ++ y :: l3).
Proof.
  intros He Hd.
  destruct (search_and_parse_settles engine term) as [parsed Hparsed].
  destruct (wait_both_runs
              (async (ddg_done W) PList (Search.search_duckduckgo W term))
              (async (search_done W) PList parsed) t0 0 t0)
    as (t & Hw & Hle & Hdone & Hrun); [exact Hd | lia |].
  simpl in Hdone, Hrun.
  exists parsed, t.
  split; [exact Hparsed|]. split; [lia|]. split; [exact Hdone|].
  split; [intros u Hu; apply Hrun; lia|].
  intros ddg primary result. split.
  - intros fuel Hf. unfold Search.search_all.
    rewrite He, (Hparsed fuel) by lia.
    rewrite (wait_fuel_le _ _ t0 fuel 0 t) by (auto; lia).
    rewrite !value_or_empty_async, filter_app. reflexivity.
  - intros x y Hx Hy Hin1 Hin2.
    assert (H1 : In x (filter truthy ddg)) by (apply filter_In; auto).
    assert (H2 : In y (filter truthy primary)) by (apply filter_In; auto).
    apply in_split in H1. destruct H1 as (a1 & a2 & H1).
    apply in_split in H2. destruct H2 as (b1 & b2 & H2).
    exists a1, (a2 ++ b1), b2. unfold result. rewrite H1, H2.
    rewrite <- !app_assoc. reflexivity.
Qed.

End Aggregator.

(** With the engine set to yahoo nothing is searched. *)
Lemma search_all_yahoo :
  search_engine (config Example.misconfigured) <> "bing" /\
  search_engine (config Example.misconfigured) <> "google" /\
  Search.search_all Example.misconfigured 0 "procrastinate"
  = Some (Ok [],
          [Log INFO "Sarching for '{}'" [AStr "procrastinate"];
           Log ERROR "Invalid search engine '{}' defined in config"
             [AStr "yahoo"]]).
Proof.
  split; [discriminate|]. split; [discriminate|].
  apply (search_all_invalid_engine Example.misconfigured 0 "procrastinate");
    discriminate.
Defined.

(** On the example world the aggregator returns the instant answer and the
    seven enriched hits; the url of hit 0 is also the url of the instant
    answer and comes back twice. *)
Lemma search_all_procrastinate :
  Search.engine_get (search_engine (config Example.the_world))
    (Search.engines Example.the_world)
    = Some (Search.search_google Example.the_world) /\
  ddg_done Example.the_world 5 && search_done Example.the_world 5 = true /\
  exists result trace,
    Search.search_all Example.the_world 5 "procrastinate"
      = Some (Ok result, trace) /\
    List.length result = 8%nat /\
    List.length (filter (Example.url_is "http://example.org/0") result) = 2%nat.
Proof.
  split; [reflexivity|]. split; [reflexivity|].
  destruct (search_all_merges Example.the_world "procrastinate"
              (Search.search_google Example.the_world) 5 eq_refl eq_refl)
    as (parsed & t & Hparsed & _ & _ & _ & Hall & _).
  specialize (Hparsed 4%nat (le_n 4)).
  vm_compute in Hparsed. injection Hparsed as <-.
  specialize (Hall 5%nat (le_n 5)).
  eexists; eexists. split; [exact Hall|].
  split; vm_compute; reflexivity.
Defined.

(** ** The provider adapters *)

Section Adapters.

Variable W : world.

Lemma in_sources_false source :
  Search.in_sources W source = false <->
  (forall s, source = PStr s -> ~ In s (duckduckgo_sources (config W))).
Proof.
  unfold Search.in_sources. split.
  - intros H s -> Hin.
    assert (existsb (String.eqb s) (duckduckgo_sources (config W)) = true).
    { apply existsb_exists. exists s. split; [exact Hin | apply String.eqb_refl]. }
    congruence.
  - intros H. destruct source; try reflexivity.
    destruct (existsb _ _) eqn:E; [|reflexivity].
    apply existsb_exists in E. destruct E as (x & Hin & Hx).
    apply String.eqb_eq in Hx. subst x. exfalso. exact (H s eq_refl Hin).
Qed.

Ltac step_outcome :=
  match goal with
  | |- context [match ?x with Ok _ => _ | Raised _ => _ end] =>
      destruct x eqn:?
  | |- context [if ?b then _ else _] => destruct b eqn:?
  end.

Lemma search_duckduckgo_at_most_two term result :
  fst (Search.search_duckduckgo W term) = Ok result ->
  (List.length result <= 2)%nat.
Proof.
  unfold Search.search_duckduckgo, Search.requests_get, try_except.
  unfold bind, lift, ret, emit, log_info.
  repeat (step_outcome; cbn [fst snd app]);
    intros H; inversion H; subst; simpl; lia.
Qed.

Lemma search_duckduckgo_count term r req source abstract definition result :
  requests_call W "GET" (ddg_url term) [] = Ok r ->
  json r = Ok req ->
  py_getitem req "AbstractSource" = Ok source ->
  Search.in_sources W source = true ->
  py_get req "Abstract" PNone = Ok abstract ->
  py_get req "Definition" PNone = Ok definition ->
  fst (Search.search_duckduckgo W term) = Ok result ->
  List.length result
  = ((if truthy abstract then 1 else 0) + (if truthy definition then 1 else 0))%nat.
Proof.
  intros Hr Hj Hs Hin Ha Hd.
  unfold Search.search_duckduckgo, Search.requests_get, try_except.
  fold (ddg_url term).
  unfold bind, lift, ret, emit, log_info.
  rewrite Hr, Hj. cbn [fst snd app]. rewrite Hs, Hin. cbn [negb].
  rewrite Ha, Hd.
  repeat (step_outcome; cbn [fst snd app]);
    intros H; inversion H; subst; reflexivity.
Qed.

(** C10: when the response's AbstractSource is not in the allow-list,
    [search_duckduckgo] returns the empty list right after its one request,
    whatever else the response holds, a Definition included; and whenever
    it returns, it returns at most two results: with an allowed source, one
    for a truthy Abstract plus one for a truthy Definition. *)
Theorem search_duckduckgo_gate (term : string) :
  (forall r req source,
     requests_call W "GET" (ddg_url term) [] = Ok r ->
     json r = Ok req ->
     py_getitem req "AbstractSource" = Ok source ->
     (forall s, source = PStr s -> ~ In s (duckduckgo_sources (config W))) ->
     Search.search_duckduckgo W term = (Ok [], [Http "GET" (ddg_url term) []])) /\
  (forall result,
     fst (Search.search_duckduckgo W term) = Ok result ->
     (List.length result <= 2)%nat) /\
  (forall r req source abstract definition result,
     requests_call W "GET" (ddg_url term) [] = Ok r ->
     json r = Ok req ->
     py_getitem req "AbstractSource" = Ok source ->
     (exists s, source = PStr s /\ In s (duckduckgo_sources (config W))) ->
     py_get req "Abstract" PNone = Ok abstract ->
     py_get req "Definition" PNone = Ok definition ->
     fst (Search.search_duckduckgo W term) = Ok result ->
     List.length result
     = ((if truthy abstract then 1 else 0)
        + (if truthy definition then 1 else 0))%nat).
Proof.
  split; [|split].
  - intros r req source Hr Hj Hs Hout.
    apply in_sources_false in Hout.
    unfold Search.search_duckduckgo, Search.requests_get, try_except.
    fold (ddg_url term).
    unfold bind, lift, ret, emit.
    rewrite Hr, Hj. cbn [fst snd app]. rewrite Hs, Hout. reflexivity.
  - apply search_duckduckgo_at_most_two.
  - intros r req source abstract definition result Hr Hj Hs (s & -> & Hin).
    apply (search_duckduckgo_count term r req (PStr s)); auto.
    unfold Search.in_sources. apply existsb_exists.
    exists s. split; [exact Hin | apply String.eqb_refl].
Qed.

End Adapters.

(** ** Payloads of the task pipeline *)

Lemma lookup_dict_set k k' v d :
  dict_lookup k (dict_set k' v d)
  = if String.eqb k k' then Some v else dict_lookup k d.
Proof.
  induction d as [|[k0 v0] d IH]; simpl.
  - destruct (String.eqb k k'); reflexivity.
  - destruct (String.eqb k' k0) eqn:E0; simpl.
    + apply String.eqb_eq in E0. subst k0.
      destruct (String.eqb k k'); reflexivity.
    + destruct (String.eqb k k0) eqn:E1.
      * apply String.eqb_eq in E1. subst k0.
        rewrite String.eqb_sym in E0. now rewrite E0.
      * exact IH.
Qed.

Lemma has_key_dict_set k k' v d :
  has_key k d = true -> has_key k (dict_set k' v d) = true.
Proof.
  unfold has_key. rewrite lookup_dict_set.
  destruct (String.eqb k k'); auto.
Qed.

Lemma has_key_entry k v d : In (k, v) d -> has_key k d = true.
Proof.
  unfold has_key. induction d as [|[k0 v0] d IH]; simpl; [tauto|].
  intros [H|H].
  - inversion H; subst. now rewrite String.eqb_refl.
  - destruct (String.eqb k k0); auto.
Qed.

Lemma has_key_has_entry k d : has_key k d = true -> exists v, In (k, v) d.
Proof.
  unfold has_key. induction d as [|[k0 v0] d IH]; simpl; [discriminate|].
  destruct (String.eqb k k0) eqn:E.
  - apply String.eqb_eq in E. subst. intros _. exists v0. now left.
  - intros H. destruct (IH H) as [v Hv]. exists v. now right.
Qed.

Lemma keys_kept_dicts d d' :
  keys_kept (PDict d) (PDict d') = true
  <-> (forall k, has_key k d = true -> has_key k d' = true).
Proof.
  simpl. rewrite forallb_forall. split.
  - intros H k Hk. destruct (has_key_has_entry k d Hk) as [v Hv].
    exact (H (k, v) Hv).
  - intros H [k v] Hin. simpl. apply H. exact (has_key_entry k v d Hin).
Qed.

Lemma keys_kept_refl v : keys_kept v v = true.
Proof.
  destruct v; try reflexivity. apply keys_kept_dicts. auto.
Qed.

Lemma keys_kept_trans a b c :
  keys_kept a b = true -> keys_kept b c = true -> keys_kept a c = true.
Proof.
  destruct a as [| | | | |da]; try reflexivity.
  destruct b as [| | | | |db]; try discriminate.
  destruct c as [| | | | |dc]; try discriminate.
  rewrite !keys_kept_dicts. auto.
Qed.

Lemma keys_kept_dict_set k v d :
  keys_kept (PDict d) (PDict (dict_set k v d)) = true.
Proof.
  apply keys_kept_dicts. intros k0. apply has_key_dict_set.
Qed.

Lemma forall2b_refl {A} (p : A -> A -> bool) l :
  (forall x, p x x = true) -> forall2b p l l = true.
Proof.
  intros H. induction l as [|x l IH]; simpl; [reflexivity|].
  now rewrite H, IH.
Qed.

Lemma forall2b_trans {A} (p : A -> A -> bool) :
  (forall x y z, p x y = true -> p y z = true -> p x z = true) ->
  forall l1 l2 l3,
    forall2b p l1 l2 = true -> forall2b p l2 l3 = true ->
    forall2b p l1 l3 = true.
Proof.
  intros H. induction l1 as [|x l1 IH]; intros [|y l2] [|z l3];
    simpl; try discriminate; auto.
  rewrite !andb_true_iff. intros [H1 H2] [H3 H4]. split; eauto.
Qed.

Lemma items_kept_refl kept v :
  (forall x, kept x x = true) -> items_kept kept v v = true.
Proof.
  intros H. destruct v; try reflexivity. simpl. now apply forall2b_refl.
Qed.

Lemma items_kept_trans kept :
  (forall x y z, kept x y = true -> kept y z = true -> kept x z = true) ->
  forall a b c,
    items_kept kept a b = true -> items_kept kept b c = true ->
    items_kept kept a c = true.
Proof.
  intros H a b c.
  destruct a as [| | | |la|]; try reflexivity.
  destruct b as [| | | |lb|]; try discriminate.
  destruct c as [| | | |lc|]; try discriminate.
  simpl. now apply forall2b_trans.
Qed.

Lemma field_items_kept_refl k kept v :
  (forall x, kept x x = true) -> field_items_kept k kept v v = true.
Proof.
  intros H. destruct v; try reflexivity. simpl.
  destruct (dict_lookup k d); [|reflexivity]. now apply items_kept_refl.
Qed.

Lemma field_items_kept_trans k kept :
  (forall x y z, kept x y = true -> kept y z = true -> kept x z = true) ->
  forall a b c,
    field_items_kept k kept a b = true -> field_items_kept k kept b c = true ->
    field_items_kept k kept a c = true.
Proof.
  intros H a b c.
  destruct a as [| | | | |da]; try reflexivity. simpl.
  destruct (dict_lookup k da) as [va|]; [|reflexivity].
  destruct b as [| | | | |db]; try discriminate. simpl.
  destruct (dict_lookup k db) as [vb|]; [|discriminate].
  destruct c as [| | | | |dc]; try discriminate.
  destruct (dict_lookup k dc) as [vc|]; [|discriminate].
  now apply items_kept_trans.
Qed.

Lemma url_kept_refl u : url_kept u u = true.
Proof.
  unfold url_kept. rewrite keys_kept_refl. simpl.
  apply field_items_kept_refl. apply keys_kept_refl.
Qed.

Lemma url_kept_trans a b c :
  url_kept a b = true -> url_kept b c = true -> url_kept a c = true.
Proof.
  unfold url_kept. rewrite !andb_true_iff. intros [H1 H2] [H3 H4]. split.
  - eapply keys_kept_trans; eauto.
  - eapply field_items_kept_trans; eauto. apply keys_kept_trans.
Qed.

Lemma payload_kept_refl m : payload_kept m m = true.
Proof.
  unfold payload_kept. rewrite keys_kept_refl. simpl.
  apply field_items_kept_refl. apply url_kept_refl.
Qed.

Lemma payload_kept_trans a b c :
  payload_kept a b = true -> payload_kept b c = true -> payload_kept a c = true.
Proof.
  unfold payload_kept. rewrite !andb_true_iff. intros [H1 H2] [H3 H4]. split.
  - eapply keys_kept_trans; eauto.
  - eapply field_items_kept_trans; eauto. apply url_kept_trans.
Qed.

Lemma field_items_kept_set k kept d v v' :
  dict_lookup k d = Some v ->
  items_kept kept v v' = true ->
  field_items_kept k kept (PDict d) (PDict (dict_set k v' d)) = true.
Proof.
  intros Hl Hk. simpl. rewrite Hl, lookup_dict_set, String.eqb_refl. exact Hk.
Qed.

Lemma field_items_kept_set_other k k' kept d x :
  (forall y, kept y y = true) ->
  String.eqb k k' = false ->
  field_items_kept k kept (PDict d) (PDict (dict_set k' x d)) = true.
Proof.
  intros Hr Hne. simpl. rewrite lookup_dict_set, Hne.
  destruct (dict_lookup k d); [|reflexivity]. now apply items_kept_refl.
Qed.

Lemma field_items_kept_absent k kept d new :
  dict_lookup k d = None -> field_items_kept k kept (PDict d) new = true.
Proof. intros H. simpl. now rewrite H. Qed.

(** *** Running the monad backwards *)

Lemma bind_inv {A B} (m : M A) (f : A -> M B) b tr :
  bind m f = (Ok b, tr) ->
  exists a t1 t2, m = (Ok a, t1) /\ f a = (Ok b, t2) /\ tr = t1 ++ t2.
Proof.
  unfold bind. destruct m as [[a|e] t1]; [|discriminate].
  destruct (f a) as [r t2] eqn:E. intros H. inversion H; subst.
  now exists a, t1, t2.
Qed.

Lemma lift_inv {A} (o : outcome A) a tr :
  lift o = (Ok a, tr) -> o = Ok a /\ tr = [].
Proof. unfold lift. intros H. inversion H. auto. Qed.

Lemma ret_inv {A} (x a : A) tr : ret x = (Ok a, tr) -> x = a /\ tr = [].
Proof. unfold ret. intros H. inversion H. auto. Qed.

Lemma py_getitem_inv v k x :
  py_getitem v k = Ok x -> exists d, v = PDict d /\ dict_lookup k d = Some x.
Proof.
  destruct v; try discriminate. simpl.
  destruct (dict_lookup k d) eqn:E; [|discriminate].
  intros H. inversion H; subst. now exists d.
Qed.

Lemma py_setitem_inv v k x v' :
  py_setitem v k x = Ok v' -> exists d, v = PDict d /\ v' = PDict (dict_set k x d).
Proof.
  destruct v; try discriminate. simpl. intros H. inversion H. now exists d.
Qed.

Ltac inv_run :=
  repeat match goal with
  | H : bind _ _ = (Ok _, _) |- _ =>
      let a := fresh "a" in let t1 := fresh "t" in let t2 := fresh "t" in
      let H1 := fresh "Hrun" in let H2 := fresh "Hrun" in
      apply bind_inv in H; destruct H as (a & t1 & t2 & H1 & H2 & ->)
  | H : lift _ = (Ok _, _) |- _ =>
      let H1 := fresh "Hval" in
      apply lift_inv in H; destruct H as [H1 ->]
  | H : ret _ = (Ok _, _) |- _ =>
      apply ret_inv in H; destruct H as [<- ->]
  end.

Section Loops.

Lemma mapM_idx_kept {A} (kept : A -> A -> bool) (f : nat -> A -> M A) :
  forall l i r tr,
    (forall n x y t, nth_error l n = Some x ->
       f (i + n)%nat x = (Ok y, t) -> kept x y = true /\ t = []) ->
    Tasks.mapM_idx f i l = (Ok r, tr) ->
    forall2b kept l r = true /\ tr = [].
Proof.
  induction l as [|x l IH]; intros i r tr Hf H; simpl in H.
  - inv_run. auto.
  - inv_run.
    destruct (Hf 0%nat x a t eq_refl) as [Hk ->].
    { now rewrite Nat.add_0_r. }
    destruct (IH (S i) a0 t1) as [Hks ->]; auto.
    { intros n x' y t' Hn Hr. apply (Hf (S n) x' y t' Hn).
      now replace (i + S n)%nat with (S i + n)%nat by lia. }
    simpl. now rewrite Hk, Hks.
Qed.

Lemma for_each_kept (kept : pyval -> pyval -> bool) iterable body r tr :
  (forall l n x y t, iterable = PList l -> nth_error l n = Some x ->
     body n x = (Ok y, t) -> kept x y = true /\ t = []) ->
  (forall n s y t, (forall l, iterable <> PList l) ->
     body n (PStr s) <> (Ok y, t)) ->
  Tasks.for_each iterable body = (Ok r, tr) ->
  items_kept kept iterable r = true /\ tr = [].
Proof.
  intros Hlist Hother H. unfold Tasks.for_each in H.
  destruct iterable as [| | |s|l|d]; inv_run;
    try match goal with
        | Hi : py_iter _ = Ok _ |- _ => simpl in Hi; inversion Hi; subst; clear Hi
        end.
  - (* a string: empty, or the body would have to succeed on a character *)
    destruct s as [|c s]; simpl in *; inv_run.
    + split; reflexivity.
    + exfalso. eapply Hother; [|eassumption]. discriminate.
  - match goal with
    | Hm : Tasks.mapM_idx _ _ _ = _ |- _ =>
        apply (mapM_idx_kept kept body l 0) in Hm;
          [destruct Hm as [Hk ->]; split; [exact Hk | reflexivity]|]
    end.
    intros n x y t' Hn Hr. simpl in Hr. eapply Hlist; eauto.
  - (* a dictionary: empty, or the body would have to succeed on a key *)
    destruct d as [|kv d]; simpl in *; inv_run.
    + split; reflexivity.
    + exfalso. eapply Hother; [|eassumption]. discriminate.
Qed.

End Loops.

(** ** The stages of the pipeline *)

Section Stages.

Variable P : pipeline.

Lemma write_message_inv task m r tr :
  Tasks.write_message P task m = (Ok r, tr) ->
  r = m /\
  exists hashslug,
    py_getitem m "hashslug" = Ok hashslug /\
    written tr = [((task ++ ":" ++ Tasks.py_format P hashslug)%string, m)].
Proof.
  unfold Tasks.write_message. intros H. inv_run.
  split; [reflexivity|]. exists a. split; [assumption|].
  destruct (save_messages P); unfold emit in *;
    match goal with Hp : (_, _) = (_, _) |- _ => inversion Hp; subst end;
    reflexivity.
Qed.

Lemma in_place_inv f v v' tr :
  Tasks.in_place f v = (Ok v', tr) ->
  tr = [] /\
  (v' = v \/ (f v = Ok v' /\ ((exists l, v = PList l) \/ (exists d, v = PDict d)))).
Proof.
  unfold Tasks.in_place. intros H. inv_run. split; [reflexivity|].
  destruct v; auto; destruct a; auto; right; split; eauto.
Qed.

Lemma nth_char_str s n x : Tasks.nth_char s n = Some x -> exists c, x = PStr c.
Proof.
  revert n. induction s as [|c s IH]; intros [|n]; simpl; try discriminate.
  - intros H. inversion H. eauto.
  - apply IH.
Qed.

Lemma py_index_inv v n x :
  Tasks.py_index v n = Ok x ->
  (exists l, v = PList l /\ nth_error l n = Some x) \/ (exists c, x = PStr c).
Proof.
  destruct v; simpl; try discriminate.
  - destruct (Tasks.nth_char s n) eqn:E; [|discriminate].
    intros H. inversion H; subst. right. eapply nth_char_str; eauto.
  - destruct (nth_error l n) eqn:E; [|discriminate].
    intros H. inversion H; subst. left. eauto.
Qed.

Lemma hashslug_dict_set k x d :
  String.eqb "hashslug" k = false ->
  py_getitem (PDict (dict_set k x d)) "hashslug" = py_getitem (PDict d) "hashslug".
Proof. intros H. simpl. now rewrite lookup_dict_set, H. Qed.

Lemma rate_sentence_kept l n x y t :
  nth_error l n = Some x ->
  lift (py_setitem x "rating" (PInt 0)) = (Ok y, t) ->
  sentence_kept x y = true /\ t = [].
Proof.
  intros _ H. inv_run. split; [|reflexivity].
  match goal with Hs : py_setitem _ _ _ = Ok _ |- _ =>
    apply py_setitem_inv in Hs; destruct Hs as (d & -> & ->) end.
  apply keys_kept_dict_set.
Qed.

Lemma url_kept_set_sentences ud sentences sentences' :
  dict_lookup "sentences" ud = Some sentences ->
  items_kept sentence_kept sentences sentences' = true ->
  url_kept (PDict ud) (PDict (dict_set "sentences" sentences' ud)) = true.
Proof.
  intros Hl Hk. unfold url_kept.
  rewrite keys_kept_dict_set, (field_items_kept_set _ _ _ sentences); auto.
Qed.

Lemma payload_kept_set_urls d urls urls' :
  dict_lookup "urls" d = Some urls ->
  items_kept url_kept urls urls' = true ->
  payload_kept (PDict d) (PDict (dict_set "urls" urls' d)) = true.
Proof.
  intros Hl Hk. unfold payload_kept.
  rewrite keys_kept_dict_set, (field_items_kept_set _ _ _ urls); auto.
Qed.

(** [rate] keeps every field and writes under the key of [save]. *)
Lemma rate_run m m3 tr :
  Tasks.rate P m = (Ok m3, tr) ->
  payload_kept m m3 = true /\
  py_getitem m3 "hashslug" = py_getitem m "hashslug" /\
  exists hashslug,
    py_getitem m "hashslug" = Ok hashslug /\
    written tr = [(("save:" ++ Tasks.py_format P hashslug)%string, m3)].
Proof.
  unfold Tasks.rate. intros H. inv_run.
  match goal with Hw : Tasks.write_message _ _ _ = _ |- _ =>
    apply write_message_inv in Hw; destruct Hw as (-> & h & Hh & Hput) end.
  match goal with Hg : py_getitem m "urls" = Ok _ |- _ =>
    apply py_getitem_inv in Hg; destruct Hg as (d & -> & Hurls) end.
  match goal with Hs : py_setitem (PDict d) "urls" _ = Ok _ |- _ =>
    simpl in Hs; inversion Hs; subst; clear Hs end.
  match goal with Hf : Tasks.for_each _ _ = _ |- _ =>
    apply (for_each_kept url_kept) in Hf; [destruct Hf as [Hk ->]| |] end.
  - rewrite hashslug_dict_set in * by reflexivity.
    split; [eapply payload_kept_set_urls; eassumption|].
    split; [reflexivity|]. exists h. split; [exact Hh|]. exact Hput.
  - intros l n u u' t _ _ Hu. inv_run.
    match goal with Hg : py_getitem u "sentences" = Ok _ |- _ =>
      apply py_getitem_inv in Hg; destruct Hg as (ud & -> & Hss) end.
    match goal with Hs : py_setitem (PDict ud) "sentences" _ = Ok _ |- _ =>
      simpl in Hs; inversion Hs; subst; clear Hs end.
    match goal with Hf : Tasks.for_each _ _ = _ |- _ =>
      apply (for_each_kept sentence_kept) in Hf; [destruct Hf as [Hk ->]| |] end.
    + split; [|reflexivity]. eapply url_kept_set_sentences; eassumption.
    + intros l' n' x y t' _. apply rate_sentence_kept.
    + intros n' s y t' _ Hc. inv_run. discriminate.
  - intros n s y t _ Hc. inv_run. discriminate.
Qed.

Lemma detect_sentence_kept l n x y t :
  nth_error l n = Some x ->
  (sentence <- lift (Tasks.py_index (PList l) n) ;;
   sentence_clean <- lift (py_getitem sentence "s_clean") ;;
   patterns <- lift (match_wordnik_rules P sentence_clean) ;;
   lift (py_setitem sentence "patterns" patterns)) = (Ok y, t) ->
  sentence_kept x y = true /\ t = [].
Proof.
  intros Hn H. inv_run. split; [|reflexivity].
  match goal with Hi : Tasks.py_index _ _ = Ok _ |- _ =>
    simpl in Hi; rewrite Hn in Hi; inversion Hi; subst; clear Hi end.
  match goal with Hs : py_setitem _ _ _ = Ok _ |- _ =>
    apply py_setitem_inv in Hs; destruct Hs as (d & -> & ->) end.
  apply keys_kept_dict_set.
Qed.

Lemma detect_sentence_other sentences n y t :
  (forall l, sentences <> PList l) ->
  (sentence <- lift (Tasks.py_index sentences n) ;;
   sentence_clean <- lift (py_getitem sentence "s_clean") ;;
   patterns <- lift (match_wordnik_rules P sentence_clean) ;;
   lift (py_setitem sentence "patterns" patterns)) <> (Ok y, t).
Proof.
  intros Hnl H. inv_run.
  match goal with Hi : Tasks.py_index _ _ = Ok _ |- _ =>
    apply py_index_inv in Hi; destruct Hi as [(l & -> & _) | (c & ->)] end.
  - exact (Hnl l eq_refl).
  - discriminate.
Qed.

(** [detect] keeps every field when the annotators do, and writes under the
    key of [rate]. *)
Lemma detect_run m m2 tr :
  annotators_keep_fields P ->
  Tasks.detect P m = (Ok m2, tr) ->
  payload_kept m m2 = true /\
  py_getitem m2 "hashslug" = py_getitem m "hashslug" /\
  exists hashslug,
    py_getitem m "hashslug" = Ok hashslug /\
    written tr = [(("rate:" ++ Tasks.py_format P hashslug)%string, m2)].
Proof.
  intros [Hb Hr]. unfold Tasks.detect. intros H. inv_run.
  match goal with Hw : Tasks.write_message _ _ _ = _ |- _ =>
    apply write_message_inv in Hw; destruct Hw as (-> & h & Hh & Hput) end.
  match goal with Hi : Tasks.in_place _ m = _ |- _ =>
    apply in_place_inv in Hi; destruct Hi as [-> Hm] end.
  assert (Hm1 : payload_kept m a = true /\
                py_getitem a "hashslug" = py_getitem m "hashslug").
  { destruct Hm as [->|[Hm _]]; [|now apply Hb].
    split; [apply payload_kept_refl | reflexivity]. }
  clear Hm. destruct Hm1 as [Hk1 Hh1].
  match goal with Hg : py_getitem a "urls" = Ok _ |- _ =>
    apply py_getitem_inv in Hg; destruct Hg as (d & -> & Hurls) end.
  match goal with Hs : py_setitem (PDict d) "urls" _ = Ok _ |- _ =>
    simpl in Hs; inversion Hs; subst; clear Hs end.
  match goal with Hf : Tasks.for_each _ _ = _ |- _ =>
    apply (for_each_kept url_kept) in Hf; [destruct Hf as [Hk ->]| |] end.
  - rewrite hashslug_dict_set in * by reflexivity.
    split.
    { eapply payload_kept_trans; [exact Hk1|].
      eapply payload_kept_set_urls; eassumption. }
    split; [exact Hh1|]. exists h. split; [congruence|]. exact Hput.
  - intros l n u u' t _ _ Hu. inv_run.
    match goal with Hi : Tasks.in_place _ u = _ |- _ =>
      apply in_place_inv in Hi; destruct Hi as [-> Hu1] end.
    match goal with Hg : py_getitem _ "sentences" = Ok _ |- _ =>
      apply py_getitem_inv in Hg; destruct Hg as (ud & -> & Hss) end.
    match goal with Hs : py_setitem (PDict ud) "sentences" _ = Ok _ |- _ =>
      simpl in Hs; inversion Hs; subst; clear Hs end.
    assert (Hku : url_kept u (PDict ud) = true).
    { destruct Hu1 as [<-|[Hu1 _]]; [apply url_kept_refl | now apply Hr]. }
    match goal with Hf : Tasks.for_each _ _ = _ |- _ =>
      apply (for_each_kept sentence_kept) in Hf; [destruct Hf as [Hk ->]| |] end.
    + split; [|reflexivity].
      eapply url_kept_trans; [exact Hku|].
      eapply url_kept_set_sentences; eassumption.
    + intros l' n' x y t' -> Hn. apply detect_sentence_kept. exact Hn.
    + intros n' s y t' Hnl. now apply detect_sentence_other.
  - intros n s y t _ Hc. inv_run.
    match goal with Hi : Tasks.in_place _ (PStr s) = _ |- _ =>
      apply in_place_inv in Hi; destruct Hi as [-> Hu1] end.
    destruct Hu1 as [->|[_ [[l Hl]|[d' Hd]]]]; discriminate.
Qed.

(** [search] adds the urls and the crawl date to a seed that has no urls
    yet, and writes under the key of [detect]. *)
Lemma search_run seed m1 tr :
  py_getitem seed "urls" = Raised (KeyError (PStr "urls")) ->
  Tasks.search P seed = (Ok m1, tr) ->
  payload_kept seed m1 = true /\
  py_getitem m1 "hashslug" = py_getitem seed "hashslug" /\
  (exists word urls,
     py_getitem seed "word" = Ok word /\
     search_all P word = Ok urls /\
     py_getitem m1 "urls" = Ok (PList urls) /\
     py_getitem m1 "crawl_date" = Ok (now P)) /\
  exists hashslug,
    py_getitem seed "hashslug" = Ok hashslug /\
    written tr = [(("detect:" ++ Tasks.py_format P hashslug)%string, m1)].
Proof.
  intros Hnone. unfold Tasks.search. intros H. inv_run.
  match goal with Hw : Tasks.write_message _ _ _ = _ |- _ =>
    apply write_message_inv in Hw; destruct Hw as (-> & h & Hh & Hput) end.
  match goal with Hg : py_getitem seed "word" = Ok _ |- _ =>
    pose proof Hg as Hword;
    apply py_getitem_inv in Hg; destruct Hg as (d & -> & Hw) end.
  repeat match goal with Hs : py_setitem _ _ _ = Ok _ |- _ =>
    apply py_setitem_inv in Hs;
    let d' := fresh "d" in let E := fresh "E" in
    destruct Hs as (d' & E & ->); inversion E; subst; clear E end.
  match goal with Hl : dict_lookup "word" ?d0 = Some _ |- _ =>
    assert (Hno : dict_lookup "urls" d0 = None)
      by (simpl in Hnone; destruct (dict_lookup "urls" d0);
          [discriminate | reflexivity]) end.
  rewrite !hashslug_dict_set in * by reflexivity.
  split.
  { unfold payload_kept. rewrite field_items_kept_absent by exact Hno.
    rewrite andb_true_r.
    eapply keys_kept_trans; apply keys_kept_dict_set. }
  split; [reflexivity|]. split.
  { do 2 eexists. split; [exact Hword|]. split; [eassumption|].
    unfold py_getitem. rewrite !lookup_dict_set. split; reflexivity. }
  exists h. split; [exact Hh | exact Hput].
Qed.

Lemma written_app t1 t2 : written (t1 ++ t2) = written t1 ++ written t2.
Proof.
  induction t1 as [|ev t1 IH]; simpl; [reflexivity|].
  destruct ev; simpl; now rewrite ?IH.
Qed.

Lemma write_message_total task m hashslug :
  py_getitem m "hashslug" = Ok hashslug ->
  exists tr,
    Tasks.write_message P task m = (Ok m, tr) /\
    written tr = [((task ++ ":" ++ Tasks.py_format P hashslug)%string, m)].
Proof.
  intros Hh. unfold Tasks.write_message. rewrite Hh.
  destruct (save_messages P); eexists; split; reflexivity.
Qed.

(** [search] returns and writes whenever the seed has a word and a hashslug
    and the aggregator returns. *)
Lemma search_total seed word hashslug urls :
  py_getitem seed "word" = Ok word ->
  py_getitem seed "hashslug" = Ok hashslug ->
  search_all P word = Ok urls ->
  exists m1 tr,
    Tasks.search P seed = (Ok m1, tr) /\
    written tr = [(("detect:" ++ Tasks.py_format P hashslug)%string, m1)].
Proof.
  intros Hw Hh Hs.
  destruct (py_getitem_inv _ _ _ Hw) as (d & -> & _).
  destruct (write_message_total "detect"
              (PDict (dict_set "crawl_date" (now P)
                        (dict_set "urls" (PList urls) d))) hashslug)
    as (tr & Hwm & Hput).
  { now rewrite !hashslug_dict_set by reflexivity. }
  exists (PDict (dict_set "crawl_date" (now P) (dict_set "urls" (PList urls) d))), tr.
  split; [|exact Hput].
  unfold Tasks.search. rewrite Hw. cbn [lift bind].
  rewrite Hs. cbn [lift bind py_setitem]. rewrite Hwm. reflexivity.
Qed.

(** C8, amended: for a seed with a word and a hashslug and no urls yet, on
    which the aggregator returns, [search] writes under "detect:<hashslug>"
    a payload that keeps every field of the seed and has the urls and the
    crawl date; and when [detect] and [rate] return on its output, with
    annotators that keep the fields they are handed, the three writes are
    "detect:<hashslug>", "rate:<hashslug>", "save:<hashslug>" in this order
    and each payload keeps every field of the one before it (the keys of
    the message, of each url object and of each sentence).  Nothing says
    that a field is added at each step. *)
Theorem pipeline_writes_in_order (seed word : pyval) (h : string)
    (urls : list pyval) :
  py_getitem seed "word" = Ok word ->
  py_getitem seed "hashslug" = Ok (PStr h) ->
  py_getitem seed "urls" = Raised (KeyError (PStr "urls")) ->
  search_all P word = Ok urls ->
  annotators_keep_fields P ->
  exists m1 t1,
    Tasks.search P seed = (Ok m1, t1) /\
    payload_kept seed m1 = true /\
    py_getitem m1 "urls" = Ok (PList urls) /\
    py_getitem m1 "crawl_date" = Ok (now P) /\
    forall m2 t2 m3 t3,
      Tasks.detect P m1 = (Ok m2, t2) ->
      Tasks.rate P m2 = (Ok m3, t3) ->
      written (t1 ++ t2 ++ t3)
      = [(("detect:" ++ h)%string, m1);
         (("rate:" ++ h)%string, m2);
         (("save:" ++ h)%string, m3)] /\
      payload_kept m1 m2 = true /\
      payload_kept m2 m3 = true.
Proof.
  intros Hw Hh Hno Hs Hkeep.
  destruct (search_total seed word (PStr h) urls Hw Hh Hs) as (m1 & t1 & Hrun & _).
  destruct (search_run seed m1 t1 Hno Hrun)
    as (Hk1 & Hh1 & (word' & urls' & Hw' & Hs' & Hu & Hc) & h1 & Hh1' & Hput1).
  assert (word' = word) by congruence. subst word'.
  assert (urls' = urls) by congruence. subst urls'.
  assert (h1 = PStr h) by congruence. subst h1.
  exists m1, t1. repeat (split; [assumption|]).
  intros m2 t2 m3 t3 Hd Hr.
  destruct (detect_run m1 m2 t2 Hkeep Hd) as (Hk2 & Hh2 & h2 & Hh2' & Hput2).
  destruct (rate_run m2 m3 t3 Hr) as (Hk3 & _ & h3 & Hh3' & Hput3).
  assert (h2 = PStr h) by congruence. subst h2.
  assert (h3 = PStr h) by congruence. subst h3.
  rewrite !written_app, Hput1, Hput2, Hput3. simpl. auto.
Qed.

End Stages.

(** When the aggregator finds nothing there is no sentence to annotate or
    to rate: [detect] and [rate] write the payload they received. *)
Lemma quiet_pipeline_adds_nothing :
  ~ strict_pipeline Example.quiet Example.seed.
Proof.
  intros H.
  destruct (H (PStr "procrastinate") "procrastinate:6ad283" eq_refl eq_refl)
    as (m1 & t1 & m2 & t2 & m3 & t3 & Hs & Hd & Hr & _ & _ & _ & Hg).
  vm_compute in Hs. injection Hs as <- <-.
  vm_compute in Hd. injection Hd as <- <-.
  vm_compute in Hr. injection Hr as <- <-.
  vm_compute in Hg. discriminate.
Qed.

Lemma quiet_rate_writes_same :
  Tasks.rate Example.quiet Example.nothing_found
  = (Ok Example.nothing_found,
     [FileWrite "/tmp/s3" "save:procrastinate:6ad283" Example.nothing_found]) /\
  Tasks.detect Example.quiet Example.nothing_found
  = (Ok Example.nothing_found,
     [FileWrite "/tmp/s3" "rate:procrastinate:6ad283" Example.nothing_found]).
Proof. split; reflexivity. Qed.

Lemma example_annotators_keep found :
  annotators_keep_fields (Example.pipeline_finding found).
Proof.
  split.
  - intros m m' H. simpl in H. inversion H; subst.
    split; [apply payload_kept_refl | reflexivity].
  - intros u u' H. simpl in H. destruct u; try discriminate.
    simpl in H. inversion H; subst. unfold url_kept.
    rewrite keys_kept_dict_set.
    apply field_items_kept_set_other; [apply keys_kept_refl | reflexivity].
Qed.

(** With two pages found, one of them with two sentences, the three keys
    are written in order and here every payload does grow. *)
Lemma pipeline_procrastinate :
  annotators_keep_fields Example.the_pipeline /\
  exists m1 t1 m2 t2 m3 t3,
    Tasks.search Example.the_pipeline Example.seed = (Ok m1, t1) /\
    Tasks.detect Example.the_pipeline m1 = (Ok m2, t2) /\
    Tasks.rate Example.the_pipeline m2 = (Ok m3, t3) /\
    written (t1 ++ t2 ++ t3)
    = [("detect:procrastinate:6ad283", m1);
       ("rate:procrastinate:6ad283", m2);
       ("save:procrastinate:6ad283", m3)] /\
    payload_grows Example.seed m1 = true /\
    payload_grows m1 m2 = true /\
    payload_grows m2 m3 = true.
Proof.
  split; [apply example_annotators_keep|].
  destruct (pipeline_writes_in_order Example.the_pipeline Example.seed
              (PStr "procrastinate") "procrastinate:6ad283" Example.found
              eq_refl eq_refl eq_refl eq_refl
              (example_annotators_keep Example.found))
    as (m1 & t1 & Hs & _ & _ & _ & Hrest).
  pose proof Hs as Hs'. vm_compute in Hs'. injection Hs' as <- <-.
  eexists _, _, _, _, _, _.
  split; [exact Hs|].
  split; [lazy; reflexivity|]. split; [lazy; reflexivity|].
  split; [refine (proj1 (Hrest _ _ _ _ _ _)); reflexivity|].
  repeat split; vm_compute; reflexivity.
Defined.

(** ** When a stage persists *)

Lemma bind_ok_quiet {A B} (a : A) (f : A -> M B) : bind (Ok a, []) f = f a.
Proof. unfold bind. destruct (f a). reflexivity. Qed.

Lemma mapM_idx_total {A B} (f : nat -> A -> M B) : forall l i,
  (forall n x, nth_error l n = Some x -> exists y, f (i + n)%nat x = (Ok y, [])) ->
  exists r, Tasks.mapM_idx f i l = (Ok r, []).
Proof.
  induction l as [|x l IH]; intros i Hf; simpl.
  - now exists [].
  - destruct (Hf 0%nat x eq_refl) as [y Hy]. rewrite Nat.add_0_r in Hy.
    destruct (IH (S i)) as [r Hr].
    { intros n x' Hn. destruct (Hf (S n) x' Hn) as [y' Hy'].
      exists y'. now replace (S i + n)%nat with (i + S n)%nat by lia. }
    exists (y :: r). rewrite Hy, bind_ok_quiet, Hr, bind_ok_quiet. reflexivity.
Qed.

Lemma for_each_list_total body l :
  (forall n x, nth_error l n = Some x -> exists y, body n x = (Ok y, [])) ->
  exists l', Tasks.for_each (PList l) body = (Ok (PList l'), []).
Proof.
  intros H. destruct (mapM_idx_total body l 0 H) as [r Hr].
  exists r. unfold Tasks.for_each. rewrite Hr, bind_ok_quiet. reflexivity.
Qed.

Section Persist.

Variable P : pipeline.

Lemma rate_total m hashslug urls :
  py_getitem m "hashslug" = Ok hashslug ->
  py_getitem m "urls" = Ok (PList urls) ->
  Forall rateable urls ->
  exists m' tr,
    Tasks.rate P m = (Ok m', tr) /\
    written tr = [(("save:" ++ Tasks.py_format P hashslug)%string, m')].
Proof.
  intros Hh Hu Hall.
  destruct (py_getitem_inv _ _ _ Hu) as (d & -> & _).
  destruct (for_each_list_total
    (fun (_ : nat) url =>
       sentences <- lift (py_getitem url "sentences") ;;
       sentences <- Tasks.for_each sentences (fun _ sentence =>
           lift (py_setitem sentence "rating" (PInt 0))) ;;
       lift (py_setitem url "sentences" sentences)) urls) as [urls' Hloop].
  { intros n u Hn.
    destruct (proj1 (Forall_forall _ _) Hall u (nth_error_In _ _ Hn))
      as (ss & Hss & Hdicts).
    destruct (for_each_list_total
      (fun (_ : nat) sentence => lift (py_setitem sentence "rating" (PInt 0))) ss)
      as [ss' Hin].
    { intros k s Hk.
      destruct (proj1 (Forall_forall _ _) Hdicts s (nth_error_In _ _ Hk)) as [sd ->].
      eexists. reflexivity. }
    destruct (py_getitem_inv _ _ _ Hss) as (ud & -> & _).
    eexists. rewrite Hss. unfold lift at 1. rewrite bind_ok_quiet, Hin, bind_ok_quiet.
    reflexivity. }
  destruct (write_message_total P "save" (PDict (dict_set "urls" (PList urls') d)) hashslug)
    as (tr & Hw & Hput).
  { now rewrite hashslug_dict_set by reflexivity. }
  exists (PDict (dict_set "urls" (PList urls') d)), tr. split; [|exact Hput].
  unfold Tasks.rate. rewrite Hu. unfold lift at 1.
  rewrite bind_ok_quiet, Hloop, bind_ok_quiet.
  cbn [py_setitem]. unfold lift. rewrite bind_ok_quiet. exact Hw.
Qed.

Lemma detect_total m m1 hashslug urls :
  Tasks.in_place (batch_tag_sentences P) m = (Ok m1, []) ->
  py_getitem m1 "hashslug" = Ok hashslug ->
  py_getitem m1 "urls" = Ok (PList urls) ->
  Forall (detectable P) urls ->
  exists m' tr,
    Tasks.detect P m = (Ok m', tr) /\
    written tr = [(("rate:" ++ Tasks.py_format P hashslug)%string, m')].
Proof.
  intros Hb Hh Hu Hall.
  destruct (py_getitem_inv _ _ _ Hu) as (d & -> & _).
  destruct (for_each_list_total
    (fun (_ : nat) url_object =>
       url_object <- Tasks.in_place (readability_score P) url_object ;;
       sentences <- lift (py_getitem url_object "sentences") ;;
       sentences <- Tasks.for_each sentences (fun idx _ =>
           sentence <- lift (Tasks.py_index sentences idx) ;;
           sentence_clean <- lift (py_getitem sentence "s_clean") ;;
           patterns <- lift (match_wordnik_rules P sentence_clean) ;;
           lift (py_setitem sentence "patterns" patterns)) ;;
       lift (py_setitem url_object "sentences" sentences)) urls) as [urls' Hloop].
  { intros n u Hn.
    destruct (proj1 (Forall_forall _ _) Hall u (nth_error_In _ _ Hn))
      as (u1 & ss & Hscore & Hss & Hclean).
    destruct (for_each_list_total
      (fun (idx : nat) (_ : pyval) =>
         sentence <- lift (Tasks.py_index (PList ss) idx) ;;
         sentence_clean <- lift (py_getitem sentence "s_clean") ;;
         patterns <- lift (match_wordnik_rules P sentence_clean) ;;
         lift (py_setitem sentence "patterns" patterns)) ss)
      as [ss' Hin].
    { intros k s Hk.
      destruct (proj1 (Forall_forall _ _) Hclean s (nth_error_In _ _ Hk))
        as (clean & patterns & Hc & Hp).
      destruct (py_getitem_inv _ _ _ Hc) as (sd & -> & _).
      eexists. cbn [Tasks.py_index]. rewrite Hk. unfold lift.
      rewrite bind_ok_quiet, Hc, bind_ok_quiet, Hp, bind_ok_quiet.
      reflexivity. }
    destruct (py_getitem_inv _ _ _ Hss) as (ud & -> & _).
    eexists. rewrite Hscore, bind_ok_quiet, Hss. unfold lift at 1.
    rewrite bind_ok_quiet, Hin, bind_ok_quiet. reflexivity. }
  destruct (write_message_total P "rate" (PDict (dict_set "urls" (PList urls') d)) hashslug)
    as (tr & Hw & Hput).
  { now rewrite hashslug_dict_set by reflexivity. }
  exists (PDict (dict_set "urls" (PList urls') d)), tr. split; [|exact Hput].
  unfold Tasks.detect. rewrite Hb, bind_ok_quiet, Hu. unfold lift at 1.
  rewrite bind_ok_quiet, Hloop, bind_ok_quiet.
  cbn [py_setitem]. unfold lift. rewrite bind_ok_quiet. exact Hw.
Qed.

(** A stage returns and persists its message whenever the message carries
    what the stage reads and its collaborators return:
    [search] for a seed with a word and a hashslug, [detect] when the batch
    tagger leaves a hashslug and a list of url objects it can work on,
    [rate] for a message with a hashslug and a list of url objects that
    have their sentences.  An empty list of urls is such a message. *)
Theorem stages_persist_given_fields :
  (forall seed word hashslug urls,
     py_getitem seed "word" = Ok word ->
     py_getitem seed "hashslug" = Ok hashslug ->
     search_all P word = Ok urls ->
     exists m' tr,
       Tasks.search P seed = (Ok m', tr) /\
       written tr = [(("detect:" ++ Tasks.py_format P hashslug)%string, m')]) /\
  (forall m m1 hashslug urls,
     Tasks.in_place (batch_tag_sentences P) m = (Ok m1, []) ->
     py_getitem m1 "hashslug" = Ok hashslug ->
     py_getitem m1 "urls" = Ok (PList urls) ->
     Forall (detectable P) urls ->
     exists m' tr,
       Tasks.detect P m = (Ok m', tr) /\
       written tr = [(("rate:" ++ Tasks.py_format P hashslug)%string, m')]) /\
  (forall m hashslug urls,
     py_getitem m "hashslug" = Ok hashslug ->
     py_getitem m "urls" = Ok (PList urls) ->
     Forall rateable urls ->
     exists m' tr,
       Tasks.rate P m = (Ok m', tr) /\
       written tr = [(("save:" ++ Tasks.py_format P hashslug)%string, m')]).
Proof.
  split; [|split].
  - apply search_total.
  - apply detect_total.
  - apply rate_total.
Qed.

End Persist.

(** C9 does not hold of the code.  [extract_wrapper] keeps the url object
    of a page that cannot be fetched as the provider gave it, without
    sentences; [search_all] returns it and [search] writes it under
    "detect:<hashslug>".  [detect] reads the sentences of every url object
    and has no handler: on the very message that [search] wrote it raises
    KeyError, and nothing is written under "rate:<hashslug>". *)
Theorem detect_aborts_on_kept_url_object :
  (exists trace,
     Search.search_all Example.the_world 5 "procrastinate"
     = Some (Ok Degraded.aggregated, trace)) /\
  In (Example.url_object_of "3") Degraded.aggregated /\
  py_getitem (Example.url_object_of "3") "sentences"
    = Raised (KeyError (PStr "sentences")) /\
  exists m1,
    Tasks.search Degraded.the_pipeline Example.seed
    = (Ok m1, [FileWrite "/tmp/s3" "detect:procrastinate:6ad283" m1]) /\
    py_getitem m1 "urls" = Ok (PList Degraded.aggregated) /\
    Tasks.detect Degraded.the_pipeline m1
    = (Raised (KeyError (PStr "sentences")), []) /\
    ~ always_persists (Tasks.detect Degraded.the_pipeline).
Proof.
  split; [eexists; vm_compute; reflexivity|].
  split; [vm_compute; tauto|].
  split; [reflexivity|].
  eexists. split; [vm_compute; reflexivity|].
  split; [vm_compute; reflexivity|].
  assert (Hd : forall m,
    m = PDict [("word", PStr "procrastinate");
               ("hashslug", PStr "procrastinate:6ad283");
               ("urls", PList Degraded.aggregated);
               ("crawl_date", PStr "2015-11-20T12:00:00")] ->
    Tasks.detect Degraded.the_pipeline m
    = (Raised (KeyError (PStr "sentences")), []))
    by (intros m ->; vm_compute; reflexivity).
  split; [apply Hd; vm_compute; reflexivity|].
  intros H.
  destruct (H (PDict [("word", PStr "procrastinate");
                      ("hashslug", PStr "procrastinate:6ad283");
                      ("urls", PList Degraded.aggregated);
                      ("crawl_date", PStr "2015-11-20T12:00:00")]))
    as (m' & key & Hr & _).
  rewrite (Hd _ eq_refl) in Hr. discriminate.
Qed.

(** The same on a message whose one url object was never enriched. *)
Lemma detect_unenriched_raises :
  Tasks.detect Example.the_pipeline Example.unenriched
  = (Raised (KeyError (PStr "sentences")), []).
Proof. reflexivity. Qed.

Lemma rate_without_urls_raises :
  Tasks.rate Example.the_pipeline Example.seed
  = (Raised (KeyError (PStr "urls")), []).
Proof. reflexivity. Qed.

(** With no url at all every stage still writes its message. *)
Lemma stages_persist_empty_urls :
  (exists m' tr,
     Tasks.search Example.quiet Example.seed = (Ok m', tr) /\
     written tr = [("detect:procrastinate:6ad283", m')]) /\
  (exists m' tr,
     Tasks.detect Example.quiet Example.nothing_found = (Ok m', tr) /\
     written tr = [("rate:procrastinate:6ad283", m')]) /\
  (exists m' tr,
     Tasks.rate Example.quiet Example.nothing_found = (Ok m', tr) /\
     written tr = [("save:procrastinate:6ad283", m')]).
Proof.
  destruct (stages_persist_given_fields Example.quiet) as (Hs & Hd & Hr).
  split; [|split].
  - apply (Hs Example.seed (PStr "procrastinate")
              (PStr "procrastinate:6ad283") []); reflexivity.
  - apply (Hd Example.nothing_found Example.nothing_found
              (PStr "procrastinate:6ad283") []);
      [reflexivity | reflexivity | reflexivity | constructor].
  - apply (Hr Example.nothing_found (PStr "procrastinate:6ad283") []);
      [reflexivity | reflexivity | constructor].
Defined.

(** ** Providers that fail *)

(** C7 does not hold of the code.  With no network, the handler of
    [search_google] and of [search_bing] formats [r.status_code] while [r]
    was never bound, and raises; [search_diffbot_cache] has no handler and
    lets the failure through; only [search_duckduckgo] returns the empty
    list, without a log line.  When the provider answers but not in JSON,
    [r] is bound and Google and Bing do log and return the empty list. *)
Theorem adapters_without_network :
  Search.search_google Example.offline "procrastinate"
  = (Raised (UnboundLocalError "r"),
     [Http "GET" "https://www.googleapis.com/customsearch/v1"
        [("key", "g"); ("cx", "cse"); ("q", "procrastinate"); ("lr", "lang_en")]])
  /\
  fst (Search.search_bing Example.offline "procrastinate")
  = Raised (UnboundLocalError "r") /\
  fst (Search.search_diffbot_cache Example.offline "procrastinate")
  = Raised (Exc "ConnectionError") /\
  Search.search_duckduckgo Example.offline "procrastinate"
  = (Ok [], [Http "GET" (ddg_url "procrastinate") []]) /\
  Search.search_google Example.garbled "procrastinate"
  = (Ok [],
     [Http "GET" "https://www.googleapis.com/customsearch/v1"
        [("key", "g"); ("cx", "cse"); ("q", "procrastinate"); ("lr", "lang_en")];
      Log ERROR "GOOGLE search failed for '{}' (Status: {} / {})"
        [AStr "procrastinate"; ANum 502; AStr "Bad Gateway"]]) /\
  fst (Search.search_bing Example.garbled "procrastinate") = Ok [] /\
  fst (Search.search_diffbot_cache Example.garbled "procrastinate")
  = Raised (Exc "ValueError").
Proof. repeat split; reflexivity. Qed.

(** The handler raises for every term and every world in which the request
    itself fails. *)
Lemma search_google_request_fails W term e :
  requests_call W "GET" "https://www.googleapis.com/customsearch/v1"
    [("key", credentials_google (config W)); ("cx", google_cse (config W));
     ("q", term); ("lr", "lang_en")] = Raised e ->
  fst (Search.search_google W term) = Raised (UnboundLocalError "r").
Proof.
  intros H. unfold Search.search_google, Search.requests_get, try_bound.
  cbn [bind emit lift fst snd]. rewrite H. reflexivity.
Qed.

(** An Urban Dictionary abstract is not on the allow-list: nothing comes
    back, although the answer carries a definition from another source. *)
Lemma search_duckduckgo_unlisted :
  truthy (PStr "to defer action") = true /\
  py_get Example.unlisted_answer "Definition" PNone = Ok (PStr "to defer action") /\
  ~ In "Urban Dictionary" (duckduckgo_sources (config Example.unlisted)) /\
  Search.search_duckduckgo Example.unlisted "procrastinate"
  = (Ok [], [Http "GET" (ddg_url "procrastinate") []]).
Proof.
  split; [reflexivity|]. split; [reflexivity|].
  assert (Hout : ~ In "Urban Dictionary" (duckduckgo_sources (config Example.unlisted))).
  { simpl. intros [H|[]]. discriminate. }
  split; [exact Hout|].
  apply (proj1 (search_duckduckgo_gate Example.unlisted "procrastinate")
           {| status_code := 200; reason := "OK";
              json := Ok Example.unlisted_answer |}
           Example.unlisted_answer (PStr "Urban Dictionary")
           eq_refl eq_refl eq_refl).
  intros s Hs. inversion Hs; subst. exact Hout.
Defined.

(** ** Handles that are always truthy *)

(** When every job handle is truthy at every poll, [all(jobs)] holds at
    once: the loop of [search_and_parse] makes no sleep, whatever the
    maximum duration, and the result holds only the jobs that are complete
    right after they were spawned. *)
Theorem truthy_handles_never_wait (W : world)
    (search_func : string -> M (list pyval)) (term : string)
    (search_result : list pyval) (fuel : nat) :
  (forall job t, request_bool W job t = true) ->
  fst (search_func term) = Ok search_result ->
  Search.poll W fuel (Search.spawn_from W 0 term search_result) 0 0
    = Some (0%nat, 0) /\
  Search.search_and_parse W fuel search_func term
  = Some (Ok (map (enriched W term) (completed_from W 0 search_result 0)),
          snd (search_func term)
          ++ join_trace term search_result 0
               (List.length (completed_from W 0 search_result 0))).
Proof.
  intros Hb Hs.
  assert (Hp : Search.poll W fuel (Search.spawn_from W 0 term search_result) 0 0
               = Some (0%nat, 0)).
  { assert (Hall : Search.all_jobs W (Search.spawn_from W 0 term search_result) 0
                   = true).
    { unfold Search.all_jobs. apply forallb_forall. intros job _. apply Hb. }
    destruct fuel; simpl; rewrite Hall; reflexivity. }
  split; [exact Hp|].
  exact (search_and_parse_eq W fuel search_func term search_result 0%nat 0 Hs Hp).
Qed.

(** On the ten hits, none of which is enriched at once, nothing comes back
    and ten urls are counted lost. *)
Lemma eager_handles_lose_ten_hits :
  (forall job t, request_bool Example.eager job t = true) /\
  exists trace,
    Search.search_and_parse Example.eager 4
      (Search.search_google Example.eager) "procrastinate"
    = Some (Ok [], trace) /\
    last trace Sleep
    = Log INFO "Parsing URLs for '{}' yielded {} results, {} urls lost"
        [AStr "procrastinate"; ANum 0; ANum 10].
Proof.
  split; [reflexivity|].
  destruct (truthy_handles_never_wait Example.eager
              (Search.search_google Example.eager) "procrastinate"
              (map Example.url_object_of Example.numbers) 4
              (fun _ _ => eq_refl) eq_refl) as [_ Hr].
  eexists. split; [exact Hr|].
  unfold join_trace. rewrite !app_assoc. apply last_last.
Defined.

(** * Further properties of the code *)

(** ** The monad, forwards *)

Lemma fst_bind {A B} (m : M A) (f : A -> M B) :
  fst (bind m f)
  = match fst m with
    | Ok a => fst (f a)
    | Raised e => Raised e
    end.
Proof.
  unfold bind. destruct m as [[a|e] t]; simpl; [|reflexivity].
  destruct (f a); reflexivity.
Qed.

Lemma for_append_fst body (g : pyval -> option pyval) : forall items acc,
  (forall x, In x items -> fst (body x) = Ok (g x)) ->
  fst (for_append body items acc) = Ok (acc ++ appended g items).
Proof.
  induction items as [|x items IH]; intros acc H; simpl.
  - now rewrite app_nil_r.
  - rewrite fst_bind, (H x) by now left.
    rewrite IH by (intros y Hy; apply H; now right).
    destruct (g x); simpl; [now rewrite <- app_assoc | reflexivity].
Qed.

Lemma for_append_raises body (g : pyval -> option pyval) e : forall pre x post acc,
  (forall y, In y pre -> fst (body y) = Ok (g y)) ->
  fst (body x) = Raised e ->
  fst (for_append body (pre ++ x :: post) acc) = Raised e.
Proof.
  induction pre as [|y pre IH]; intros x post acc Hpre Hx; simpl.
  - now rewrite fst_bind, Hx.
  - rewrite fst_bind, (Hpre y) by now left.
    apply IH; auto. intros z Hz. apply Hpre. now right.
Qed.

Lemma appended_filter (q : pyval -> bool) (f : pyval -> pyval) items :
  appended (fun x => if q x then Some (f x) else None) items
  = map f (filter q items).
Proof.
  unfold appended. induction items as [|x items IH]; simpl; [reflexivity|].
  destruct (q x); simpl; now rewrite IH.
Qed.

(** ** What Google and Bing results are kept *)

Section AdapterResults.

Variable W : world.

Lemma item_qualifies_value link_key snippet_key item url text path :
  py_getitem item link_key = Ok (PStr url) ->
  py_getitem item snippet_key = Ok (PStr text) ->
  urlparse_path W url = Ok path ->
  fst (Search.qualify_search_result W url text None)
  = Ok (item_qualifies W link_key snippet_key item).
Proof.
  intros Hl Hs Hp. unfold item_qualifies, field_or_none. rewrite Hl, Hs.
  rewrite qualify_value, Hp. now destruct (_ || _).
Qed.

Lemma item_qualifies_clean link_key snippet_key item url :
  item_qualifies W link_key snippet_key item = true ->
  py_getitem item link_key = Ok (PStr url) ->
  ~ excluded_domain W url /\ ~ pdf_path W url.
Proof.
  unfold item_qualifies, field_or_none. intros Hq Hl. rewrite Hl in Hq.
  destruct (py_getitem item snippet_key) as [[| | |text| |]|]; try discriminate.
  rewrite qualify_value in Hq.
  destruct (existsb _ _) eqn:Hdom; [discriminate|].
  destruct (negb (String.eqb text "") && negb (is_english W text));
    [discriminate|].
  cbn [orb] in Hq.
  destruct (urlparse_path W url) as [path|e] eqn:Hp; [|discriminate].
  apply negb_true_iff in Hq.
  split.
  - intros H. apply excluded_domain_iff in H. congruence.
  - intros H. apply (pdf_path_iff W url path Hp) in H. congruence.
Qed.

Ltac run_item Hl Hs Ht Hp :=
  repeat (rewrite fst_bind; cbn [fst lift ret];
          rewrite ?Hl, ?Hs, ?Ht; cbn [as_str]);
  rewrite (item_qualifies_value _ _ _ _ _ _ Hl Hs Hp);
  unfold url_object_from, field_or_none; rewrite Hl, Hs, Ht;
  match goal with
  | |- context [item_qualifies ?w ?a ?b ?i] => destruct (item_qualifies w a b i)
  end;
  repeat (rewrite fst_bind; cbn [fst lift ret]; rewrite ?Ht);
  reflexivity.

Lemma kept_results_clean provider link_key snippet_key title_key items x url :
  Forall (readable_item W link_key snippet_key title_key) items ->
  In x (map (url_object_from provider link_key snippet_key title_key)
          (filter (item_qualifies W link_key snippet_key) items)) ->
  py_getitem x "url" = Ok (PStr url) ->
  ~ excluded_domain W url /\ ~ pdf_path W url.
Proof.
  intros Hall Hin Hu. apply in_map_iff in Hin. destruct Hin as (item & <- & Hin).
  apply filter_In in Hin. destruct Hin as [Hin Hq].
  destruct (proj1 (Forall_forall _ _) Hall item Hin)
    as (u & text & title & Hl & Hs & Ht & _).
  unfold url_object_from, field_or_none in Hu. rewrite Hl in Hu.
  simpl in Hu. inversion Hu; subst.
  exact (item_qualifies_clean link_key snippet_key item url Hq Hl).
Qed.

(** When Google answers with a list of readable items (each with a link
    that [urlparse] splits), [search_google] returns one url object for
    each item that the qualifier accepts, in the order of the answer, and no
    other: no returned url contains an excluded domain or has a path that
    ends in ".pdf". *)
Theorem search_google_keeps_qualified (term : string) (r : response)
    (j : pyval) (items : list pyval) :
  requests_call W "GET" "https://www.googleapis.com/customsearch/v1"
    (google_request W term) = Ok r ->
  json r = Ok j ->
  py_get j "items" (PList []) = Ok (PList items) ->
  Forall (readable_item W "link" "snippet" "title") items ->
  fst (Search.search_google W term)
  = Ok (map (url_object_from "google" "link" "snippet" "title")
          (filter (item_qualifies W "link" "snippet") items)) /\
  forall x url,
    In x (map (url_object_from "google" "link" "snippet" "title")
            (filter (item_qualifies W "link" "snippet") items)) ->
    py_getitem x "url" = Ok (PStr url) ->
    ~ excluded_domain W url /\ ~ pdf_path W url.
Proof.
  intros Hr Hj Hi Hall. split.
  - unfold Search.search_google. rewrite fst_bind.
    match goal with
    | |- context [try_bound ?a ?b ?c] =>
        assert (Htry : fst (try_bound a b c) = Ok (inl (PList items)))
    end.
    { unfold try_bound, Search.requests_get, try_except, bind, emit, lift, ret.
      unfold google_request in Hr. rewrite Hr. cbn [fst snd].
      rewrite Hj, Hi. reflexivity. }
    rewrite Htry. cbv beta iota.
    rewrite fst_bind. cbn [fst lift py_iter]. cbv beta iota.
    rewrite fst_bind.
    rewrite (for_append_fst _
      (fun item => if item_qualifies W "link" "snippet" item
                   then Some (url_object_from "google" "link" "snippet" "title" item)
                   else None)).
    + rewrite appended_filter, fst_bind. reflexivity.
    + intros item Hin.
      destruct (proj1 (Forall_forall _ _) Hall item Hin)
        as (u & text & title & Hl & Hs & Ht & path & Hp).
      run_item Hl Hs Ht Hp.
  - intros x url. now apply kept_results_clean.
Qed.

(** The same for Bing, whose items sit under d.results and are worded Url,
    Description, Title. *)
Theorem search_bing_keeps_qualified (term : string) (r : response)
    (j d : pyval) (items : list pyval) :
  requests_call W "POST" "https://api.datamarket.azure.com/Bing/Search/Web"
    (bing_request term) = Ok r ->
  json r = Ok j ->
  py_get j "d" (PDict []) = Ok d ->
  py_get d "results" (PList []) = Ok (PList items) ->
  Forall (readable_item W "Url" "Description" "Title") items ->
  fst (Search.search_bing W term)
  = Ok (map (url_object_from "bing" "Url" "Description" "Title")
          (filter (item_qualifies W "Url" "Description") items)) /\
  forall x url,
    In x (map (url_object_from "bing" "Url" "Description" "Title")
            (filter (item_qualifies W "Url" "Description") items)) ->
    py_getitem x "url" = Ok (PStr url) ->
    ~ excluded_domain W url /\ ~ pdf_path W url.
Proof.
  intros Hr Hj Hd Hi Hall. split.
  - unfold Search.search_bing. rewrite fst_bind.
    match goal with
    | |- context [try_bound ?a ?b ?c] =>
        assert (Htry : fst (try_bound a b c) = Ok (inl (PList items)))
    end.
    { unfold try_bound, Search.requests_post, try_except, bind, emit, lift, ret.
      unfold bing_request in Hr. rewrite Hr. cbn [fst snd].
      rewrite Hj, Hd, Hi. reflexivity. }
    rewrite Htry. cbv beta iota.
    rewrite fst_bind. cbn [fst lift py_iter]. cbv beta iota.
    rewrite fst_bind.
    rewrite (for_append_fst _
      (fun item => if item_qualifies W "Url" "Description" item
                   then Some (url_object_from "bing" "Url" "Description" "Title" item)
                   else None)).
    + rewrite appended_filter, fst_bind. reflexivity.
    + intros item Hin.
      destruct (proj1 (Forall_forall _ _) Hall item Hin)
        as (u & text & title & Hl & Hs & Ht & path & Hp).
      run_item Hl Hs Ht Hp.
  - intros x url. now apply kept_results_clean.
Qed.

End AdapterResults.

Ltac readable_items :=
  repeat (constructor;
          [do 3 eexists; repeat split; try reflexivity; eexists; reflexivity|]);
  constructor.

Lemma cases_google_readable :
  Forall (readable_item Cases.pins "link" "snippet" "title") Cases.google_items.
Proof. readable_items. Qed.

Lemma cases_bing_readable :
  Forall (readable_item Cases.pins "Url" "Description" "Title") Cases.bing_items.
Proof. readable_items. Qed.

(** Of a pin, a scanned paper and a page, with pinterest.com excluded, only
    the page is returned. *)
Lemma search_google_drops_pins :
  Forall (readable_item Cases.pins "link" "snippet" "title") Cases.google_items /\
  fst (Search.search_google Cases.pins "procrastinate")
  = Ok [PDict [("url", PStr "http://example.org/page");
               ("search_provider", PStr "google"); ("date", PNone);
               ("summary", PStr "to put off doing something");
               ("title", PStr "a page")]].
Proof.
  split; [exact cases_google_readable|].
  destruct (search_google_keeps_qualified Cases.pins "procrastinate"
              Cases.google_answer (PDict [("items", PList Cases.google_items)])
              Cases.google_items eq_refl eq_refl eq_refl cases_google_readable)
    as [H _].
  rewrite H. reflexivity.
Defined.

Lemma search_bing_drops_pins :
  Forall (readable_item Cases.pins "Url" "Description" "Title") Cases.bing_items /\
  fst (Search.search_bing Cases.pins "procrastinate")
  = Ok [PDict [("url", PStr "http://example.org/page");
               ("search_provider", PStr "bing"); ("date", PNone);
               ("summary", PStr "to put off doing something");
               ("title", PStr "a page")]].
Proof.
  split; [exact cases_bing_readable|].
  destruct (search_bing_keeps_qualified Cases.pins "procrastinate"
              Cases.bing_answer
              (PDict [("d", PDict [("results", PList Cases.bing_items)])])
              (PDict [("results", PList Cases.bing_items)])
              Cases.bing_items eq_refl eq_refl eq_refl eq_refl cases_bing_readable)
    as [H _].
  rewrite H. reflexivity.
Defined.

(** ** Answers that cannot be read *)

Section UnreadableAnswers.

Variable W : world.

(** When the provider answers but the body is not JSON, or is JSON other
    than an object, the handler of [search_google] and of [search_bing]
    finds [r] bound: the adapter logs one error line with the status of the
    response and returns the empty list. *)
Theorem unreadable_answer_is_logged (term : string) (r : response) :
  (forall j, json r = Ok j -> forall d, j <> PDict d) ->
  (requests_call W "GET" "https://www.googleapis.com/customsearch/v1"
     (google_request W term) = Ok r ->
   Search.search_google W term
   = (Ok [],
      [Http "GET" "https://www.googleapis.com/customsearch/v1"
         (google_request W term);
       Log ERROR "GOOGLE search failed for '{}' (Status: {} / {})"
         [AStr term; ANum (status_code r); AStr (reason r)]])) /\
  (requests_call W "POST" "https://api.datamarket.azure.com/Bing/Search/Web"
     (bing_request term) = Ok r ->
   Search.search_bing W term
   = (Ok [],
      [Http "POST" "https://api.datamarket.azure.com/Bing/Search/Web"
         (bing_request term);
       Log ERROR "BING search failed for '{}' (Status: {} / {})"
         [AStr term; ANum (status_code r); AStr (reason r)]])).
Proof.
  intros Hbad. split; intros Hr.
  - unfold Search.search_google, try_bound, Search.requests_get, try_except,
      Search.search_failed, bind, emit, lift, ret, log_error.
    unfold google_request in Hr. rewrite Hr. cbn [fst snd].
    destruct (json r) as [j|e] eqn:Hj; [|reflexivity].
    destruct j; try reflexivity. exfalso. exact (Hbad _ eq_refl d eq_refl).
  - unfold Search.search_bing, try_bound, Search.requests_post, try_except,
      Search.search_failed, bind, emit, lift, ret, log_error.
    unfold bing_request in Hr. rewrite Hr. cbn [fst snd].
    destruct (json r) as [j|e] eqn:Hj; [|reflexivity].
    destruct j; try reflexivity. exfalso. exact (Hbad _ eq_refl d eq_refl).
Qed.

(** An item that the loop of [search_google] cannot read (it is no
    dictionary, or has no link, or has a link and no snippet) makes the
    adapter raise, and so does a link that [urlparse] refuses when neither
    the domain test nor the language test has rejected the item: the loop
    runs after the [try] block, and the results gathered from the readable
    items before it are lost with it. *)
Theorem search_google_unreadable_item (term : string) (r : response)
    (j : pyval) (pre post : list pyval) (item : pyval) (e : exn) :
  requests_call W "GET" "https://www.googleapis.com/customsearch/v1"
    (google_request W term) = Ok r ->
  json r = Ok j ->
  py_get j "items" (PList []) = Ok (PList (pre ++ item :: post)) ->
  Forall (readable_item W "link" "snippet" "title") pre ->
  (py_getitem item "link" = Raised e \/
   (exists link, py_getitem item "link" = Ok link /\
                 py_getitem item "snippet" = Raised e) \/
   (exists url text,
      py_getitem item "link" = Ok (PStr url) /\
      py_getitem item "snippet" = Ok (PStr text) /\
      ~ excluded_domain W url /\ ~ not_english W text /\
      urlparse_path W url = Raised e)) ->
  fst (Search.search_google W term) = Raised e.
Proof.
  intros Hr Hj Hi Hall Hitem.
  unfold Search.search_google. rewrite fst_bind.
  match goal with
  | |- context [try_bound ?a ?b ?c] =>
      assert (Htry : fst (try_bound a b c) = Ok (inl (PList (pre ++ item :: post))))
  end.
  { unfold try_bound, Search.requests_get, try_except, bind, emit, lift, ret.
    unfold google_request in Hr. rewrite Hr. cbn [fst snd].
    rewrite Hj, Hi. reflexivity. }
  rewrite Htry. cbv beta iota.
  rewrite fst_bind. cbn [fst lift py_iter]. cbv beta iota.
  rewrite fst_bind.
  rewrite (for_append_raises _
    (fun item => if item_qualifies W "link" "snippet" item
                 then Some (url_object_from "google" "link" "snippet" "title" item)
                 else None) e).
  - reflexivity.
  - intros x Hin.
    destruct (proj1 (Forall_forall _ _) Hall x Hin)
      as (u & text & title & Hl & Hs & Ht & path & Hp).
    repeat (rewrite fst_bind; cbn [fst lift ret];
            rewrite ?Hl, ?Hs, ?Ht; cbn [as_str]).
    rewrite (item_qualifies_value W _ _ _ _ _ _ Hl Hs Hp).
    unfold url_object_from, field_or_none. rewrite Hl, Hs, Ht.
    destruct (item_qualifies W "link" "snippet" x);
      repeat (rewrite fst_bind; cbn [fst lift ret]; rewrite ?Ht);
      reflexivity.
  - destruct Hitem as [Hl | [(link & Hl & Hs) | (url & text & Hl & Hs & Hd & Hn & Hp)]].
    + rewrite fst_bind. cbn [fst lift]. now rewrite Hl.
    + rewrite fst_bind. cbn [fst lift]. rewrite Hl.
      rewrite fst_bind. cbn [fst lift]. now rewrite Hs.
    + repeat (rewrite fst_bind; cbn [fst lift ret];
              rewrite ?Hl, ?Hs; cbn [as_str]).
      rewrite qualify_value, Hp.
      pose proof (early_rejection_iff W url text) as Hearly.
      destruct (_ || _); [|reflexivity].
      exfalso. destruct (proj1 Hearly eq_refl); contradiction.
Qed.

End UnreadableAnswers.

Lemma garbled_answers_are_logged :
  (forall j, json {| status_code := 502; reason := "Bad Gateway";
                     json := Raised (Exc "ValueError") |} = Ok j ->
             forall d, j <> PDict d) /\
  fst (Search.search_google Example.garbled "procrastinate") = Ok [] /\
  fst (Search.search_bing Example.garbled "procrastinate") = Ok [] /\
  List.length (snd (Search.search_bing Example.garbled "procrastinate")) = 2%nat.
Proof.
  assert (Hbad : forall j,
    json {| status_code := 502; reason := "Bad Gateway";
            json := Raised (Exc "ValueError") |} = Ok j ->
    forall d, j <> PDict d) by (intros j H; discriminate).
  split; [exact Hbad|].
  destruct (unreadable_answer_is_logged Example.garbled "procrastinate" _ Hbad)
    as [Hg Hb].
  rewrite (Hg eq_refl), (Hb eq_refl). repeat split; reflexivity.
Defined.

(** Two answers of three items each: in one the second item has no link,
    in the other its link opens a bracket that it never closes.  The page
    before it is lost both times. *)
Lemma search_google_item_without_link :
  py_getitem (PDict [("snippet", PStr "to put off doing something");
                     ("title", PStr "?")]) "link"
    = Raised (KeyError (PStr "link")) /\
  fst (Search.search_google Broken.world_of "procrastinate")
  = Raised (KeyError (PStr "link")) /\
  urlparse_path Unsplit.world_of "http://[oops/x" = Raised (Exc "ValueError") /\
  fst (Search.search_google Unsplit.world_of "procrastinate")
  = Raised (Exc "ValueError").
Proof.
  split; [reflexivity|]. split; [|split; [reflexivity|]].
  - apply (search_google_unreadable_item Broken.world_of "procrastinate"
             Broken.google_answer (PDict [("items", PList Broken.google_items)])
             [Cases.google_item "http://example.org/page" "a page"]
             [Cases.google_item "http://example.org/other" "another page"]
             (PDict [("snippet", PStr "to put off doing something");
                     ("title", PStr "?")])
             (KeyError (PStr "link")) eq_refl eq_refl eq_refl).
    + readable_items.
    + left. reflexivity.
  - apply (search_google_unreadable_item Unsplit.world_of "procrastinate"
             Unsplit.google_answer (PDict [("items", PList Unsplit.google_items)])
             [Cases.google_item "http://example.org/page" "a page"]
             [Cases.google_item "http://example.org/other" "another page"]
             (Cases.google_item "http://[oops/x" "a typo")
             (Exc "ValueError") eq_refl eq_refl eq_refl).
    + readable_items.
    + right. right.
      exists "http://[oops/x", "to put off doing something".
      split; [reflexivity|]. split; [reflexivity|].
      split; [|split; [|reflexivity]].
      * intros H. apply excluded_domain_iff in H. discriminate.
      * intros [_ H]. discriminate.
Defined.

(** ** DuckDuckGo answers that fail *)

Section InstantAnswers.

Variable W : world.

(** [search_duckduckgo] guards only its request: a request that raises and
    a body that is not JSON both give the empty list, with no log line.
    Past the [try], an answer without AbstractSource raises, and so does a
    failure of the sentence extractor on an Abstract of an allowed
    source. *)
Theorem search_duckduckgo_failures (term : string) :
  (forall e,
     requests_call W "GET" (ddg_url term) [] = Raised e ->
     Search.search_duckduckgo W term = (Ok [], [Http "GET" (ddg_url term) []])) /\
  (forall r e,
     requests_call W "GET" (ddg_url term) [] = Ok r ->
     json r = Raised e ->
     Search.search_duckduckgo W term = (Ok [], [Http "GET" (ddg_url term) []])) /\
  (forall r req e,
     requests_call W "GET" (ddg_url term) [] = Ok r ->
     json r = Ok req ->
     py_getitem req "AbstractSource" = Raised e ->
     Search.search_duckduckgo W term = (Raised e, [Http "GET" (ddg_url term) []])) /\
  (forall r req source abstract url e,
     requests_call W "GET" (ddg_url term) [] = Ok r ->
     json r = Ok req ->
     py_getitem req "AbstractSource" = Ok source ->
     Search.in_sources W source = true ->
     py_getitem req "Abstract" = Ok abstract ->
     truthy abstract = true ->
     py_getitem req "AbstractURL" = Ok url ->
     PageRequest_sentences W url term abstract = Raised e ->
     Search.search_duckduckgo W term = (Raised e, [Http "GET" (ddg_url term) []])).
Proof.
  repeat split.
  - intros e Hr.
    unfold Search.search_duckduckgo, Search.requests_get, try_except.
    fold (ddg_url term). unfold bind, lift, ret, emit. rewrite Hr. reflexivity.
  - intros r e Hr Hj.
    unfold Search.search_duckduckgo, Search.requests_get, try_except.
    fold (ddg_url term). unfold bind, lift, ret, emit. rewrite Hr, Hj. reflexivity.
  - intros r req e Hr Hj Hs.
    unfold Search.search_duckduckgo, Search.requests_get, try_except.
    fold (ddg_url term). unfold bind, lift, ret, emit.
    rewrite Hr, Hj. cbn [fst snd app]. rewrite Hs. reflexivity.
  - intros r req source abstract url e Hr Hj Hs Hin Ha Ht Hu He.
    destruct (py_getitem_inv _ _ _ Ha) as (d & -> & Hla).
    unfold Search.search_duckduckgo, Search.requests_get, try_except.
    fold (ddg_url term). unfold bind, lift, ret, emit.
    rewrite Hr, Hj. cbn [fst snd app]. rewrite Hs, Hin. cbn [negb].
    unfold py_get. rewrite Hla, Ht, Hu, Ha, He. reflexivity.
Qed.

End InstantAnswers.

Lemma search_duckduckgo_fails_four_ways :
  Search.search_duckduckgo Example.offline "procrastinate"
    = (Ok [], [Http "GET" (ddg_url "procrastinate") []]) /\
  Search.search_duckduckgo Example.garbled "procrastinate"
    = (Ok [], [Http "GET" (ddg_url "procrastinate") []]) /\
  fst (Search.search_duckduckgo Quick.sourceless "procrastinate")
    = Raised (KeyError (PStr "AbstractSource")) /\
  fst (Search.search_duckduckgo Quick.no_extractor "procrastinate")
    = Raised (Exc "LookupError").
Proof.
  split; [|split; [|split]].
  - apply (proj1 (search_duckduckgo_failures Example.offline "procrastinate")
             (Exc "ConnectionError")). reflexivity.
  - apply (proj1 (proj2 (search_duckduckgo_failures Example.garbled "procrastinate"))
             {| status_code := 502; reason := "Bad Gateway";
                json := Raised (Exc "ValueError") |} (Exc "ValueError")); reflexivity.
  - rewrite (proj1 (proj2 (proj2
               (search_duckduckgo_failures Quick.sourceless "procrastinate")))
             {| status_code := 200; reason := "OK";
                json := Ok Quick.sourceless_answer |}
             Quick.sourceless_answer (KeyError (PStr "AbstractSource"))
             eq_refl eq_refl eq_refl).
    reflexivity.
  - rewrite (proj2 (proj2 (proj2
               (search_duckduckgo_failures Quick.no_extractor "procrastinate")))
             {| status_code := 200; reason := "OK";
                json := Ok Example.instant_answer |}
             Example.instant_answer (PStr "Wikipedia")
             (PStr "Procrastination is the act of delaying.")
             (PStr "http://example.org/0") (Exc "LookupError")
             eq_refl eq_refl eq_refl eq_refl eq_refl eq_refl eq_refl eq_refl).
    reflexivity.
Defined.

(** ** The enrichment of one url object *)

Section Enrichment.

Variable W : world.

(** [extract_wrapper] on a url object that has a url and whose page is
    fetched returns what [merge_dict] makes of the url object and the
    structured page, without a log line.  On a url object without a url
    the lookup fails inside the [try], and fails again in the handler,
    which formats the same field: the exception leaves the function, and
    the url object is not returned. *)
Theorem extract_wrapper_cases (url_object : pyval) (term : string) :
  (forall u structured,
     py_getitem url_object "url" = Ok u ->
     PageRequest_structured W u term = Ok structured ->
     Search.extract_wrapper W url_object term
     = (merge_dict W url_object structured, [])) /\
  (forall e,
     py_getitem url_object "url" = Raised e ->
     Search.extract_wrapper W url_object term = (Raised e, [])).
Proof.
  split.
  - intros u structured Hu Hp. unfold Search.extract_wrapper.
    rewrite Hu. simpl. rewrite Hp. simpl.
    destruct (merge_dict W url_object structured); reflexivity.
  - intros e Hu. unfold Search.extract_wrapper. rewrite Hu.
    assert (Hc : is_exception e = true).
    { unfold py_getitem in Hu.
      destruct url_object; try (injection Hu as <-; reflexivity).
      destruct (dict_lookup _ _); [discriminate|].
      injection Hu as <-. reflexivity. }
    simpl. unfold try_except_Exception. rewrite Hc. reflexivity.
Qed.

End Enrichment.

Lemma extract_wrapper_two_ways :
  (exists enriched_object,
     fst (Search.extract_wrapper Example.the_world (Example.url_object_of "0")
            "procrastinate") = Ok enriched_object /\
     py_getitem enriched_object "doc" = Ok (PStr "Never put off till tomorrow.") /\
     py_getitem enriched_object "title" = Ok (PStr "page 0")) /\
  Search.extract_wrapper Example.the_world Quick.nameless "procrastinate"
  = (Raised (KeyError (PStr "url")), []).
Proof.
  destruct (extract_wrapper_cases Example.the_world (Example.url_object_of "0")
              "procrastinate") as [Hok _].
  destruct (extract_wrapper_cases Example.the_world Quick.nameless
              "procrastinate") as [_ Hbad].
  split.
  - eexists. rewrite (Hok (PStr "http://example.org/0") _ eq_refl eq_refl).
    repeat split; reflexivity.
  - apply Hbad. reflexivity.
Defined.

(** ** Edges of the two joins *)

Section JoinEdges.

Variable W : world.

(** [search_and_parse] has no handler of its own: when the provider raises,
    the exception leaves it before any job is spawned.  When the provider
    finds nothing, [all([])] holds at once: it returns the empty list
    without a sleep and logs no result and no url lost, whatever the
    handles' truth value and the maximum duration. *)
Theorem search_and_parse_on_nothing
    (search_func : string -> M (list pyval)) (term : string) (fuel : nat) :
  (forall e,
     fst (search_func term) = Raised e ->
     Search.search_and_parse W fuel search_func term
     = Some (Raised e, snd (search_func term))) /\
  (fst (search_func term) = Ok [] ->
   Search.search_and_parse W fuel search_func term
   = Some (Ok [],
           snd (search_func term)
           ++ [Log INFO "Parsing URLs for '{}' yielded {} results, {} urls lost"
                 [AStr term; ANum 0; ANum 0]])).
Proof.
  split.
  - intros e He. unfold Search.search_and_parse. now rewrite He.
  - intros Hs.
    assert (Hp : Search.poll W fuel (Search.spawn_from W 0 term []) 0 0
                 = Some (0%nat, 0)) by (destruct fuel; reflexivity).
    rewrite (search_and_parse_eq W fuel search_func term [] 0%nat 0 Hs Hp).
    reflexivity.
Qed.

Lemma reached_max_needs_sleeps t :
  max_search_duration (config W) <= half t -> (sleeps_needed W <= t)%nat.
Proof.
  unfold half, sleeps_needed. intros H.
  assert (Hq : max_search_duration (config W) * 2 <= inject_Z (Z.of_nat t)).
  { apply Qmult_le_r with (z := 1 # 2); [reflexivity|].
    eapply Qle_trans; [|exact H]. apply Qle_lteq. right. ring. }
  apply Qceiling_resp_le in Hq. rewrite Qceiling_Z in Hq. lia.
Qed.

(** The deadline, exactly: when at every poll some handle is falsy, the
    loop makes [sleeps_needed] sleeps, the least number for which the
    tracked half seconds reach the maximum duration; none when the maximum
    is zero or negative. *)
Theorem polling_runs_to_the_deadline
    (search_func : string -> M (list pyval)) (term : string)
    (search_result : list pyval) :
  fst (search_func term) = Ok search_result ->
  (forall t, Search.all_jobs W (Search.spawn_from W 0 term search_result) t = false) ->
  (forall fuel, (sleeps_needed W <= fuel)%nat ->
     exists tw,
       Search.poll W fuel (Search.spawn_from W 0 term search_result) 0 0
         = Some (sleeps_needed W, tw) /\
       tw == half (sleeps_needed W) /\
       Search.search_and_parse W fuel search_func term
       = Some (Ok (map (enriched W term)
                     (completed_from W 0 search_result (sleeps_needed W))),
               snd (search_func term)
               ++ join_trace term search_result (sleeps_needed W)
                    (List.length
                       (completed_from W 0 search_result (sleeps_needed W))))) /\
  max_search_duration (config W) <= half (sleeps_needed W) /\
  (forall u, (u < sleeps_needed W)%nat -> half u < max_search_duration (config W)) /\
  (max_search_duration (config W) <= 0 -> sleeps_needed W = 0%nat).
Proof.
  intros Hs Hnever.
  destruct (poll_stops W (Search.spawn_from W 0 term search_result))
    as (t & tw & Hp & Hh & Hstop & Hrun).
  assert (Hmax : max_search_duration (config W) <= half t).
  { destruct Hstop as [Hall|Hmax]; [rewrite Hnever in Hall; discriminate|].
    now rewrite <- Hh. }
  assert (Ht : t = sleeps_needed W).
  { apply Nat.le_antisymm.
    - destruct (Nat.le_gt_cases t (sleeps_needed W)) as [Hle|Hgt]; [exact Hle|].
      destruct (Hrun (sleeps_needed W) Hgt) as [_ Hlt].
      exfalso. apply (Qlt_not_le _ _ Hlt). apply half_reaches_max. lia.
    - now apply reached_max_needs_sleeps. }
  subst t. split; [|split; [exact Hmax|split]].
  - intros fuel Hf. exists tw. split; [now apply Hp|]. split; [exact Hh|].
    apply (search_and_parse_eq W fuel search_func term search_result
             (sleeps_needed W) tw Hs (Hp fuel Hf)).
  - intros u Hu. now apply Hrun.
  - intros Hneg. apply Nat.le_0_r. apply reached_max_needs_sleeps.
    unfold half. simpl. eapply Qle_trans; [exact Hneg|]. discriminate.
Qed.

Lemma wait_both_never ddg search :
  (forall t, done ddg t && done search t = false) ->
  forall fuel t, Search.wait_both fuel ddg search t = None.
Proof.
  intros H. induction fuel as [|fuel IH]; intros t; simpl; rewrite H; simpl; auto.
Qed.

(** The outer join has no deadline: with a valid engine, when no poll finds
    both jobs complete (one of them hangs), [search_all] never returns,
    however long the loop is run. *)
Theorem search_all_waits_for_ever (term : string)
    (engine : string -> M (list pyval)) :
  Search.engine_get (search_engine (config W)) (Search.engines W) = Some engine ->
  (forall t, ddg_done W t && search_done W t = false) ->
  forall fuel, Search.search_all W fuel term = None.
Proof.
  intros He Hnever fuel. unfold Search.search_all. rewrite He.
  destruct (Search.search_and_parse W fuel engine term); [|reflexivity].
  rewrite wait_both_never; [reflexivity|]. exact Hnever.
Qed.

End JoinEdges.

Lemma search_and_parse_finds_nothing :
  fst (Search.search_duckduckgo Example.offline "procrastinate") = Ok [] /\
  Search.search_and_parse Example.offline 0
    (Search.search_duckduckgo Example.offline) "procrastinate"
  = Some (Ok [],
          [Http "GET" (ddg_url "procrastinate") [];
           Log INFO "Parsing URLs for '{}' yielded {} results, {} urls lost"
             [AStr "procrastinate"; ANum 0; ANum 0]]) /\
  Search.search_and_parse Example.offline 0
    (Search.search_google Example.offline) "procrastinate"
  = Some (Raised (UnboundLocalError "r"),
          snd (Search.search_google Example.offline "procrastinate")).
Proof.
  destruct (search_and_parse_on_nothing Example.offline
              (Search.search_duckduckgo Example.offline) "procrastinate" 0)
    as [_ Hnone].
  destruct (search_and_parse_on_nothing Example.offline
              (Search.search_google Example.offline) "procrastinate" 0)
    as [Hraise _].
  split; [reflexivity|]. split.
  - rewrite (Hnone eq_refl). reflexivity.
  - apply Hraise. reflexivity.
Defined.

(** Ten hits, three of which are never enriched, and two seconds: four
    sleeps. *)
Lemma polling_ten_hits_to_the_deadline :
  fst (Search.search_google Example.the_world "procrastinate")
    = Ok (map Example.url_object_of Example.numbers) /\
  sleeps_needed Example.the_world = 4%nat /\
  exists result trace,
    Search.search_and_parse Example.the_world 4
      (Search.search_google Example.the_world) "procrastinate"
    = Some (Ok result, trace) /\
    List.length (filter (fun ev => match ev with Sleep => true | _ => false end)
                   trace) = 4%nat.
Proof.
  split; [exact example_google_hits|]. split; [reflexivity|].
  assert (Hnever : forall t,
    Search.all_jobs Example.the_world
      (Search.spawn_from Example.the_world 0 "procrastinate"
         (map Example.url_object_of Example.numbers)) t = false).
  { intros t. unfold Search.all_jobs. simpl. now rewrite !andb_false_r. }
  destruct (polling_runs_to_the_deadline Example.the_world
              (Search.search_google Example.the_world) "procrastinate"
              (map Example.url_object_of Example.numbers)
              example_google_hits Hnever) as (Hrun & _).
  destruct (Hrun 4%nat (le_n 4)) as (tw & _ & _ & Hr).
  eexists; eexists. split; [exact Hr|]. reflexivity.
Defined.

Lemma search_all_stuck :
  Search.engine_get (search_engine (config Quick.stuck)) (Search.engines Quick.stuck)
    = Some (Search.search_google Quick.stuck) /\
  (forall t, ddg_done Quick.stuck t && search_done Quick.stuck t = false) /\
  Search.search_all Quick.stuck 1000 "procrastinate" = None.
Proof.
  split; [reflexivity|]. split; [reflexivity|].
  apply (search_all_waits_for_ever Quick.stuck "procrastinate"
           (Search.search_google Quick.stuck) eq_refl (fun _ => eq_refl)).
Defined.

(** ** What the stages write *)

Lemma quiet_lift {A} (o : outcome A) : quiet (lift o).
Proof. reflexivity. Qed.

Lemma quiet_ret {A} (a : A) : quiet (ret a).
Proof. reflexivity. Qed.

Lemma quiet_bind {A B} (m : M A) (f : A -> M B) :
  quiet m -> (forall a, quiet (f a)) -> quiet (bind m f).
Proof.
  unfold quiet, bind. intros Hm Hf. destruct m as [[a|e] t]; simpl in *; subst.
  - specialize (Hf a). destruct (f a). simpl in *. now subst.
  - reflexivity.
Qed.

Lemma quiet_mapM_idx {A B} (f : nat -> A -> M B) :
  (forall n x, quiet (f n x)) -> forall l i, quiet (Tasks.mapM_idx f i l).
Proof.
  intros Hf. induction l as [|x l IH]; intros i; simpl.
  - reflexivity.
  - apply quiet_bind; [apply Hf|]. intros y.
    apply quiet_bind; [apply IH|]. intros ys. apply quiet_ret.
Qed.

Lemma quiet_for_each iterable body :
  (forall n x, quiet (body n x)) -> quiet (Tasks.for_each iterable body).
Proof.
  intros Hb. unfold Tasks.for_each.
  destruct iterable;
    repeat first [ apply quiet_bind; [|intros]
                 | apply quiet_lift | apply quiet_ret
                 | apply quiet_mapM_idx; assumption ].
Qed.

Lemma quiet_in_place f v : quiet (Tasks.in_place f v).
Proof.
  unfold Tasks.in_place. apply quiet_bind; [apply quiet_lift|].
  intros a. apply quiet_ret.
Qed.

Section Writes.

Variable P : pipeline.

Lemma stage_writes_bind {A} task (m : M A) (f : A -> M pyval) :
  quiet m ->
  (forall a, stage_writes P task (f a)) ->
  stage_writes P task (bind m f).
Proof.
  unfold quiet, stage_writes, bind. intros Hm Hf.
  destruct m as [[a|e] t]; simpl in *; subst; [|reflexivity].
  specialize (Hf a). destruct (f a) as [r t']. exact Hf.
Qed.

Lemma stage_writes_message task m :
  stage_writes P task (Tasks.write_message P task m).
Proof.
  unfold stage_writes, Tasks.write_message.
  destruct (py_getitem m "hashslug") as [h|e] eqn:Hh; [|reflexivity].
  destruct (save_messages P); simpl; exists h; split; auto.
Qed.

(** Each stage writes at the very end and nowhere else: a run of [search],
    [detect] or [rate] that returns has written the message it returns,
    once, under the key of the next stage; a run that raises, for whatever
    reason, has written nothing.  [save] itself writes no message. *)
Theorem stages_write_last (message : pyval) :
  stage_writes P "detect" (Tasks.search P message) /\
  stage_writes P "rate" (Tasks.detect P message) /\
  stage_writes P "save" (Tasks.rate P message) /\
  written (snd (Tasks.save P message)) = [].
Proof.
  split; [|split; [|split]].
  - unfold Tasks.search.
    do 4 (apply stage_writes_bind; [apply quiet_lift | intros]).
    apply stage_writes_message.
  - unfold Tasks.detect.
    apply stage_writes_bind; [apply quiet_in_place | intros m1].
    apply stage_writes_bind; [apply quiet_lift | intros urls].
    apply stage_writes_bind.
    { apply quiet_for_each. intros n u.
      apply quiet_bind; [apply quiet_in_place | intros u1].
      apply quiet_bind; [apply quiet_lift | intros sentences].
      apply quiet_bind; [|intros; apply quiet_lift].
      apply quiet_for_each. intros k s.
      do 3 (apply quiet_bind; [apply quiet_lift | intros]).
      apply quiet_lift. }
    intros urls'.
    apply stage_writes_bind; [apply quiet_lift | intros m2].
    apply stage_writes_message.
  - unfold Tasks.rate.
    apply stage_writes_bind; [apply quiet_lift | intros urls].
    apply stage_writes_bind.
    { apply quiet_for_each. intros n u.
      apply quiet_bind; [apply quiet_lift | intros sentences].
      apply quiet_bind; [|intros; apply quiet_lift].
      apply quiet_for_each. intros k s. apply quiet_lift. }
    intros urls'.
    apply stage_writes_bind; [apply quiet_lift | intros m2].
    apply stage_writes_message.
  - assert (H : quiet (Tasks.save P message)).
    { unfold Tasks.save. apply quiet_bind; [apply quiet_lift|].
      intros. apply quiet_ret. }
    unfold quiet in H. now rewrite H.
Qed.

End Writes.

(** ** What [rate] does to a message *)

Lemma mapM_idx_pure {A B} (f : nat -> A -> M B) (g : A -> B) : forall l i,
  (forall n x, nth_error l n = Some x -> f (i + n)%nat x = (Ok (g x), [])) ->
  Tasks.mapM_idx f i l = (Ok (map g l), []).
Proof.
  induction l as [|x l IH]; intros i Hf; simpl; [reflexivity|].
  pose proof (Hf 0%nat x eq_refl) as Hx. rewrite Nat.add_0_r in Hx.
  rewrite Hx, bind_ok_quiet, (IH (S i)), bind_ok_quiet; [reflexivity|].
  intros n y Hn. specialize (Hf (S n) y Hn).
  now replace (S i + n)%nat with (i + S n)%nat by lia.
Qed.

Lemma for_each_list_pure body (g : pyval -> pyval) l :
  (forall n x, nth_error l n = Some x -> body n x = (Ok (g x), [])) ->
  Tasks.for_each (PList l) body = (Ok (PList (map g l)), []).
Proof.
  intros H. unfold Tasks.for_each.
  rewrite (mapM_idx_pure body g l 0 H), bind_ok_quiet. reflexivity.
Qed.

Lemma dict_set_twice k v v' d :
  dict_set k v (dict_set k v' d) = dict_set k v d.
Proof.
  induction d as [|[k0 v0] d IH]; simpl.
  - now rewrite String.eqb_refl.
  - destruct (String.eqb k k0) eqn:E; simpl.
    + now rewrite String.eqb_refl.
    + now rewrite E, IH.
Qed.

Lemma rated_sentence_twice s : rated_sentence (rated_sentence s) = rated_sentence s.
Proof. destruct s; simpl; try reflexivity. now rewrite dict_set_twice. Qed.

Lemma rated_url_twice u : rated_url (rated_url u) = rated_url u.
Proof.
  destruct u as [| | | | |d]; try reflexivity. simpl.
  destruct (dict_lookup "sentences" d) as [[| | | |ss|]|] eqn:E;
    simpl; rewrite ?E; try reflexivity.
  rewrite lookup_dict_set, String.eqb_refl, dict_set_twice, map_map.
  do 2 f_equal. f_equal. apply map_ext. apply rated_sentence_twice.
Qed.

Lemma rated_twice m : rated (rated m) = rated m.
Proof.
  destruct m as [| | | | |d]; try reflexivity. simpl.
  destruct (dict_lookup "urls" d) as [[| | | |us|]|] eqn:E;
    simpl; rewrite ?E; try reflexivity.
  rewrite lookup_dict_set, String.eqb_refl, dict_set_twice, map_map.
  do 2 f_equal. f_equal. apply map_ext. apply rated_url_twice.
Qed.

Lemma rated_url_rateable u : rateable u -> rateable (rated_url u).
Proof.
  intros (ss & Hss & Hd). destruct (py_getitem_inv _ _ _ Hss) as (d & -> & Hl).
  exists (map rated_sentence ss). simpl. rewrite Hl. simpl.
  rewrite lookup_dict_set, String.eqb_refl. split; [reflexivity|].
  apply Forall_forall. intros s Hin. apply in_map_iff in Hin.
  destruct Hin as (s0 & <- & Hin0).
  destruct (proj1 (Forall_forall _ _) Hd s0 Hin0) as [sd ->]. simpl. eauto.
Qed.

Section Rating.

Variable P : pipeline.

Lemma rate_url_pure u :
  rateable u ->
  (sentences <- lift (py_getitem u "sentences") ;;
   sentences <- Tasks.for_each sentences (fun _ sentence =>
       lift (py_setitem sentence "rating" (PInt 0))) ;;
   lift (py_setitem u "sentences" sentences)) = (Ok (rated_url u), []).
Proof.
  intros (ss & Hss & Hd).
  destruct (py_getitem_inv _ _ _ Hss) as (d & -> & Hl).
  rewrite Hss. unfold lift at 1. rewrite bind_ok_quiet.
  rewrite (for_each_list_pure _ rated_sentence).
  - rewrite bind_ok_quiet. simpl. now rewrite Hl.
  - intros k s Hk.
    destruct (proj1 (Forall_forall _ _) Hd s (nth_error_In _ _ Hk)) as [sd ->].
    reflexivity.
Qed.

Lemma rate_is_rated m urls :
  py_getitem m "urls" = Ok (PList urls) ->
  Forall rateable urls ->
  Tasks.rate P m = Tasks.write_message P "save" (rated m).
Proof.
  intros Hu Hall. destruct (py_getitem_inv _ _ _ Hu) as (d & -> & Hl).
  unfold Tasks.rate. rewrite Hu. unfold lift at 1. rewrite bind_ok_quiet.
  rewrite (for_each_list_pure _ rated_url).
  - rewrite bind_ok_quiet. cbn [py_setitem]. unfold lift.
    rewrite bind_ok_quiet. simpl. now rewrite Hl.
  - intros n u Hn. apply rate_url_pure.
    exact (proj1 (Forall_forall _ _) Hall u (nth_error_In _ _ Hn)).
Qed.

(** On a message whose url objects all have their sentences, [rate] writes
    and returns the message with the rating of every sentence set to 0 and
    nothing else changed: in what it returns, every sentence of every url
    object has rating 0. *)
Theorem rate_sets_every_rating (m hashslug : pyval) (urls : list pyval) :
  py_getitem m "hashslug" = Ok hashslug ->
  py_getitem m "urls" = Ok (PList urls) ->
  Forall rateable urls ->
  fst (Tasks.rate P m) = Ok (rated m) /\
  written (snd (Tasks.rate P m))
  = [(("save:" ++ Tasks.py_format P hashslug)%string, rated m)] /\
  py_getitem (rated m) "urls" = Ok (PList (map rated_url urls)) /\
  Forall (fun u =>
            exists sentences,
              py_getitem u "sentences" = Ok (PList sentences) /\
              Forall (fun s => py_getitem s "rating" = Ok (PInt 0)) sentences)
         (map rated_url urls).
Proof.
  intros Hh Hu Hall.
  destruct (py_getitem_inv _ _ _ Hu) as (d & -> & Hl).
  assert (Hr : rated (PDict d) = PDict (dict_set "urls" (PList (map rated_url urls)) d)).
  { simpl. now rewrite Hl. }
  rewrite (rate_is_rated (PDict d) urls Hu Hall).
  destruct (write_message_total P "save" (rated (PDict d)) hashslug)
    as (tr & Hw & Hput).
  { rewrite Hr. now rewrite hashslug_dict_set by reflexivity. }
  rewrite Hw. split; [reflexivity|]. split; [exact Hput|]. split.
  - rewrite Hr. simpl. now rewrite lookup_dict_set.
  - apply Forall_forall. intros u' Hin. apply in_map_iff in Hin.
    destruct Hin as (u & <- & Hin).
    destruct (proj1 (Forall_forall _ _) Hall u Hin) as (ss & Hss & Hd).
    destruct (py_getitem_inv _ _ _ Hss) as (ud & -> & Hls).
    exists (map rated_sentence ss). simpl. rewrite Hls. simpl.
    rewrite lookup_dict_set, String.eqb_refl. split; [reflexivity|].
    apply Forall_forall. intros s' Hin'. apply in_map_iff in Hin'.
    destruct Hin' as (s & <- & Hs).
    destruct (proj1 (Forall_forall _ _) Hd s Hs) as [sd ->].
    simpl. now rewrite lookup_dict_set.
Qed.

(** [rate] is idempotent: run on the message it returned, it writes that
    same message under the same key again. *)
Theorem rate_twice (m : pyval) (urls : list pyval) :
  py_getitem m "urls" = Ok (PList urls) ->
  Forall rateable urls ->
  Tasks.rate P (rated m) = Tasks.rate P m.
Proof.
  intros Hu Hall. destruct (py_getitem_inv _ _ _ Hu) as (d & -> & Hl).
  rewrite (rate_is_rated (PDict d) urls Hu Hall).
  rewrite (rate_is_rated (rated (PDict d)) (map rated_url urls)).
  - now rewrite rated_twice.
  - simpl. rewrite Hl. simpl. now rewrite lookup_dict_set.
  - apply Forall_forall. intros u' Hin. apply in_map_iff in Hin.
    destruct Hin as (u & <- & Hin). apply rated_url_rateable.
    exact (proj1 (Forall_forall _ _) Hall u Hin).
Qed.

End Rating.

Lemma found_rateable : Forall rateable Example.found.
Proof.
  repeat (constructor;
          [eexists; split;
           [reflexivity | repeat (constructor; [eexists; reflexivity|]); constructor]|]).
  constructor.
Qed.

(** The two sentences of the first page found are rated 0. *)
Lemma rate_found_pages :
  Forall rateable Example.found /\
  exists m',
    fst (Tasks.rate Example.the_pipeline Found.searched) = Ok m' /\
    written (snd (Tasks.rate Example.the_pipeline Found.searched))
    = [("save:procrastinate:6ad283", m')] /\
    py_getitem m' "urls"
    = Ok (PList
            [PDict [("url", PStr "http://example.org/0");
                    ("doc", PStr "Never put off till tomorrow. Do it today.");
                    ("sentences",
                     PList [PDict [("s", PStr "Never put off till tomorrow.");
                                   ("s_clean", PStr "never put off till tomorrow");
                                   ("rating", PInt 0)];
                            PDict [("s", PStr "Do it today.");
                                   ("s_clean", PStr "do it today");
                                   ("rating", PInt 0)]])];
             PDict [("url", PStr "http://example.org/1"); ("doc", PStr "");
                    ("sentences", PList [])]]).
Proof.
  split; [exact found_rateable|].
  destruct (rate_sets_every_rating Example.the_pipeline Found.searched
              (PStr "procrastinate:6ad283") Example.found
              eq_refl eq_refl found_rateable) as (Hf & Hw & Hu & _).
  exists (rated Found.searched). split; [exact Hf|]. split; [exact Hw|].
  rewrite Hu. reflexivity.
Defined.

Lemma rate_found_pages_twice :
  Forall rateable Example.found /\
  exists m' tr,
    Tasks.rate Example.the_pipeline Found.searched = (Ok m', tr) /\
    Tasks.rate Example.the_pipeline m' = (Ok m', tr).
Proof.
  split; [exact found_rateable|].
  pose proof (rate_twice Example.the_pipeline Found.searched Example.found
                eq_refl found_rateable) as H.
  exists (rated Found.searched),
         (snd (Tasks.rate Example.the_pipeline Found.searched)).
  split; [reflexivity|]. rewrite H. reflexivity.
Defined.

(** ** What [detect] does to a sentence *)

Lemma mapM_idx_post {A B} (f : nat -> A -> M B) (Q : B -> Prop) :
  forall l i r tr,
    (forall n x y t, nth_error l n = Some x ->
       f (i + n)%nat x = (Ok y, t) -> Q y) ->
    Tasks.mapM_idx f i l = (Ok r, tr) ->
    Forall Q r.
Proof.
  induction l as [|x l IH]; intros i r tr Hf H; simpl in H.
  - inv_run. constructor.
  - inv_run. constructor.
    + apply (Hf 0%nat x a t eq_refl). now rewrite Nat.add_0_r.
    + apply (IH (S i) a0 t1); auto.
      intros n x' y t' Hn Hr. apply (Hf (S n) x' y t' Hn).
      now replace (i + S n)%nat with (S i + n)%nat by lia.
Qed.

Lemma for_each_post (Q : pyval -> Prop) iterable body r tr :
  (forall l n x y t, iterable = PList l -> nth_error l n = Some x ->
     body n x = (Ok y, t) -> Q y) ->
  Tasks.for_each iterable body = (Ok r, tr) ->
  forall l', r = PList l' -> Forall Q l'.
Proof.
  intros Hb H l' ->. unfold Tasks.for_each in H.
  destruct iterable as [| | |s|l|d];
    apply bind_inv in H; destruct H as (a & t1 & t2 & H1 & H2 & ->).
  1-4,6: apply bind_inv in H2; destruct H2 as (a' & t3 & t4 & _ & H3 & ->);
         apply ret_inv in H3; destruct H3 as [H3 _]; discriminate.
  apply ret_inv in H2. destruct H2 as [H2 _]. inversion H2; subst.
  apply (mapM_idx_post body Q l 0 l' t1); [|exact H1].
  intros n x y t' Hn Hr. simpl in Hr. eapply Hb; eauto.
Qed.

Section Tagging.

Variable P : pipeline.

Lemma detect_sentence_tagged l n x y t :
  nth_error l n = Some x ->
  (sentence <- lift (Tasks.py_index (PList l) n) ;;
   sentence_clean <- lift (py_getitem sentence "s_clean") ;;
   patterns <- lift (match_wordnik_rules P sentence_clean) ;;
   lift (py_setitem sentence "patterns" patterns)) = (Ok y, t) ->
  tagged P y.
Proof.
  intros Hn H. inv_run.
  match goal with Hi : Tasks.py_index _ _ = Ok _ |- _ =>
    simpl in Hi; rewrite Hn in Hi; inversion Hi; subst; clear Hi end.
  match goal with Hc : py_getitem ?v "s_clean" = Ok ?c |- _ =>
    destruct (py_getitem_inv _ _ _ Hc) as (sd & Hv & Hl); subst v; exists c end.
  match goal with Hs : py_setitem _ _ ?p = Ok _ |- _ =>
    simpl in Hs; inversion Hs; subst; clear Hs; exists p end.
  split; [|split; [assumption|]].
  - simpl. rewrite lookup_dict_set. simpl. now rewrite Hl.
  - simpl. now rewrite lookup_dict_set.
Qed.

Lemma detect_leaves_tagged (m m2 : pyval) (tr : list event) :
  Tasks.detect P m = (Ok m2, tr) ->
  exists urls2,
    py_getitem m2 "urls" = Ok urls2 /\
    forall us, urls2 = PList us ->
      Forall (fun u =>
                exists sentences,
                  py_getitem u "sentences" = Ok sentences /\
                  forall ss, sentences = PList ss -> Forall (tagged P) ss) us.
Proof.
  unfold Tasks.detect. intros H. inv_run.
  match goal with Hw : Tasks.write_message _ _ _ = _ |- _ =>
    apply write_message_inv in Hw; destruct Hw as (-> & _) end.
  match goal with Hs : py_setitem _ "urls" ?u = Ok _ |- _ =>
    apply py_setitem_inv in Hs; destruct Hs as (d & _ & ->); exists u end.
  split; [simpl; now rewrite lookup_dict_set|].
  match goal with Hf : Tasks.for_each _ _ = _ |- _ =>
    eapply for_each_post; [|exact Hf] end.
  intros l n u u' tu _ _ Hu. cbv beta in Hu. inv_run.
  match goal with Hs : py_setitem _ "sentences" ?ss' = Ok _ |- _ =>
    apply py_setitem_inv in Hs; destruct Hs as (ud & _ & ->); exists ss' end.
  split; [simpl; now rewrite lookup_dict_set|].
  match goal with Hf : Tasks.for_each _ _ = _ |- _ =>
    eapply for_each_post; [|exact Hf] end.
  intros l' n' x y t' -> Hn Hbody. cbv beta in Hbody.
  eapply detect_sentence_tagged; eassumption.
Qed.

(** When [detect] returns, each sentence in the list of sentences of each
    url object of the message it returns carries under "patterns" what the
    rule matcher returns on its "s_clean", whatever the annotators did
    before. *)
Theorem detect_tags_every_sentence (m m2 : pyval) (tr : list event) :
  Tasks.detect P m = (Ok m2, tr) ->
  exists urls2,
    py_getitem m2 "urls" = Ok urls2 /\
    forall us, urls2 = PList us ->
      Forall (fun u =>
                exists sentences,
                  py_getitem u "sentences" = Ok sentences /\
                  forall ss, sentences = PList ss -> Forall (tagged P) ss) us.
Proof. apply detect_leaves_tagged. Qed.

Lemma tagged_rated s : tagged P s -> tagged P (rated_sentence s).
Proof.
  intros (clean & patterns & Hc & Hm & Hp).
  destruct (py_getitem_inv _ _ _ Hc) as (d & -> & _).
  exists clean, patterns. simpl in *. rewrite !lookup_dict_set. simpl. auto.
Qed.

(** [detect] and [rate] compose: when [detect] returns a message whose url
    objects have lists of sentences, [rate] returns on it, and in the
    message it writes every sentence has both the patterns that [detect]
    attached and the rating 0. *)
Theorem detect_then_rate (m m2 : pyval) (t2 : list event) (us : list pyval) :
  Tasks.detect P m = (Ok m2, t2) ->
  py_getitem m2 "urls" = Ok (PList us) ->
  Forall rateable us ->
  exists m3 t3 us3,
    Tasks.rate P m2 = (Ok m3, t3) /\
    py_getitem m3 "urls" = Ok (PList us3) /\
    Forall (fun u =>
              exists ss,
                py_getitem u "sentences" = Ok (PList ss) /\
                Forall (fun s => tagged P s /\
                                 py_getitem s "rating" = Ok (PInt 0)) ss) us3.
Proof.
  intros Hd Hu Hall.
  destruct (detect_leaves_tagged m m2 t2 Hd) as (urls2 & Hu2 & Htag).
  assert (urls2 = PList us) by congruence. subst urls2.
  specialize (Htag us eq_refl).
  assert (Hh : exists h, py_getitem m2 "hashslug" = Ok h).
  { unfold Tasks.detect in Hd. inv_run.
    match goal with Hw : Tasks.write_message _ _ _ = _ |- _ =>
      apply write_message_inv in Hw; destruct Hw as (-> & h & Hh & _) end.
    now exists h. }
  destruct Hh as [h Hh].
  destruct (py_getitem_inv _ _ _ Hu) as (d & -> & Hl).
  destruct (write_message_total P "save" (rated (PDict d)) h) as (t3 & Hw & _).
  { simpl. rewrite Hl. now rewrite hashslug_dict_set by reflexivity. }
  exists (rated (PDict d)), t3, (map rated_url us).
  split; [now rewrite (rate_is_rated P (PDict d) us Hu Hall)|].
  split; [simpl; rewrite Hl; simpl; now rewrite lookup_dict_set|].
  apply Forall_forall. intros u' Hin. apply in_map_iff in Hin.
  destruct Hin as (u & <- & Hin).
  destruct (proj1 (Forall_forall _ _) Hall u Hin) as (ss & Hss & Hdicts).
  destruct (proj1 (Forall_forall _ _) Htag u Hin) as (sentences & Hs' & Hts).
  assert (sentences = PList ss) by congruence. subst sentences.
  specialize (Hts ss eq_refl).
  destruct (py_getitem_inv _ _ _ Hss) as (ud & -> & Hls).
  exists (map rated_sentence ss). simpl. rewrite Hls. simpl.
  rewrite lookup_dict_set, String.eqb_refl. split; [reflexivity|].
  apply Forall_forall. intros s' Hin'. apply in_map_iff in Hin'.
  destruct Hin' as (s & <- & Hs). split.
  - apply tagged_rated. exact (proj1 (Forall_forall _ _) Hts s Hs).
  - destruct (proj1 (Forall_forall _ _) Hdicts s Hs) as [sd ->].
    simpl. now rewrite lookup_dict_set.
Qed.

End Tagging.

Lemma detect_found_pages :
  exists m2 tr us,
    Tasks.detect Example.the_pipeline Found.searched = (Ok m2, tr) /\
    py_getitem m2 "urls" = Ok (PList us) /\
    List.length us = 2%nat /\
    Forall (fun u =>
              exists sentences,
                py_getitem u "sentences" = Ok sentences /\
                forall ss, sentences = PList ss ->
                  Forall (tagged Example.the_pipeline) ss) us.
Proof.
  destruct (Tasks.detect Example.the_pipeline Found.searched) as [[m2|e] tr] eqn:Hd;
    [|vm_compute in Hd; discriminate].
  destruct (detect_tags_every_sentence Example.the_pipeline Found.searched m2 tr Hd)
    as (urls2 & Hu & Hall).
  vm_compute in Hd. injection Hd as <- <-.
  vm_compute in Hu. injection Hu as <-.
  do 3 eexists. split; [reflexivity|]. split; [reflexivity|].
  split; [reflexivity|]. apply Hall. reflexivity.
Defined.

(** ** The Diffbot adapter *)

Section CacheResults.

Variable W : world.

Lemma fst_requests_get url params :
  fst (Search.requests_get W url params) = requests_call W "GET" url params.
Proof.
  unfold Search.requests_get, bind, emit, lift.
  destruct (requests_call W "GET" url params); reflexivity.
Qed.

Lemma got_get d k default :
  py_get (PDict d) k default = Ok (got (PDict d) k default).
Proof. unfold got. simpl. destruct (dict_lookup k d); reflexivity. Qed.

Ltac run_fst :=
  repeat (rewrite fst_bind; cbn [fst lift ret]; rewrite ?got_get; cbv beta iota).

Lemma diffbot_entries_length term objects :
  Forall (diffbot_readable W term) objects ->
  List.length (appended (diffbot_entry W term) objects)
  = List.length (filter (fun object => truthy (got object "text" PNone)) objects).
Proof.
  unfold appended. induction 1 as [|object rest [_ Hext] _ IH]; [reflexivity|].
  simpl. rewrite length_app, IH. unfold diffbot_entry.
  destruct (truthy (got object "text" PNone)); [|reflexivity].
  destruct (Hext eq_refl) as ((pr & ->) & (date & ->)). reflexivity.
Qed.

(** When Diffbot answers with a non-empty list of objects,
    [search_diffbot_cache] returns one result for each object that has a
    text, in the order of the answer, and skips the others. *)
Theorem search_diffbot_skips_textless (term : string) (r : response)
    (answer : pyval) (objects : list pyval) :
  requests_call W "GET" "http://api.diffbot.com/v3/search"
    (diffbot_request W term) = Ok r ->
  json r = Ok answer ->
  py_get answer "objects" (PList []) = Ok (PList objects) ->
  objects <> [] ->
  Forall (diffbot_readable W term) objects ->
  fst (Search.search_diffbot_cache W term)
    = Ok (appended (diffbot_entry W term) objects) /\
  List.length (appended (diffbot_entry W term) objects)
    = List.length (filter (fun object => truthy (got object "text" PNone)) objects).
Proof.
  intros Hr Hj Ho Hne Hall. split.
  - assert (Hd : exists d, answer = PDict d /\
                           dict_lookup "objects" d = Some (PList objects)).
    { destruct answer; try discriminate. exists d. split; [reflexivity|].
      simpl in Ho. destruct (dict_lookup "objects" d); inversion Ho; subst;
        [reflexivity | exfalso; apply Hne; reflexivity]. }
    destruct Hd as (d & -> & Hl).
    unfold Search.search_diffbot_cache.
    rewrite fst_bind, fst_requests_get. unfold diffbot_request in Hr. rewrite Hr.
    rewrite fst_bind. cbn [fst lift]. rewrite Hj.
    rewrite fst_bind. cbn [fst lift py_get]. rewrite Hl.
    rewrite fst_bind.
    assert (Ht : truthy (PList objects) = true)
      by (destruct objects; [exfalso; apply Hne; reflexivity | reflexivity]).
    rewrite Ht. cbn [fst ret].
    rewrite fst_bind. cbn [fst lift py_get]. rewrite ?Hl.
    rewrite fst_bind. cbn [fst lift py_iter].
    apply (for_append_fst _ (diffbot_entry W term) objects []).
    intros object Hin.
    destruct (proj1 (Forall_forall _ _) Hall object Hin) as ((od & ->) & Hext).
    unfold diffbot_entry. run_fst.
    destruct (truthy (got (PDict od) "text" PNone)) eqn:Htext; [|reflexivity].
    destruct (Hext eq_refl) as ((pr & Hpr) & (date & Hdate)).
    run_fst. rewrite Hpr. run_fst. rewrite Hdate. reflexivity.
  - now apply diffbot_entries_length.
Qed.

(** When Diffbot's answer has no objects, [search_diffbot_cache] prints
    instead of logging and returns the empty list: "NO RESULTS" when the
    answer reports no error, the error and its code when it reports both.
    An answer that reports an error without a code makes it raise. *)
Theorem search_diffbot_without_objects (term : string) (r : response)
    (answer : pyval) :
  requests_call W "GET" "http://api.diffbot.com/v3/search"
    (diffbot_request W term) = Ok r ->
  json r = Ok answer ->
  py_getitem answer "objects" = Raised (KeyError (PStr "objects")) ->
  (truthy (got answer "error" PNone) = false ->
   Search.search_diffbot_cache W term
   = (Ok [],
      [Http "GET" "http://api.diffbot.com/v3/search" (diffbot_request W term);
       Print "NO RESULTS" []])) /\
  (truthy (got answer "error" PNone) = true ->
   forall code,
     py_getitem answer "errorCode" = Ok code ->
     Search.search_diffbot_cache W term
     = (Ok [],
        [Http "GET" "http://api.diffbot.com/v3/search" (diffbot_request W term);
         Print "Response Error '{}' (code: {})"
           [AVal (got answer "error" PNone); AVal code]])) /\
  (truthy (got answer "error" PNone) = true ->
   forall e,
     py_getitem answer "errorCode" = Raised e ->
     Search.search_diffbot_cache W term
     = (Raised e,
        [Http "GET" "http://api.diffbot.com/v3/search" (diffbot_request W term)])).
Proof.
  intros Hr Hj Ho.
  assert (Hd : exists d, answer = PDict d /\ dict_lookup "objects" d = None).
  { destruct answer; try discriminate. exists d. split; [reflexivity|].
    simpl in Ho. destruct (dict_lookup "objects" d); [discriminate | reflexivity]. }
  destruct Hd as (d & -> & Hl).
  unfold diffbot_request in *.
  repeat split.
  - intros Hfalse.
    unfold Search.search_diffbot_cache, Search.requests_get, bind, emit, lift, ret.
    rewrite Hr. cbn [fst snd]. rewrite Hj. cbn [py_get]. rewrite Hl. cbn [truthy].
    unfold got in Hfalse. cbn [py_get] in Hfalse.
    destruct (dict_lookup "error" d) as [v|]; [rewrite Hfalse|]; reflexivity.
  - intros Htrue code Hc.
    unfold Search.search_diffbot_cache, Search.requests_get, bind, emit, lift, ret.
    rewrite Hr. cbn [fst snd]. rewrite Hj. cbn [py_get]. rewrite Hl. cbn [truthy].
    unfold got in *. cbn [py_get] in *.
    destruct (dict_lookup "error" d) as [v|] eqn:Hv; [|discriminate].
    rewrite Htrue. cbn [py_getitem] in *. rewrite Hv.
    destruct (dict_lookup "errorCode" d); inversion Hc; subst. reflexivity.
  - intros Htrue e Hc.
    unfold Search.search_diffbot_cache, Search.requests_get, bind, emit, lift, ret.
    rewrite Hr. cbn [fst snd]. rewrite Hj. cbn [py_get]. rewrite Hl. cbn [truthy].
    unfold got in *. cbn [py_get] in *.
    destruct (dict_lookup "error" d) as [v|] eqn:Hv; [|discriminate].
    rewrite Htrue. cbn [py_getitem] in *. rewrite Hv.
    destruct (dict_lookup "errorCode" d); inversion Hc; subst. reflexivity.
Qed.

End CacheResults.

Lemma cache_objects_readable :
  Forall (diffbot_readable Cache.found "procrastinate") Cache.objects.
Proof.
  repeat (constructor;
          [split; [eexists; reflexivity
                  | intros _; split; eexists; reflexivity]|]).
  constructor.
Qed.

(** Of three objects, the one without a text is skipped. *)
Lemma search_diffbot_three_objects :
  Forall (diffbot_readable Cache.found "procrastinate") Cache.objects /\
  exists first second,
    fst (Search.search_diffbot_cache Cache.found "procrastinate")
      = Ok [first; second] /\
    py_getitem first "url" = Ok (PStr "http://example.org/a") /\
    py_getitem second "url" = Ok (PStr "http://example.org/c") /\
    py_getitem second "search_provider" = Ok (PStr "diffbot").
Proof.
  split; [exact cache_objects_readable|].
  destruct (search_diffbot_skips_textless Cache.found "procrastinate"
              {| status_code := 200; reason := "OK";
                 json := Ok (PDict [("objects", PList Cache.objects)]) |}
              (PDict [("objects", PList Cache.objects)]) Cache.objects
              eq_refl eq_refl eq_refl) as [H _].
  - discriminate.
  - exact cache_objects_readable.
  - do 2 eexists. rewrite H. repeat split; reflexivity.
Defined.

Lemma search_diffbot_no_objects :
  Search.search_diffbot_cache Cache.empty "procrastinate"
  = (Ok [],
     [Http "GET" "http://api.diffbot.com/v3/search"
        (diffbot_request Cache.empty "procrastinate");
      Print "NO RESULTS" []]) /\
  snd (Search.search_diffbot_cache Cache.refused "procrastinate")
  = [Http "GET" "http://api.diffbot.com/v3/search"
       (diffbot_request Cache.refused "procrastinate");
     Print "Response Error '{}' (code: {})"
       [AVal (PStr "Not authorized API token."); AVal (PInt 401)]] /\
  fst (Search.search_diffbot_cache Cache.uncoded "procrastinate")
  = Raised (KeyError (PStr "errorCode")).
Proof.
  split; [|split].
  - apply (search_diffbot_without_objects Cache.empty "procrastinate"
             {| status_code := 200; reason := "OK"; json := Ok (PDict []) |}
             (PDict []) eq_refl eq_refl eq_refl). reflexivity.
  - rewrite (proj1 (proj2
               (search_diffbot_without_objects Cache.refused "procrastinate"
                  {| status_code := 200; reason := "OK";
                     json := Ok Cache.refused_answer |}
                  Cache.refused_answer eq_refl eq_refl eq_refl))
               eq_refl (PInt 401) eq_refl).
    reflexivity.
  - rewrite (proj2 (proj2
               (search_diffbot_without_objects Cache.uncoded "procrastinate"
                  {| status_code := 200; reason := "OK";
                     json := Ok Cache.uncoded_answer |}
                  Cache.uncoded_answer eq_refl eq_refl eq_refl))
               eq_refl (KeyError (PStr "errorCode")) eq_refl).
    reflexivity.
Defined.

(** ** What [search] does to a message *)

Section Searching.

Variable P : pipeline.

(** For a message with a word and a hashslug on which the aggregator
    returns, [search] returns the message with "urls" set to the
    aggregator's list and "crawl_date" to the current time, replacing what
    the message had under these two keys, and with every other field as it
    was. *)
Theorem search_replaces_urls (seed word hashslug : pyval) (urls : list pyval) :
  py_getitem seed "word" = Ok word ->
  py_getitem seed "hashslug" = Ok hashslug ->
  search_all P word = Ok urls ->
  exists m1,
    fst (Tasks.search P seed) = Ok m1 /\
    py_getitem m1 "urls" = Ok (PList urls) /\
    py_getitem m1 "crawl_date" = Ok (now P) /\
    forall k, k <> "urls" -> k <> "crawl_date" ->
      py_getitem m1 k = py_getitem seed k.
Proof.
  intros Hw Hh Hs.
  destruct (py_getitem_inv _ _ _ Hw) as (d & -> & _).
  destruct (write_message_total P "detect"
              (PDict (dict_set "crawl_date" (now P)
                        (dict_set "urls" (PList urls) d))) hashslug)
    as (tr & Hwm & _).
  { now rewrite !hashslug_dict_set by reflexivity. }
  exists (PDict (dict_set "crawl_date" (now P) (dict_set "urls" (PList urls) d))).
  split.
  { unfold Tasks.search. rewrite Hw. cbn [lift bind].
    rewrite Hs. cbn [lift bind py_setitem]. rewrite Hwm. reflexivity. }
  unfold py_getitem. rewrite !lookup_dict_set. simpl.
  split; [reflexivity|]. split; [reflexivity|].
  intros k Hk1 Hk2. rewrite !lookup_dict_set.
  apply String.eqb_neq in Hk1, Hk2. now rewrite Hk1, Hk2.
Qed.

End Searching.

(** The urls of the earlier run are gone, the word and the hashslug stay. *)
Lemma search_stale_seed :
  exists m1,
    fst (Tasks.search Example.the_pipeline Stale.seed) = Ok m1 /\
    py_getitem m1 "urls" = Ok (PList Example.found) /\
    py_getitem m1 "crawl_date" = Ok (PStr "2015-11-20T12:00:00") /\
    py_getitem m1 "word" = Ok (PStr "procrastinate") /\
    py_getitem m1 "hashslug" = Ok (PStr "procrastinate:6ad283").
Proof.
  destruct (search_replaces_urls Example.the_pipeline Stale.seed
              (PStr "procrastinate") (PStr "procrastinate:6ad283") Example.found
              eq_refl eq_refl eq_refl) as (m1 & Hr & Hu & Hc & Hk).
  exists m1. split; [exact Hr|]. split; [exact Hu|]. split; [exact Hc|].
  split; rewrite Hk; try reflexivity; discriminate.
Defined.

(** The pages found, through [detect] and [rate]. *)
Lemma detect_then_rate_found_pages :
  exists m2 t2 us m3 t3 us3,
    Tasks.detect Example.the_pipeline Found.searched = (Ok m2, t2) /\
    py_getitem m2 "urls" = Ok (PList us) /\
    Forall rateable us /\
    Tasks.rate Example.the_pipeline m2 = (Ok m3, t3) /\
    py_getitem m3 "urls" = Ok (PList us3) /\
    Forall (fun u =>
              exists ss,
                py_getitem u "sentences" = Ok (PList ss) /\
                Forall (fun s => tagged Example.the_pipeline s /\
                                 py_getitem s "rating" = Ok (PInt 0)) ss) us3.
Proof.
  destruct (Tasks.detect Example.the_pipeline Found.searched) as [[m2|e] t2] eqn:Hd;
    [|vm_compute in Hd; discriminate].
  pose proof Hd as Hd'. vm_compute in Hd'. injection Hd' as <- <-.
  eassert (Hus : Forall rateable _).
  2: destruct (detect_then_rate Example.the_pipeline Found.searched _ _ _
                 Hd eq_refl Hus) as (m3 & t3 & us3 & Hr & Hu3 & Hall).
  2: { do 6 eexists. split; [reflexivity|]. split; [reflexivity|].
       split; [exact Hus|]. split; [exact Hr|]. split; [exact Hu3 | exact Hall]. }
  repeat (constructor;
          [eexists; split;
           [reflexivity | repeat (constructor; [eexists; reflexivity|]); constructor]|]).
  constructor.
Defined.
